(** * Verification of the Keeper credential PDF generator

    A shallow embedding of the two pipelines of the repository,

      - [keeper_pdf_system.py]    (class [KeeperPDFGenerator]), and
      - [keeper_pdf_generator.py] (the template driven provisioning script),

    together with the properties their specification states about them.

    Conventions of the embedding.

      - A Python [str] is a [string]; a character is a code point below 256.
      - A Python [dict] is an association list in insertion order with
        pairwise distinct keys ([PyDict]).
      - The vault SDK, the file system, the logger and the word processor are
        an explicit [World]; code that calls them lives in the monad [M],
        a state monad with exceptions.  Whether an external call raises is
        decided by an oracle carried in the world, so that a statement about
        every run quantifies over every oracle.
      - What the interpreter admits (the levels of recursion left for
        [json.dumps], [json.loads] and [repr], the digits of an [int]) is a
        parameter [Interp]; beyond it the library functions raise
        [RecursionError] or [ValueError] as they do in Python. *)

From Stdlib Require Import Bool Arith ZArith List Ascii String Lia.
From Stdlib Require Import Permutation Sorted DecimalString DecimalZ.
Import ListNotations.

Local Open Scope list_scope.
Local Open Scope string_scope.

Set Implicit Arguments.

(** List concatenation, next to [++] on strings. *)
Local Infix "+++" := app (right associativity, at level 60).
Set Warnings "-register-all".

(* ================================================================== *)
(** * Python strings *)
(* ================================================================== *)

Module PyStr.

(** The double quote and the backslash, which have no literal of their own. *)
Definition dquote : ascii := "034"%char.
Definition backslash : ascii := "092"%char.

Definition code (c : ascii) : N := N_of_ascii c.

(** [s.startswith(p)] *)
Definition startswith (p s : string) : bool := String.prefix p s.

(** [s[n:]] for [0 <= n] *)
Fixpoint drop (n : nat) (s : string) : string :=
  match n, s with
  | O, _ => s
  | S _, EmptyString => EmptyString
  | S n', String _ s' => drop n' s'
  end.

(** [s[:n]] for [0 <= n] *)
Fixpoint take (n : nat) (s : string) : string :=
  match n, s with
  | O, _ => EmptyString
  | S _, EmptyString => EmptyString
  | S n', String c s' => String c (take n' s')
  end.

(** [s.endswith(p)] *)
Definition endswith (p s : string) : bool :=
  (String.length p <=? String.length s)%nat
  && String.eqb (drop (String.length s - String.length p) s) p.

(** Resolution of one slice bound against a length, as [PySlice_AdjustIndices]
    does for a step of 1: a negative bound counts from the end, and the result
    is clamped to [0, len]. *)
Definition adjust_index (len i : Z) : Z :=
  let i' := if (i <? 0)%Z then (i + len)%Z else i in
  if (i' <? 0)%Z then 0%Z else if (len <? i')%Z then len else i'.

(** [s[start:stop]] *)
Definition slice (start stop : Z) (s : string) : string :=
  let len := Z.of_nat (String.length s) in
  let lo := adjust_index len start in
  let hi := adjust_index len stop in
  take (Z.to_nat (hi - lo)) (drop (Z.to_nat lo) s).

(** [sub in s] *)
Fixpoint contains (sub s : string) : bool :=
  String.prefix sub s
  || match s with
     | EmptyString => false
     | String _ s' => contains sub s'
     end.

(** Whether the character [c] occurs in [s]. *)
Fixpoint occurs (c : ascii) (s : string) : bool :=
  match s with
  | EmptyString => false
  | String c' s' => Ascii.eqb c' c || occurs c s'
  end.

(** Whether every character of [s] satisfies [f]. *)
Fixpoint forall_chars (f : ascii -> bool) (s : string) : bool :=
  match s with
  | EmptyString => true
  | String c s' => f c && forall_chars f s'
  end.

(** [s.lower()] on the ASCII letters and the Latin-1 capitals. *)
Definition lower_char (c : ascii) : ascii :=
  let n := code c in
  if ((65 <=? n) && (n <=? 90))%N then ascii_of_N (n + 32)
  else if ((192 <=? n) && (n <=? 222) && negb (n =? 215))%N
       then ascii_of_N (n + 32)
  else c.

Fixpoint lower (s : string) : string :=
  match s with
  | EmptyString => EmptyString
  | String c s' => String (lower_char c) (lower s')
  end.

(** [str.isspace] on one character. *)
Definition is_space (c : ascii) : bool :=
  let n := code c in
  (((9 <=? n) && (n <=? 13)) || ((28 <=? n) && (n <=? 32))
   || (n =? 133) || (n =? 160))%N.

Fixpoint lstrip (s : string) : string :=
  match s with
  | EmptyString => EmptyString
  | String c s' => if is_space c then lstrip s' else s
  end.

(** [rstrip] keeps a character when it is not a space or when something
    survives to its right. *)
Fixpoint rstrip (s : string) : string :=
  match s with
  | EmptyString => EmptyString
  | String c s' =>
      match rstrip s' with
      | EmptyString => if is_space c then EmptyString else String c EmptyString
      | r => String c r
      end
  end.

(** [s.strip()] *)
Definition strip (s : string) : string := rstrip (lstrip s).

(** [s.split(sep)[0]] for a one character separator: the text before the
    first [sep], or all of [s]. *)
Fixpoint split_head (sep : ascii) (s : string) : string :=
  match s with
  | EmptyString => EmptyString
  | String c s' => if Ascii.eqb c sep then EmptyString
                   else String c (split_head sep s')
  end.

(** [s.replace(old, new)] for a non-empty [old]: non-overlapping occurrences
    are replaced scanning from the left.  [skip] counts the characters of the
    occurrence just replaced that are still to be passed over. *)
Fixpoint replace_go (old new : string) (skip : nat) (s : string) : string :=
  match s with
  | EmptyString => EmptyString
  | String c s' =>
      match skip with
      | S k => replace_go old new k s'
      | O =>
          if String.prefix old s
          then new ++ replace_go old new (String.length old - 1) s'
          else String c (replace_go old new 0 s')
      end
  end.

Definition replace (old new s : string) : string := replace_go old new 0 s.

(** [sep.join(l)] *)
Fixpoint join (sep : string) (l : list string) : string :=
  match l with
  | [] => EmptyString
  | [x] => x
  | x :: l' => x ++ sep ++ join sep l'
  end.

(** [str(z)] for an [int]. *)
Definition of_Z (z : Z) : string := NilZero.string_of_int (Z.to_int z).

End PyStr.

(* ================================================================== *)
(** * Python dictionaries with string keys *)
(* ================================================================== *)

Module PyDict.

Section Dict.
Variable V : Type.

Definition dict := list (string * V).

(** [d.get(k)] *)
Fixpoint get (d : dict) (k : string) : option V :=
  match d with
  | [] => None
  | (k', v) :: d' => if String.eqb k' k then Some v else get d' k
  end.

(** [d.get(k, dflt)] *)
Definition get_default (d : dict) (k : string) (dflt : V) : V :=
  match get d k with Some v => v | None => dflt end.

(** [d[k] = v]: a key that is present keeps its position and takes the new
    value, a new key goes to the end. *)
Fixpoint set (d : dict) (k : string) (v : V) : dict :=
  match d with
  | [] => [(k, v)]
  | (k', v') :: d' =>
      if String.eqb k' k then (k', v) :: d' else (k', v') :: set d' k v
  end.

Definition keys (d : dict) : list string := map fst d.
Definition values (d : dict) : list V := map snd d.

(** [dict(pairs)]: the pairs are inserted from left to right. *)
Definition of_pairs (l : list (string * V)) : dict :=
  fold_left (fun d kv => set d (fst kv) (snd kv)) l [].

End Dict.

End PyDict.

(* ================================================================== *)
(** * Exceptions *)
(* ================================================================== *)

(** The exceptions that the modelled code and its libraries raise.
    [ReplacementError] stands for the [re.error] or [IndexError] raised while
    [re.sub] compiles its replacement; [DigitLimitError] for the
    [ValueError] with which the conversion between [int] and text refuses
    more digits than the interpreter admits; [ExternalError n] is raised by
    the [n]-th call of an external collaborator; [OutsideEmbedding] marks a
    value the embedding does not cover (a float, a code point above 255). *)
Inductive exn : Type :=
| KeyError (key : string)
| NameError (name : string)
| TypeError
| ValueError (msg : string)
| ReplacementError
| JSONDecodeError
| RecursionError
| DigitLimitError
| FileNotFoundError (path : string)
| ExternalError (call : nat)
| OutsideEmbedding.

Inductive result (A : Type) : Type :=
| Ok (a : A)
| Raise (e : exn).

Arguments Ok {A} a.
Arguments Raise {A} e.

Definition bindR {A B : Type} (m : result A) (k : A -> result B) : result B :=
  match m with
  | Ok a => k a
  | Raise e => Raise e
  end.

Notation "'let?' x ':=' m 'in' k" := (bindR m (fun x => k))
  (at level 10, x pattern, m at level 100, k at level 200).

(** [f] on every item from left to right, up to the first one that
    raises. *)
Definition mapR {A B : Type} (f : A -> result B) : list A -> result (list B) :=
  fix go (l : list A) : result (list B) :=
    match l with
    | [] => Ok []
    | x :: l' => let? y := f x in let? ys := go l' in Ok (y :: ys)
    end.

(* ================================================================== *)
(** * The limits of the interpreter *)
(* ================================================================== *)

(** What the interpreter admits where the code calls into it.  A call that
    nests deeper than the recursion limit allows raises [RecursionError];
    how many levels are left depends on the call stack, so the three depths
    are parameters: [encoder_depth] and [decoder_depth] are the nestings of
    lists and objects that [json.dumps] and [json.loads] can still enter,
    [repr_depth] the number of nested calls of [repr] that [str] can still
    make.  [int_max_str_digits] is [sys.get_int_max_str_digits()]: the
    number of digits up to which an [int] is converted to and from text,
    where [0] stands for no limit. *)
Record Interp : Type := {
  encoder_depth : nat;
  decoder_depth : nat;
  repr_depth : nat;
  int_max_str_digits : nat
}.

Module PyInt.
Import PyStr.

(** The number of decimal digits of [z]. *)
Definition digits (z : Z) : nat := String.length (of_Z (Z.abs z)).

(** Whether a number of [n] digits is within the limit. *)
Definition within (i : Interp) (n : nat) : bool :=
  (int_max_str_digits i =? 0)%nat || (n <=? int_max_str_digits i)%nat.

Definition fits (i : Interp) (z : Z) : bool := within i (digits z).

(** [str(z)] and [repr(z)] for an [int]. *)
Definition to_str (i : Interp) (z : Z) : result string :=
  if fits i z then Ok (of_Z z) else Raise DigitLimitError.

End PyInt.

(* ================================================================== *)
(** * Python values *)
(* ================================================================== *)

Module PyVal.
Import PyStr.

(** The values the embedding covers: [None], [bool], [int], [str], [list]
    and [dict] with string keys.  Floats and instances of user classes are
    not covered. *)
Inductive pyval : Type :=
| VNone
| VBool (b : bool)
| VInt (z : Z)
| VStr (s : string)
| VList (l : list pyval)
| VDict (d : list (string * pyval)).

(** [bool(v)] *)
Definition truthy (v : pyval) : bool :=
  match v with
  | VNone => false
  | VBool b => b
  | VInt z => negb (z =? 0)%Z
  | VStr s => negb (String.eqb s "")
  | VList l => match l with [] => false | _ => true end
  | VDict d => match d with [] => false | _ => true end
  end.

Definition hex_digit (n : N) : ascii :=
  if (n <? 10)%N then ascii_of_N (48 + n) else ascii_of_N (87 + n).

(** [str.isprintable] on one character. *)
Definition is_printable (c : ascii) : bool :=
  let n := code c in
  (((32 <=? n) && (n <=? 126)) || ((161 <=? n) && (n <=? 172)) || (174 <=? n))%N.

(** One character of [repr(s)] for the quote [q] ([unicode_repr]). *)
Definition repr_char (q c : ascii) : string :=
  let n := code c in
  if Ascii.eqb c q || Ascii.eqb c backslash then String backslash (String c "")
  else if (n =? 9)%N then String backslash "t"
  else if (n =? 10)%N then String backslash "n"
  else if (n =? 13)%N then String backslash "r"
  else if is_printable c then String c ""
  else String backslash
         (String "x" (String (hex_digit (n / 16)) (String (hex_digit (n mod 16)) ""))).

Fixpoint repr_chars (q : ascii) (s : string) : string :=
  match s with
  | EmptyString => EmptyString
  | String c s' => repr_char q c ++ repr_chars q s'
  end.

(** [repr(s)]: single quotes, unless [s] has a single quote and no double
    quote. *)
Definition repr_str (s : string) : string :=
  let q := if contains "'" s && negb (contains (String dquote "") s)
           then dquote else "'"%char in
  String q (repr_chars q s ++ String q "").

(** [repr(v)] *)
Fixpoint py_repr (v : pyval) : string :=
  match v with
  | VNone => "None"
  | VBool true => "True"
  | VBool false => "False"
  | VInt z => of_Z z
  | VStr s => repr_str s
  | VList l => "[" ++ join ", " (map py_repr l) ++ "]"
  | VDict d =>
      "{" ++ join ", " (map (fun kv => repr_str (fst kv) ++ ": " ++ py_repr (snd kv)) d)
          ++ "}"
  end.

(** [str(v)] *)
Definition py_str (v : pyval) : string :=
  match v with
  | VStr s => s
  | _ => py_repr v
  end.

(** [py_repr] and [py_str] are the texts that [repr] and [str] return when
    they return.  The interpreter enters one level of recursion for every
    call of [repr], also for the items of a list or a dictionary, and it
    refuses to write an [int] that has too many digits: [repr i budget v]
    is [repr(v)] with [budget] levels left. *)
Fixpoint repr (i : Interp) (budget : nat) (v : pyval) {struct v} : result string :=
  match budget with
  | O => Raise RecursionError
  | S b =>
      match v with
      | VNone => Ok "None"
      | VBool true => Ok "True"
      | VBool false => Ok "False"
      | VInt z => PyInt.to_str i z
      | VStr s => Ok (repr_str s)
      | VList l =>
          let? parts := mapR (repr i b) l in
          Ok ("[" ++ join ", " parts ++ "]")
      | VDict d =>
          let? parts :=
            mapR (fun kv => let? t := repr i b (snd kv) in
                            Ok (repr_str (fst kv) ++ ": " ++ t)) d in
          Ok ("{" ++ join ", " parts ++ "}")
      end
  end.

(** [str(v)] as the interpreter runs it: a string is returned as it is,
    every other value goes through [repr]. *)
Definition str (i : Interp) (v : pyval) : result string :=
  match v with
  | VStr s => Ok s
  | _ => repr i (repr_depth i) v
  end.


(** Whether every [int] inside [v] is within the digit limit. *)
Fixpoint ints_fit (i : Interp) (v : pyval) : bool :=
  match v with
  | VInt z => PyInt.fits i z
  | VList l => forallb (ints_fit i) l
  | VDict d => forallb (fun kv => ints_fit i (snd kv)) d
  | _ => true
  end.


End PyVal.

(* ================================================================== *)
(** * Logging *)
(* ================================================================== *)

Inductive level : Type := INFO | WARNING | ERROR.

Definition level_eqb (a b : level) : bool :=
  match a, b with
  | INFO, INFO | WARNING, WARNING | ERROR, ERROR => true
  | _, _ => false
  end.

(** One call of [logging.info], [logging.warning] or [logging.error]. *)
Definition log_entry : Type := level * string.

Definition count_level (l : level) (log : list log_entry) : nat :=
  List.length (filter (fun e => level_eqb (fst e) l) log).

(* ================================================================== *)
(** * [keeper_pdf_system.py]: class [KeeperPDFGenerator] *)
(* ================================================================== *)

Module KeeperPdfSystem.
Import PyStr PyVal.

(** ** Data *)

(** A field of a vault record, read with [getattr(field, 'type', 'unknown')]
    and [getattr(field, 'value', '')]: an absent attribute is [None] here. *)
Record typed_field : Type := {
  f_type : option string;
  f_value : option pyval
}.

(** A record object of the SDK, with the attributes the code probes with
    [hasattr]. *)
Record keeper_record : Type := {
  kr_title : string;
  kr_record_uid : string;
  kr_type_name : option string;
  kr_custom : option (list typed_field);
  kr_fields : option (list typed_field)
}.

(** The dictionary built by [_extract_record_fields], restricted to the keys
    that are read afterwards. *)
Record record_data : Type := {
  rd_title : string;
  rd_uid : string;
  rd_type : string;
  rd_fields : PyDict.dict string
}.

(** The dictionary built by [extract_vault_data]; its keys are fixed. *)
Record vault_data : Type := {
  emails : list (PyDict.dict string);
  webmail_url : string;
  website_login : string;
  website_password : string;
  website_url : string;
  statistics_login : string;
  statistics_password : string;
  statistics_url : string;
  smtp_server : string
}.

(** An element of the list built by [get_customer_folders]. *)
Record customer : Type := {
  c_name : string;
  c_uid : string;
  c_category : string;
  c_record_count : nat
}.

(** ** [_extract_record_fields]

    A field value is stored in its string form [py_str], the text that
    [str(field_value)] returns; the values for which [str] raises
    ([PyVal.str]) are not covered here. *)

Definition add_fields (d : PyDict.dict string) (l : list typed_field)
  : PyDict.dict string :=
  fold_left
    (fun d f =>
       let field_type := match f_type f with Some t => t | None => "unknown" end in
       let field_value := match f_value f with Some v => v | None => VStr "" end in
       PyDict.set d field_type (py_str field_value))
    l d.

Definition _extract_record_fields (record : keeper_record) : record_data :=
  match kr_type_name record with
  | Some tn =>
      let d0 := [] in
      let d1 := match kr_custom record with Some l => add_fields d0 l | None => d0 end in
      let d2 := match kr_fields record with Some l => add_fields d1 l | None => d1 end in
      {| rd_title := kr_title record; rd_uid := kr_record_uid record;
         rd_type := tn; rd_fields := d2 |}
  | None =>
      {| rd_title := kr_title record; rd_uid := kr_record_uid record;
         rd_type := "unknown"; rd_fields := [] |}
  end.

(** ** [_clean_field_value] *)

Definition _clean_field_value (i : Interp) (value : pyval) : result string :=
  match value with
  | VStr s =>
      if startswith "['" s && endswith "']" s then Ok (slice 2 (-2) s)
      else if truthy value then str i value else Ok ""
  | VList (x :: _) => str i x
  | _ => if truthy value then str i value else Ok ""
  end.

(** [_clean_field_value] at a string: [str] returns a string as it is, so
    nothing can raise there and the interpreter plays no part. *)
Definition clean_str (s : string) : string :=
  if startswith "['" s && endswith "']" s then slice 2 (-2) s
  else if negb (String.eqb s "") then s else "".

(** ** [extract_vault_data] *)

(** The inner loop of the ['E-Mail-Postfach'] branch. *)
Definition email_step (email_data : PyDict.dict string) (kv : string * string)
  : PyDict.dict string :=
  let (field_type, field_value) := kv in
  let clean_val := clean_str field_value in
  if contains "email" (lower field_type) && negb (String.eqb clean_val "")
  then PyDict.set email_data "email" clean_val
  else if contains "password" (lower field_type) && negb (String.eqb clean_val "")
  then PyDict.set email_data "password" clean_val
  else email_data.

Definition set_emails (vd : vault_data) (l : list (PyDict.dict string)) :=
  {| emails := l; webmail_url := webmail_url vd;
     website_login := website_login vd; website_password := website_password vd;
     website_url := website_url vd; statistics_login := statistics_login vd;
     statistics_password := statistics_password vd;
     statistics_url := statistics_url vd; smtp_server := smtp_server vd |}.

Definition set_webmail_url (vd : vault_data) (v : string) :=
  {| emails := emails vd; webmail_url := v;
     website_login := website_login vd; website_password := website_password vd;
     website_url := website_url vd; statistics_login := statistics_login vd;
     statistics_password := statistics_password vd;
     statistics_url := statistics_url vd; smtp_server := smtp_server vd |}.

Definition set_website (vd : vault_data) (login password url : string) :=
  {| emails := emails vd; webmail_url := webmail_url vd;
     website_login := login; website_password := password;
     website_url := url; statistics_login := statistics_login vd;
     statistics_password := statistics_password vd;
     statistics_url := statistics_url vd; smtp_server := smtp_server vd |}.

Definition set_statistics (vd : vault_data) (login password url : string) :=
  {| emails := emails vd; webmail_url := webmail_url vd;
     website_login := website_login vd; website_password := website_password vd;
     website_url := website_url vd; statistics_login := login;
     statistics_password := password;
     statistics_url := url; smtp_server := smtp_server vd |}.

(** The inner loop shared by the ['Website-Login'] and
    ['Web-Statistik-Login'] branches, on the triple (login, password, url). *)
Definition login_step (acc : string * string * string) (kv : string * string)
  : string * string * string :=
  let '(login, password, url) := acc in
  let (field_type, field_value) := kv in
  let clean_val := clean_str field_value in
  if contains "login" (lower field_type) then (clean_val, password, url)
  else if contains "password" (lower field_type) then (login, clean_val, url)
  else if contains "url" (lower field_type) then (login, password, clean_val)
  else acc.

(** The inner loop of the ['Webmail-URL'] branch. *)
Definition webmail_step (url : string) (kv : string * string) : string :=
  let (field_type, field_value) := kv in
  let clean_val := clean_str field_value in
  if contains "url" (lower field_type) then clean_val else url.

Definition vault_step (vd : vault_data) (record : record_data) : vault_data :=
  let record_type := rd_type record in
  let fields := rd_fields record in
  if contains "E-Mail-Postfach" record_type then
    let email_data := fold_left email_step fields [] in
    match PyDict.get email_data "email" with
    | Some e => if String.eqb e "" then vd
                else set_emails vd (emails vd +++ [email_data])
    | None => vd
    end
  else if contains "Website-Login" record_type then
    let '(l, p, u) :=
      fold_left login_step fields
        (website_login vd, website_password vd, website_url vd) in
    set_website vd l p u
  else if contains "Web-Statistik-Login" record_type then
    let '(l, p, u) :=
      fold_left login_step fields
        (statistics_login vd, statistics_password vd, statistics_url vd) in
    set_statistics vd l p u
  else if contains "Webmail-URL" record_type then
    set_webmail_url vd (fold_left webmail_step fields (webmail_url vd))
  else vd.

Definition empty_vault_data : vault_data :=
  {| emails := []; webmail_url := ""; website_login := "";
     website_password := ""; website_url := ""; statistics_login := "";
     statistics_password := ""; statistics_url := ""; smtp_server := "" |}.

Definition extract_vault_data (records : list record_data) : vault_data :=
  fold_left vault_step records empty_vault_data.

(** ** [build_template_context] *)

(** [sorted(l, key=key)] for string keys: the stable sort, as an insertion
    sort that puts an element before the first one whose key is not smaller. *)
Section Sorted.
Variable A : Type.
Variable key : A -> string.

Fixpoint insert_sorted (x : A) (l : list A) : list A :=
  match l with
  | [] => [x]
  | y :: l' => if String.leb (key x) (key y) then x :: l
               else y :: insert_sorted x l'
  end.

Definition sorted (l : list A) : list A := fold_right insert_sorted [] l.

(** The order the result is sorted by. *)
Definition key_le (a b : A) : Prop := String.leb (key a) (key b) = true.
End Sorted.

(** [customer_name.split('(')[0].strip().replace('.local', '')] *)
Definition customer_domain (customer_name : string) : string :=
  replace ".local" "" (strip (split_head "("%char customer_name)).

Definition email_key (x : PyDict.dict string) : string :=
  PyDict.get_default x "email" "".

(** The four assignments under [if vault_data['emails']:], as the tuple
    (primary_email, primary_password, secondary_email, secondary_password). *)
Definition assign_emails (l : list (PyDict.dict string))
  : string * string * string * string :=
  match l with
  | [] => ("", "", "", "")
  | _ =>
      let emails := sorted email_key l in
      let '(primary_email, primary_password) :=
        match nth_error emails 0 with
        | Some e => (PyDict.get_default e "email" "",
                     PyDict.get_default e "password" "")
        | None => ("", "")
        end in
      let '(secondary_email, secondary_password) :=
        match nth_error emails 1 with
        | Some e => (PyDict.get_default e "email" "",
                     PyDict.get_default e "password" "")
        | None => ("", "")
        end in
      (primary_email, primary_password, secondary_email, secondary_password)
  end.

(** The field [k] of the entry at a position that may not exist. *)
Definition field_at (k : string) (e : option (PyDict.dict string)) : string :=
  match e with
  | Some d => PyDict.get_default d k ""
  | None => ""
  end.

Definition build_template_context (customer_name : string) (vd : vault_data)
  : PyDict.dict string :=
  let customer_domain := customer_domain customer_name in
  let '(primary_email, primary_password, secondary_email, secondary_password) :=
    assign_emails (emails vd) in
  [ ("customer_name", customer_domain);
    ("current_date", "2025");
    ("support_email", "support@kunze-medien.de");
    ("primary_email", primary_email);
    ("primary_email_password", primary_password);
    ("secondary_email", secondary_email);
    ("secondary_email_password", secondary_password);
    ("webmail_url", webmail_url vd);
    ("website_login", website_login vd);
    ("website_password", website_password vd);
    ("website_url", website_url vd);
    ("statistics_login", statistics_login vd);
    ("statistics_password", statistics_password vd);
    ("statistics_url", statistics_url vd);
    ("smtp_server",
       if String.eqb (smtp_server vd) ""
       then "smtp." ++ customer_domain ++ ".local"
       else smtp_server vd);
    ("imap_server", "imap." ++ customer_domain ++ ".local");
    ("pop_server", "pop." ++ customer_domain ++ ".local");
    ("imap_port", "993");
    ("pop_port", "995");
    ("smtp_port", "465") ].

(** ** The collaborators of the class *)

(** What [vault.KeeperRecord.load] does for one record identifier. *)
Inductive load_result : Type :=
| Loaded (r : keeper_record)
| LoadedNone
| LoadRaises (msg : string).

(** The environment of one run: the file system, the synced vault cache and
    the office automation.  [office template_path context docx pdf] is the
    whole [try] block of [generate_pdf], and answers [Some msg] when one of
    its calls raises an exception whose text is [msg]. *)
Record Env : Type := {
  path_exists : string -> bool;
  path_join : string -> string -> string;
  subfolder_record_cache : PyDict.dict (list string);
  load : string -> load_result;
  office : string -> PyDict.dict string -> string -> string -> option string
}.

Definition template_paths : PyDict.dict string :=
  [ ("extern", "temp_templates/ENHANCED_extern_template.docx");
    ("intern", "temp_templates/ENHANCED_intern_template.docx") ].

(** ** [extract_customer_data] *)

Definition load_step (env : Env) (acc : list record_data * list log_entry)
  (record_uid : string) : list record_data * list log_entry :=
  let (records, log) := acc in
  match load env record_uid with
  | Loaded r => (records +++ [_extract_record_fields r], log)
  | LoadedNone => (records, log)
  | LoadRaises msg =>
      (records,
       log +++ [(WARNING, "Error loading record " ++ record_uid ++ ": " ++ msg)])
  end.

Definition extract_customer_data (env : Env) (customer_uid : string)
  : list record_data * list log_entry :=
  match PyDict.get (subfolder_record_cache env) customer_uid with
  | None => ([], [])
  | Some record_uids => fold_left (load_step env) record_uids ([], [])
  end.

(** ** [generate_pdf] *)

Definition generate_pdf (env : Env) (template_path : string)
  (context : PyDict.dict string) (customer_name : string)
  : option string * list log_entry :=
  let output_dir := "generated_pdfs" in
  let safe_name :=
    replace "." "_" (replace ")" "" (replace "(" "" (replace " " "_" customer_name))) in
  let temp_docx := path_join env output_dir (safe_name ++ "_credentials.docx") in
  let pdf_path := replace ".docx" ".pdf" temp_docx in
  match office env template_path context temp_docx pdf_path with
  | None => (Some pdf_path, [(INFO, "PDF generated: " ++ pdf_path)])
  | Some msg => (None, [(ERROR, "Error generating PDF: " ++ msg)])
  end.

(** ** [process_customer]

    The result is the returned flag and the log lines written.  The
    pictographs that open some of the messages are left out. *)
Definition process_customer (env : Env) (c : customer) : bool * list log_entry :=
  let log0 :=
    [(INFO, "Processing customer: " ++ c_name c ++ " (" ++ c_category c ++ ")")] in
  match PyDict.get template_paths (c_category c) with
  | None => (false, log0 +++ [(ERROR, "Template not found: None")])
  | Some template_path =>
      if String.eqb template_path "" || negb (path_exists env template_path)
      then (false, log0 +++ [(ERROR, "Template not found: " ++ template_path)])
      else
        let (records, log1) := extract_customer_data env (c_uid c) in
        match records with
        | [] =>
            (false,
             log0 +++ log1
               +++ [(WARNING, "No records found for customer: " ++ c_name c)])
        | _ =>
            let vd := extract_vault_data records in
            let context := build_template_context (c_name c) vd in
            let (pdf_path, log2) :=
              generate_pdf env template_path context (c_name c) in
            match pdf_path with
            | Some p =>
                if negb (String.eqb p "")
                then (true, log0 +++ log1 +++ log2
                        +++ [(INFO, "Successfully processed: " ++ c_name c)])
                else (false, log0 +++ log1 +++ log2
                        +++ [(ERROR, "Failed to process: " ++ c_name c)])
            | None =>
                (false, log0 +++ log1 +++ log2
                   +++ [(ERROR, "Failed to process: " ++ c_name c)])
            end
        end
  end.

(** ** [run], choice ['A']

    The loop over all customers and the summary line printed after it, as
    the pair (success_count, len(customers)). *)
Record batch_result : Type := {
  success_count : nat;
  total : nat;
  batch_log : list log_entry
}.

Definition run_all (env : Env) (customers : list customer) : batch_result :=
  let (n, log) :=
    fold_left
      (fun (acc : nat * list log_entry) c =>
         let (n, log) := acc in
         let (ok, l) := process_customer env c in
         (if ok then S n else n, log +++ l))
      customers (0%nat, []) in
  {| success_count := n; total := List.length customers; batch_log := log |}.

End KeeperPdfSystem.

(* ================================================================== *)
(** * The [json] module *)
(* ================================================================== *)

Module Json.
Import PyStr.

(** A decoded JSON document.  An object is the list of its items in
    insertion order; numbers are integers. *)
Inductive json : Type :=
| JNull
| JBool (b : bool)
| JInt (z : Z)
| JStr (s : string)
| JArr (l : list json)
| JObj (d : list (string * json)).

(** ** [json.dumps] with its defaults *)

Definition hex_digit (n : N) : ascii :=
  if (n <? 10)%N then ascii_of_N (48 + n) else ascii_of_N (87 + n).

(** One character of [encode_basestring_ascii]. *)
Definition escape_char (c : ascii) : string :=
  let n := code c in
  if Ascii.eqb c dquote then String backslash (String dquote "")
  else if Ascii.eqb c backslash then String backslash (String backslash "")
  else if (n =? 10)%N then String backslash "n"
  else if (n =? 13)%N then String backslash "r"
  else if (n =? 9)%N then String backslash "t"
  else if (n =? 8)%N then String backslash "b"
  else if (n =? 12)%N then String backslash "f"
  else if ((32 <=? n) && (n <=? 126))%N then String c ""
  else String backslash
         (String "u" (String "0" (String "0"
            (String (hex_digit (n / 16)) (String (hex_digit (n mod 16)) ""))))).

Fixpoint escape (s : string) : string :=
  match s with
  | EmptyString => EmptyString
  | String c s' => escape_char c ++ escape s'
  end.

(** [encode_basestring_ascii(s)] *)
Definition encode_basestring_ascii (s : string) : string :=
  String dquote (escape s ++ String dquote "").

(** The encoder of [_make_iterencode], for the string encoder [enc]. *)
Fixpoint print (enc : string -> string) (v : json) : string :=
  match v with
  | JNull => "null"
  | JBool true => "true"
  | JBool false => "false"
  | JInt z => of_Z z
  | JStr s => enc s
  | JArr l => "[" ++ join ", " (map (print enc) l) ++ "]"
  | JObj d =>
      "{" ++ join ", " (map (fun kv => enc (fst kv) ++ ": " ++ print enc (snd kv)) d)
          ++ "}"
  end.

(** The text that [json.dumps] writes for [v] when it returns. *)
Definition text (v : json) : string := print encode_basestring_ascii v.

(** The encoder as the interpreter runs it: it enters one level of
    recursion for every list and every object, also for an empty one, and
    it refuses to write an [int] that has too many digits.  [budget] is the
    number of levels left. *)
Fixpoint encode (i : Interp) (budget : nat) (v : json) {struct v} : result string :=
  match v with
  | JNull => Ok "null"
  | JBool true => Ok "true"
  | JBool false => Ok "false"
  | JInt z => PyInt.to_str i z
  | JStr s => Ok (encode_basestring_ascii s)
  | JArr l =>
      match budget with
      | O => Raise RecursionError
      | S b =>
          let? parts := mapR (encode i b) l in
          Ok ("[" ++ join ", " parts ++ "]")
      end
  | JObj d =>
      match budget with
      | O => Raise RecursionError
      | S b =>
          let? parts :=
            mapR (fun kv => let? t := encode i b (snd kv) in
                            Ok (encode_basestring_ascii (fst kv) ++ ": " ++ t)) d in
          Ok ("{" ++ join ", " parts ++ "}")
      end
  end.

(** [json.dumps(v)] *)
Definition dumps (i : Interp) (v : json) : result string :=
  encode i (encoder_depth i) v.

(** ** [json.loads] *)

Definition is_ws (c : ascii) : bool :=
  let n := code c in ((n =? 32) || (n =? 9) || (n =? 10) || (n =? 13))%N.

Fixpoint skip_ws (s : string) : string :=
  match s with
  | EmptyString => EmptyString
  | String c s' => if is_ws c then skip_ws s' else s
  end.

Definition is_digit (c : ascii) : bool :=
  let n := code c in ((48 <=? n) && (n <=? 57))%N.

Definition hex_val (c : ascii) : option N :=
  let n := code c in
  if ((48 <=? n) && (n <=? 57))%N then Some (n - 48)%N
  else if ((97 <=? n) && (n <=? 102))%N then Some (n - 87)%N
  else if ((65 <=? n) && (n <=? 70))%N then Some (n - 55)%N
  else None.

Definition hex4_val (a b c d : ascii) : option N :=
  match hex_val a, hex_val b, hex_val c, hex_val d with
  | Some x, Some y, Some z, Some w => Some (((x * 16 + y) * 16 + z) * 16 + w)%N
  | _, _, _, _ => None
  end.

(** The character a one-letter escape stands for ([BACKSLASH]). *)
Definition unescape (e : ascii) : option ascii :=
  if Ascii.eqb e dquote then Some dquote
  else if Ascii.eqb e backslash then Some backslash
  else if Ascii.eqb e "/" then Some "/"%char
  else if Ascii.eqb e "b" then Some "008"%char
  else if Ascii.eqb e "f" then Some "012"%char
  else if Ascii.eqb e "n" then Some "010"%char
  else if Ascii.eqb e "r" then Some "013"%char
  else if Ascii.eqb e "t" then Some "009"%char
  else None.

Definition cons_res (c : ascii) (r : result (string * string))
  : result (string * string) :=
  let? (s, rest) := r in Ok (String c s, rest).

(** [scanstring] in strict mode, from the character after the opening
    quote: the decoded string and the text after the closing quote. *)
Fixpoint scanstring (s : string) : result (string * string) :=
  match s with
  | EmptyString => Raise JSONDecodeError
  | String c s' =>
      if Ascii.eqb c dquote then Ok (EmptyString, s')
      else if Ascii.eqb c backslash then
        match s' with
        | EmptyString => Raise JSONDecodeError
        | String e s'' =>
            if Ascii.eqb e "u" then
              match s'' with
              | String h1 (String h2 (String h3 (String h4 s4))) =>
                  match hex4_val h1 h2 h3 h4 with
                  | Some n =>
                      if (n <? 256)%N then cons_res (ascii_of_N n) (scanstring s4)
                      else Raise OutsideEmbedding
                  | None => Raise JSONDecodeError
                  end
              | _ => Raise JSONDecodeError
              end
            else
              match unescape e with
              | Some c' => cons_res c' (scanstring s'')
              | None => Raise JSONDecodeError
              end
        end
      else if (code c <? 32)%N then Raise JSONDecodeError
      else cons_res c (scanstring s')
  end.

(** The longest run of digits at the head of [s], and what follows it. *)
Fixpoint span_digits (s : string) : string * string :=
  match s with
  | EmptyString => (EmptyString, EmptyString)
  | String c s' =>
      if is_digit c
      then let (ds, rest) := span_digits s' in (String c ds, rest)
      else (EmptyString, s)
  end.

(** Whether a fraction or an exponent follows the integer part, which makes
    the number a float. *)
Definition starts_float (rest : string) : bool :=
  match rest with
  | String "." (String d _) => is_digit d
  | String e (String d rest') =>
      (Ascii.eqb e "e" || Ascii.eqb e "E")
      && (is_digit d
          || ((Ascii.eqb d "+" || Ascii.eqb d "-")
              && match rest' with String d' _ => is_digit d' | _ => false end))
  | _ => false
  end.

(** Whether [s] starts with the character [c], and what follows the first
    character. *)
Definition head_is (c : ascii) (s : string) : bool :=
  match s with
  | String c' _ => Ascii.eqb c' c
  | EmptyString => false
  end.

Definition tail (s : string) : string :=
  match s with
  | String _ s' => s'
  | EmptyString => EmptyString
  end.

(** The integer part of the number pattern, after the sign:
    a single [0], or a run of digits that does not start with [0]. *)
Definition scan_digits (s : string) : string * string :=
  if head_is "0" s then ("0", tail s) else span_digits s.

(** An integer is converted with [int], which refuses a text with too many
    digits. *)
Definition parse_number (i : Interp) (s : string) : result (json * string) :=
  let neg := head_is "-" s in
  let s1 := if neg then tail s else s in
  let (ds, rest) := scan_digits s1 in
  if String.eqb ds "" then
    if String.prefix "NaN" s || String.prefix "Infinity" s1
    then Raise OutsideEmbedding else Raise JSONDecodeError
  else if starts_float rest then Raise OutsideEmbedding
  else if negb (PyInt.within i (String.length ds))
  then Raise DigitLimitError
  else match NilEmpty.uint_of_string ds with
       | Some u =>
           let z := Z.of_uint u in
           Ok (JInt (if neg then (- z)%Z else z), rest)
       | None => Raise JSONDecodeError
       end.

(** The scanner.  It enters one level of recursion for every list and every
    object, also for an empty one: [depth] is the number of levels left.
    [fuel] only makes the recursion structural; it bounds the number of
    values, and the length of the text is enough for it. *)
Fixpoint parse_value (i : Interp) (fuel depth : nat) (s : string)
  : result (json * string) :=
  match fuel with
  | O => Raise OutsideEmbedding
  | S f =>
      if head_is dquote s then
        let? (str, rest) := scanstring (tail s) in Ok (JStr str, rest)
      else if head_is "[" s then
        match depth with
        | O => Raise RecursionError
        | S d =>
            let s1 := skip_ws (tail s) in
            if head_is "]" s1 then Ok (JArr [], tail s1)
            else let? (l, rest) := parse_elems i f d s1 in Ok (JArr l, rest)
        end
      else if head_is "{" s then
        match depth with
        | O => Raise RecursionError
        | S d =>
            let s1 := skip_ws (tail s) in
            if head_is "}" s1 then Ok (JObj [], tail s1)
            else let? (l, rest) := parse_pairs i f d s1 in
                 Ok (JObj (PyDict.of_pairs l), rest)
        end
      else if String.prefix "null" s then Ok (JNull, drop 4 s)
      else if String.prefix "true" s then Ok (JBool true, drop 4 s)
      else if String.prefix "false" s then Ok (JBool false, drop 5 s)
      else parse_number i s
  end

with parse_elems (i : Interp) (fuel depth : nat) (s : string)
  : result (list json * string) :=
  match fuel with
  | O => Raise OutsideEmbedding
  | S f =>
      let? (v, rest) := parse_value i f depth s in
      let r := skip_ws rest in
      if head_is "," r then
        let? (l, rest') := parse_elems i f depth (skip_ws (tail r)) in
        Ok (v :: l, rest')
      else if head_is "]" r then Ok ([v], tail r)
      else Raise JSONDecodeError
  end

with parse_pairs (i : Interp) (fuel depth : nat) (s : string)
  : result (list (string * json) * string) :=
  match fuel with
  | O => Raise OutsideEmbedding
  | S f =>
      if head_is dquote s then
        let? (key, rest) := scanstring (tail s) in
        let r := skip_ws rest in
        if head_is ":" r then
          let? (v, rest2) := parse_value i f depth (skip_ws (tail r)) in
          let r2 := skip_ws rest2 in
          if head_is "," r2 then
            let? (l, rest3) := parse_pairs i f depth (skip_ws (tail r2)) in
            Ok ((key, v) :: l, rest3)
          else if head_is "}" r2 then Ok ([(key, v)], tail r2)
          else Raise JSONDecodeError
        else Raise JSONDecodeError
      else Raise JSONDecodeError
  end.

(** [json.loads(s)] *)
Definition loads (i : Interp) (s : string) : result json :=
  let? (v, rest) :=
    parse_value i (S (String.length s)) (decoder_depth i) (skip_ws s) in
  if String.eqb (skip_ws rest) "" then Ok v else Raise JSONDecodeError.

(** ** Functions on documents used in the statements *)

(** [f] applied to every string of a document, the keys included. *)
Fixpoint map_strings (f : string -> string) (v : json) : json :=
  match v with
  | JStr s => JStr (f s)
  | JArr l => JArr (map (map_strings f) l)
  | JObj d => JObj (map (fun kv => (f (fst kv), map_strings f (snd kv))) d)
  | _ => v
  end.

(** The document with every object rebuilt by inserting its items from left
    to right, which is how [loads] builds a dictionary: of two items with one
    key, the later value stays, at the place of the earlier item. *)
Fixpoint normalize (v : json) : json :=
  match v with
  | JArr l => JArr (map normalize l)
  | JObj d => JObj (PyDict.of_pairs (map (fun kv => (fst kv, normalize (snd kv))) d))
  | _ => v
  end.

(** The nesting of lists and objects in a document. *)
Fixpoint depth (v : json) : nat :=
  match v with
  | JArr l => S (fold_right (fun x n => Nat.max (depth x) n) 0 l)
  | JObj d => S (fold_right (fun kv n => Nat.max (depth (snd kv)) n) 0 d)
  | _ => 0
  end.

(** Whether every integer of a document is within the digit limit. *)
Fixpoint ints_fit (i : Interp) (v : json) : bool :=
  match v with
  | JInt z => PyInt.fits i z
  | JArr l => forallb (ints_fit i) l
  | JObj d => forallb (fun kv => ints_fit i (snd kv)) d
  | _ => true
  end.

(** The number of values in a document. *)
Fixpoint size (v : json) : nat :=
  match v with
  | JArr l => S (fold_right (fun x n => S (size x + n)) 0 l)
  | JObj d => S (fold_right (fun kv n => S (size (snd kv) + n)) 0 d)
  | _ => 1
  end.

(** A character that stands for itself inside a JSON string. *)
Definition plain_char (c : ascii) : bool :=
  negb (Ascii.eqb c dquote) && negb (Ascii.eqb c backslash) && (32 <=? code c)%N.

Definition plain (s : string) : bool := forall_chars plain_char s.

(** What follows a value in the text that [dumps] writes: nothing, a comma
    or a closing bracket. *)
Definition closes (rest : string) : bool :=
  match rest with
  | EmptyString => true
  | String c _ => Ascii.eqb c "," || Ascii.eqb c "]" || Ascii.eqb c "}"
  end.

(** The first character of a number. *)
Definition number_start (c : ascii) : bool := is_digit c || Ascii.eqb c "-".

(** A character that [dumps] writes as it is. *)
Definition self_escaped (c : ascii) : bool :=
  String.eqb (escape_char c) (String c "").

(** ** Views of a document, as the code takes them *)

(** [v[key]] *)
Definition getitem (v : json) (key : string) : result json :=
  match v with
  | JObj d => match PyDict.get d key with
              | Some x => Ok x
              | None => Raise (KeyError key)
              end
  | _ => Raise TypeError
  end.

(** [v.get(key, dflt)] *)
Definition get_default (v : json) (key : string) (dflt : json) : result json :=
  match v with
  | JObj d => Ok (PyDict.get_default d key dflt)
  | _ => Raise TypeError
  end.

(** [for x in v]: the items of a list, the characters of a string, the keys
    of an object. *)
Definition iterate (v : json) : result (list json) :=
  match v with
  | JArr l => Ok l
  | JObj d => Ok (map (fun kv => JStr (fst kv)) d)
  | JStr s => Ok (map (fun c => JStr (String c "")) (list_ascii_of_string s))
  | _ => Raise TypeError
  end.

End Json.

(* ================================================================== *)
(** * The [re] module, for a pattern that is a literal *)
(* ================================================================== *)

Module Re.
Import PyStr.

Definition is_oct (c : ascii) : bool :=
  let n := code c in ((48 <=? n) && (n <=? 55))%N.

Definition is_ascii_letter (c : ascii) : bool :=
  let n := code c in
  (((65 <=? n) && (n <=? 90)) || ((97 <=? n) && (n <=? 122)))%N.

Definition oct_val (c : ascii) : N := (code c - 48)%N.

(** The character a one-letter escape of a replacement stands for
    ([ESCAPES]). *)
Definition escape_of (e : ascii) : option ascii :=
  if Ascii.eqb e "a" then Some "007"%char
  else if Ascii.eqb e "b" then Some "008"%char
  else if Ascii.eqb e "f" then Some "012"%char
  else if Ascii.eqb e "n" then Some "010"%char
  else if Ascii.eqb e "r" then Some "013"%char
  else if Ascii.eqb e "t" then Some "009"%char
  else if Ascii.eqb e "v" then Some "011"%char
  else if Ascii.eqb e backslash then Some backslash
  else None.

(** The text up to the first [>], and the text after it. *)
Fixpoint getuntil (s : string) : option (string * string) :=
  match s with
  | EmptyString => None
  | String c s' =>
      if Ascii.eqb c ">" then Some (EmptyString, s')
      else match getuntil s' with
           | Some (name, rest) => Some (String c name, rest)
           | None => None
           end
  end.

(** Whether the text after the sign is made of zeros, in groups separated
    by single underscores; [digit] tells whether a digit came just before. *)
Fixpoint zeros (digit : bool) (s : string) : bool :=
  match s with
  | EmptyString => digit
  | String c s' =>
      if Ascii.eqb c "0" then zeros true s'
      else if Ascii.eqb c "_" then digit && zeros false s'
      else false
  end.

(** Whether the name of a group reference stands for group 0.  A name that
    is no identifier is read with [int], which strips blanks and takes a
    sign and underscores between the digits (since Python 3.12 only a run
    of digits is taken; the other forms were deprecated in 3.11). *)
Definition group_zero (name : string) : bool :=
  let s := strip name in
  zeros false (if Json.head_is "+" s || Json.head_is "-" s then Json.tail s else s).

Definition cons_ok (c : ascii) (r : result string) : result string :=
  let? s := r in Ok (String c s).

(** [parse_template] for a pattern without groups, applied to a match whose
    text is [whole]: the text that replaces the match.  A reference to group
    0 stands for [whole]; a reference to any other group is an error.
    [fuel] bounds the number of characters. *)
Fixpoint expand_template (fuel : nat) (whole repl : string) : result string :=
  match fuel with
  | O => Ok EmptyString
  | S f =>
      match repl with
      | EmptyString => Ok EmptyString
      | String c r =>
          if negb (Ascii.eqb c backslash) then cons_ok c (expand_template f whole r)
          else
            match r with
            | EmptyString => Raise ReplacementError
            | String e r1 =>
                if Ascii.eqb e "g" then
                  match r1 with
                  | String "<" r2 =>
                      match getuntil r2 with
                      | Some (name, r3) =>
                          if group_zero name
                          then let? s := expand_template f whole r3 in
                               Ok (whole ++ s)
                          else Raise ReplacementError
                      | None => Raise ReplacementError
                      end
                  | _ => Raise ReplacementError
                  end
                else if Ascii.eqb e "0" then
                  match r1 with
                  | String d1 r2 =>
                      if is_oct d1 then
                        match r2 with
                        | String d2 r3 =>
                            if is_oct d2
                            then cons_ok (ascii_of_N (oct_val d1 * 8 + oct_val d2))
                                   (expand_template f whole r3)
                            else cons_ok (ascii_of_N (oct_val d1))
                                   (expand_template f whole r2)
                        | EmptyString => Ok (String (ascii_of_N (oct_val d1)) "")
                        end
                      else cons_ok "000"%char (expand_template f whole r1)
                  | EmptyString => Ok (String "000"%char "")
                  end
                else if Json.is_digit e then
                  match r1 with
                  | String d1 (String d2 r3) =>
                      if is_oct e && is_oct d1 && is_oct d2 then
                        let n := ((oct_val e * 8 + oct_val d1) * 8 + oct_val d2)%N in
                        if (255 <? n)%N then Raise ReplacementError
                        else cons_ok (ascii_of_N n) (expand_template f whole r3)
                      else Raise ReplacementError
                  | _ => Raise ReplacementError
                  end
                else
                  match escape_of e with
                  | Some c' => cons_ok c' (expand_template f whole r1)
                  | None =>
                      if is_ascii_letter e then Raise ReplacementError
                      else cons_ok backslash
                             (cons_ok e (expand_template f whole r1))
                  end
            end
      end
  end.

(** [re.sub(pattern, repl, s)] where [pattern] matches exactly the non-empty
    text [lit]: the replacement is compiled first, then the matches are
    replaced from the left. *)
Definition sub_literal (lit repl s : string) : result string :=
  let? r := expand_template (String.length repl) lit repl in
  Ok (replace lit r s).

End Re.

(* ================================================================== *)
(** * [keeper_pdf_generator.py] *)
(* ================================================================== *)

Module KeeperPdfGenerator.
Import PyStr PyVal Json.

(** ** The world outside the script *)

(** A folder of the vault. *)
Record folder_obj : Type := {
  fo_uid : string;
  fo_name : string;
  fo_parent : option string
}.

(** A record of the vault: what a [RecordV3] object carries once it is
    stored.  [ro_fields] is what [set_field] has put into it, and what
    [to_dict()] gives back; [ro_files] are its attachments. *)
Record record_obj : Type := {
  ro_uid : string;
  ro_title : string;
  ro_notes : string;
  ro_fields : PyDict.dict pyval;
  ro_folder : string;
  ro_files : list string
}.

(** The calls of external collaborators, in the order of the script. *)
Inductive event : Type :=
| EvCreateFolder (name : string) (parent : option string)
| EvDeleteFolder (uid : string)
| EvAddRecord (title : string) (folder_uid : string)
| EvDeleteRecord (uid : string)
| EvListRecords (folder_uid : string)
| EvGetRecord (uid : string)
| EvDownloadAttachment (uid : string)
| EvLoadTemplate
| EvRender
| EvMkTemp (suffix : string)
| EvSaveDocx (path : string)
| EvWordDispatch
| EvWordOpen (path : string)
| EvWordSaveAs (path : string)
| EvWordClose
| EvWordQuit
| EvReadFile (path : string)
| EvRemove (path : string)
| EvUpload (uid : string)
| EvSetPermission (uid : string)
| EvShare (uid : string).

(** What the outside decides.  [fails n] tells whether the [n]-th external
    call raises; [fresh n] is the [n]-th name the outside hands out (a vault
    identifier, the path of a temporary file without its suffix, a share
    link); [content p] is what reading the file [p] returns; [interp] are
    the limits of the interpreter that runs the script. *)
Record Outside : Type := {
  fails : nat -> bool;
  fresh : nat -> string;
  content : string -> string;
  interp : Interp
}.

(** The state of everything outside the script.  [calls] and [issued] count
    the external calls made and the names handed out; [trace] lists the
    calls attempted, in order. *)
Record World : Type := {
  outside : Outside;
  calls : nat;
  issued : nat;
  folders : list folder_obj;
  records : list record_obj;
  files : list string;
  log : list log_entry;
  trace : list event
}.

Definition set_calls (w : World) (x : nat) : World :=
  {| outside := outside w; calls := x; issued := issued w;
     folders := folders w; records := records w; files := files w;
     log := log w; trace := trace w |}.

Definition set_issued (w : World) (x : nat) : World :=
  {| outside := outside w; calls := calls w; issued := x;
     folders := folders w; records := records w; files := files w;
     log := log w; trace := trace w |}.

Definition set_folders (w : World) (x : list folder_obj) : World :=
  {| outside := outside w; calls := calls w; issued := issued w;
     folders := x; records := records w; files := files w;
     log := log w; trace := trace w |}.

Definition set_records (w : World) (x : list record_obj) : World :=
  {| outside := outside w; calls := calls w; issued := issued w;
     folders := folders w; records := x; files := files w;
     log := log w; trace := trace w |}.

Definition set_files (w : World) (x : list string) : World :=
  {| outside := outside w; calls := calls w; issued := issued w;
     folders := folders w; records := records w; files := x;
     log := log w; trace := trace w |}.

Definition set_log (w : World) (x : list log_entry) : World :=
  {| outside := outside w; calls := calls w; issued := issued w;
     folders := folders w; records := records w; files := files w;
     log := x; trace := trace w |}.

Definition set_trace (w : World) (x : list event) : World :=
  {| outside := outside w; calls := calls w; issued := issued w;
     folders := folders w; records := records w; files := files w;
     log := log w; trace := x |}.

(** ** The monad of the script: state and exceptions *)

Definition M (A : Type) : Type := World -> result A * World.

Definition ret {A : Type} (a : A) : M A := fun w => (Ok a, w).

Definition raise {A : Type} (e : exn) : M A := fun w => (Raise e, w).

Definition bind {A B : Type} (m : M A) (k : A -> M B) : M B :=
  fun w => match m w with
           | (Ok a, w') => k a w'
           | (Raise e, w') => (Raise e, w')
           end.

Notation "x <- m ;; k" := (bind m (fun x => k))
  (at level 61, m at next level, right associativity).
Notation "m ;;; k" := (bind m (fun _ => k))
  (at level 61, right associativity).

(** A pure computation that may raise. *)
Definition lift {A : Type} (r : result A) : M A := fun w => (r, w).

(** [try: body except Exception as e: handler e] *)
Definition try_except {A : Type} (body : M A) (handler : exn -> M A) : M A :=
  fun w => match body w with
           | (Ok a, w') => (Ok a, w')
           | (Raise e, w') => handler e w'
           end.

(** [for x in l: body x] *)
Fixpoint for_each {A : Type} (l : list A) (body : A -> M unit) : M unit :=
  match l with
  | [] => ret tt
  | x :: l' => body x ;;; for_each l' body
  end.

(** [for x in l: acc = body acc x] *)
Fixpoint for_fold {A S : Type} (l : list A) (acc : S) (body : S -> A -> M S)
  : M S :=
  match l with
  | [] => ret acc
  | x :: l' => acc' <- body acc x ;; for_fold l' acc' body
  end.

(** One call of an external collaborator: it is counted and traced, and it
    raises when the world says so. *)
Definition ext (e : event) : M unit :=
  fun w =>
    let n := calls w in
    let w' := set_trace (set_calls w (S n)) (trace w +++ [e]) in
    if fails (outside w) n then (Raise (ExternalError n), w') else (Ok tt, w').

(** The next name the outside hands out. *)
Definition fresh_name : M string :=
  fun w => (Ok (fresh (outside w) (issued w)), set_issued w (S (issued w))).

Definition logging (l : level) (msg : string) : M unit :=
  fun w => (Ok tt, set_log w (log w +++ [(l, msg)])).

Definition get_world : M World := fun w => (Ok w, w).

(** The limits of the interpreter. *)
Definition interpreter : M Interp := fun w => (Ok (interp (outside w)), w).

Definition modify (f : World -> World) : M unit := fun w => (Ok tt, f w).

(** ** The vault *)

Definition find_folder (w : World) (uid : string) : option folder_obj :=
  find (fun f => String.eqb (fo_uid f) uid) (folders w).

Definition find_record (w : World) (uid : string) : option record_obj :=
  find (fun r => String.eqb (ro_uid r) uid) (records w).

(** Whether the folder [uid] is [root] or lies below it. *)
Fixpoint descends (fuel : nat) (w : World) (root uid : string) : bool :=
  String.eqb uid root
  || match fuel with
     | O => false
     | S f =>
         match find_folder w uid with
         | Some fo => match fo_parent fo with
                      | Some p => descends f w root p
                      | None => false
                      end
         | None => false
         end
     end.

Definition in_tree (w : World) (root uid : string) : bool :=
  descends (List.length (folders w)) w root uid.

(** [api.get_record(params, uid)].  What the SDK does with an identifier
    that the vault does not hold is not in the sources: here the call
    raises, which is what the callers' handlers and checks provide for. *)
Definition get_record (uid : string) : M record_obj :=
  ext (EvGetRecord uid) ;;;
  w <- get_world ;;
  match find_record w uid with
  | Some r => ret r
  | None => raise (KeyError uid)
  end.

(** [FolderMixin.get_records_in_folder_tree(params, folder_uid)] *)
Definition get_records_in_folder_tree (folder_uid : string) : M (list string) :=
  ext (EvListRecords folder_uid) ;;;
  w <- get_world ;;
  ret (map ro_uid (filter (fun r => in_tree w folder_uid (ro_folder r)) (records w))).

(** A [RecordV3] object before it is stored. *)
Record RecordV3 : Type := {
  title : json;
  fields : PyDict.dict pyval
}.

(** [add_record_v3(params, record, folder_uid)]: the record is stored under a
    new identifier, which the call returns in [record.record_uid].  A title
    that is not a string is refused. *)
Definition add_record_v3 (record : RecordV3) (folder_uid : string) : M string :=
  match title record with
  | JStr t =>
      ext (EvAddRecord t folder_uid) ;;;
      uid <- fresh_name ;;
      modify (fun w =>
                set_records w
                  (records w +++
                     [{| ro_uid := uid; ro_title := t; ro_notes := "";
                         ro_fields := fields record; ro_folder := folder_uid;
                         ro_files := [] |}])) ;;;
      ret uid
  | _ => raise TypeError
  end.

(** [api.delete_record(params, uid)] *)
Definition delete_record (uid : string) : M unit :=
  ext (EvDeleteRecord uid) ;;;
  modify (fun w =>
            set_records w
              (filter (fun r => negb (String.eqb (ro_uid r) uid)) (records w))).

(** [upload_attachments(params, record, [task])] *)
Definition upload_attachments (uid name : string) : M unit :=
  ext (EvUpload uid) ;;;
  modify (fun w =>
            set_records w
              (map (fun r =>
                      if String.eqb (ro_uid r) uid
                      then {| ro_uid := ro_uid r; ro_title := ro_title r;
                              ro_notes := ro_notes r; ro_fields := ro_fields r;
                              ro_folder := ro_folder r;
                              ro_files := ro_files r +++ [name] |}
                      else r)
                 (records w))).

(** ** [download_json_template] *)

Definition download_json_template (uid : string) : M json :=
  rec <- get_record uid ;;
  if String.eqb (ro_notes rec) "" then raise (ValueError "No JSON in record notes")
  else i <- interpreter ;; lift (loads i (ro_notes rec)).

(** ** [download_word_template] *)

Definition download_word_template (uid : string) : M string :=
  rec <- get_record uid ;;
  match ro_files rec with
  | [] => raise (ValueError "No attachment in Word template record")
  | file_info :: _ =>
      ext (EvDownloadAttachment uid) ;;;
      ret file_info
  end.

(** ** [substitute_placeholders] *)

(** The text that the pattern [\$\{customer_name\}] matches. *)
Definition placeholder : string := "${customer_name}".

Definition substitute_placeholders (i : Interp) (template : json)
  (customer : PyDict.dict string) : result json :=
  let? json_str := dumps i template in
  let? name := match PyDict.get customer "name" with
               | Some n => Ok n
               | None => Raise (KeyError "name")
               end in
  let? json_str := Re.sub_literal placeholder name json_str in
  loads i json_str.

(** ** [create_folder] and [delete_folder] *)

(** [name] is assigned to a string field of the request, which refuses
    anything else. *)
Definition create_folder (name : json) (parent_uid : string) : M string :=
  match name with
  | JStr n =>
      let parent := if String.eqb parent_uid "" then None else Some parent_uid in
      ext (EvCreateFolder n parent) ;;;
      uid <- fresh_name ;;
      modify (fun w =>
                set_folders w
                  (folders w +++
                     [{| fo_uid := uid; fo_name := n; fo_parent := parent |}])) ;;;
      ret uid
  | _ => raise TypeError
  end.

(** The vault removes the folder with everything below it. *)
Definition delete_folder (folder_uid : string) : M unit :=
  ext (EvDeleteFolder folder_uid) ;;;
  modify (fun w =>
            let gone := fun uid => in_tree w folder_uid uid in
            set_folders
              (set_records w (filter (fun r => negb (gone (ro_folder r))) (records w)))
              (filter (fun f => negb (gone (fo_uid f))) (folders w))).

(** ** [get_folder_records] *)

Definition get_folder_records (folder_uid : string)
  : M (PyDict.dict (PyDict.dict pyval)) :=
  record_uids <- get_records_in_folder_tree folder_uid ;;
  for_fold record_uids []
    (fun records uid =>
       rec <- get_record uid ;;
       ret (PyDict.set records (ro_title rec) (ro_fields rec))).

(** ** [process_customer]

    The body of the function, in the order of its lines, cut into the phases
    that the specification names. *)

(** [subfolder_uids.get(folder, root_folder_uid)]: a list or an object is
    not hashable; any other value that is not a string is no key of the
    dictionary. *)
Definition lookup_folder (subfolder_uids : PyDict.dict string) (folder : json)
  (root_folder_uid : string) : result string :=
  match folder with
  | JStr s => Ok (PyDict.get_default subfolder_uids s root_folder_uid)
  | JArr _ | JObj _ => Raise TypeError
  | _ => Ok root_folder_uid
  end.

(** Lines 145-157: the root folder, the subfolders, the records. *)
Definition create_structure (template : json) (target_folder_uid : string)
  : M (string * PyDict.dict string) :=
  root_name <- lift (getitem template "root_folder") ;;
  root_folder_uid <- create_folder root_name target_folder_uid ;;
  subs <- lift (let? l := get_default template "subfolders" (JArr []) in iterate l) ;;
  subfolder_uids <-
    for_fold subs []
      (fun subfolder_uids sub =>
         sub_uid <- create_folder sub root_folder_uid ;;
         match sub with
         | JStr s => ret (PyDict.set subfolder_uids s sub_uid)
         | _ => raise TypeError
         end) ;;
  recs <- lift (let? l := get_default template "records" (JArr []) in iterate l) ;;
  for_each recs
    (fun rec_data =>
       folder <- lift (getitem rec_data "folder") ;;
       folder_uid <- lift (lookup_folder subfolder_uids folder root_folder_uid) ;;
       rec_title <- lift (getitem rec_data "title") ;;
       add_record_v3 {| title := rec_title; fields := [] |} folder_uid ;;;
       ret tt) ;;;
  ret (root_folder_uid, subfolder_uids).

(** Lines 161-163: the two nested loops that fill the context. *)
Definition add_record_fields (V : Type) (context : PyDict.dict V)
  (item : string * PyDict.dict V) : PyDict.dict V :=
  let (rec_title, data) := item in
  fold_left
    (fun context (fv : string * V) =>
       PyDict.set context (rec_title ++ "_" ++ fst fv) (snd fv))
    data context.

Definition fill_context (V : Type) (context : PyDict.dict V)
  (records : PyDict.dict (PyDict.dict V)) : PyDict.dict V :=
  fold_left (@add_record_fields V) records context.

(** Lines 136-140, on the records that the vault returns: the dictionary
    [records], filled by [records[rec.title] = rec.to_dict()]. *)
Definition records_by_title (V : Type) (l : list (string * PyDict.dict V))
  : PyDict.dict (PyDict.dict V) :=
  fold_left (fun records r => PyDict.set records (fst r) (snd r)) l [].

(** [customer['name']] *)
Definition customer_name (customer : PyDict.dict string) : result string :=
  match PyDict.get customer "name" with
  | Some n => Ok n
  | None => Raise (KeyError "name")
  end.

(** Lines 159-163. *)
Definition collect_context (customer : PyDict.dict string) (root_folder_uid : string)
  : M (PyDict.dict pyval) :=
  name <- lift (customer_name customer) ;;
  records <- get_folder_records root_folder_uid ;;
  ret (fill_context [("customer_name", VStr name)] records).

(** A name that the function body does not bind is looked up in the module. *)
Definition global_name (globals : PyDict.dict string) (name : string) : result string :=
  match PyDict.get globals name with
  | Some v => Ok v
  | None => Raise (NameError name)
  end.

(** [tempfile.NamedTemporaryFile(suffix=suffix, delete=False)]: the file
    exists from here on. *)
Definition named_temporary_file (suffix : string) : M string :=
  ext (EvMkTemp suffix) ;;;
  n <- fresh_name ;;
  let path := n ++ suffix in
  modify (fun w => set_files w (files w +++ [path])) ;;;
  ret path.

(** [os.remove(path)] *)
Definition os_remove (path : string) : M unit :=
  ext (EvRemove path) ;;;
  w <- get_world ;;
  if existsb (String.eqb path) (files w)
  then modify (fun w => set_files w (filter (fun p => negb (String.eqb p path)) (files w)))
  else raise (FileNotFoundError path).

(** [open(path, 'rb').read()] *)
Definition read_file (path : string) : M string :=
  ext (EvReadFile path) ;;;
  w <- get_world ;;
  if existsb (String.eqb path) (files w)
  then ret (content (outside w) path)
  else raise (FileNotFoundError path).

(** Lines 164-180: the Word template is rendered, saved and converted, and
    the two temporary files are removed. *)
Definition render_convert (globals : PyDict.dict string)
  (context : PyDict.dict pyval) : M string :=
  word_uid <- lift (global_name globals "word_uid") ;;
  download_word_template word_uid ;;;
  ext EvLoadTemplate ;;;
  ext EvRender ;;;
  tmp_docx_path <- (path <- named_temporary_file ".docx" ;;
                    ext (EvSaveDocx path) ;;;
                    ret path) ;;
  tmp_pdf_path <- named_temporary_file ".pdf" ;;
  ext EvWordDispatch ;;;
  ext (EvWordOpen tmp_docx_path) ;;;
  ext (EvWordSaveAs tmp_pdf_path) ;;;
  ext EvWordClose ;;;
  ext EvWordQuit ;;;
  pdf_bytes <- read_file tmp_pdf_path ;;
  os_remove tmp_docx_path ;;;
  os_remove tmp_pdf_path ;;;
  ret pdf_bytes.

(** Lines 182-190: the record of the PDF and its attachment. *)
Definition publish (name : string) (pdf_bytes : string) (root_folder_uid : string)
  : M string :=
  let pdf_title := name ++ "_Credentials.pdf" in
  let pdf_record :=
    {| title := JStr pdf_title;
       fields := [("fileRef",
                   VDict [("name", VStr pdf_title);
                          ("size", VInt (Z.of_nat (String.length pdf_bytes)))])] |} in
  pdf_uid <- add_record_v3 pdf_record root_folder_uid ;;
  upload_attachments pdf_uid pdf_title ;;;
  ret pdf_uid.

(** [str(e)], as it goes into the log. *)
Definition exn_text (e : exn) : string :=
  match e with
  | KeyError k => "'" ++ k ++ "'"
  | NameError n => "name '" ++ n ++ "' is not defined"
  | ValueError msg => msg
  | FileNotFoundError p => "No such file or directory: '" ++ p ++ "'"
  | ExternalError n => "external call " ++ of_Z (Z.of_nat n) ++ " failed"
  | TypeError => "TypeError"
  | ReplacementError => "bad replacement"
  | JSONDecodeError => "JSONDecodeError"
  | RecursionError => "maximum recursion depth exceeded"
  | DigitLimitError => "Exceeds the limit for integer string conversion"
  | OutsideEmbedding => "outside the embedding"
  end.

(** Lines 206-210: the loop of the handler. *)
Definition rollback (created_uids : list string) : M unit :=
  for_each created_uids
    (fun uid =>
       if contains "folder" uid then delete_folder uid else delete_record uid).

(** Lines 192-211: sharing, and the handler that deletes and re-raises. *)
Definition share (name : string) (root_folder_uid : string)
  (subfolder_uids : PyDict.dict string) (pdf_uid : string) : M unit :=
  let created_uids :=
    [root_folder_uid] +++ PyDict.values subfolder_uids +++ [pdf_uid] in
  try_except
    (ext (EvSetPermission root_folder_uid) ;;;
     ext (EvShare pdf_uid) ;;;
     link <- fresh_name ;;
     logging INFO ("One-Time Share Link for " ++ name ++ ": " ++ link))
    (fun e =>
       logging ERROR ("Error processing " ++ name ++ ": " ++ exn_text e) ;;;
       rollback created_uids ;;;
       raise e).

Definition process_customer (globals : PyDict.dict string)
  (customer : PyDict.dict string) (json_template : json)
  (target_folder_uid : string) : M unit :=
  i <- interpreter ;;
  template <- lift (substitute_placeholders i json_template customer) ;;
  created <- create_structure template target_folder_uid ;;
  let (root_folder_uid, subfolder_uids) := created in
  context <- collect_context customer root_folder_uid ;;
  pdf_bytes <- render_convert globals context ;;
  name <- lift (customer_name customer) ;;
  pdf_uid <- publish name pdf_bytes root_folder_uid ;;
  share name root_folder_uid subfolder_uids pdf_uid.

(** ** [main], lines 252-256 *)

(** The names bound at module level that the functions read: [word_uid] is
    a local variable of [main] and is not among them. *)
Definition module_globals : PyDict.dict string := [].

Definition main_loop (globals : PyDict.dict string) (json_uid target_folder : string)
  (customers : list (PyDict.dict string)) : M unit :=
  for_each customers
    (fun cust =>
       json_template <- download_json_template json_uid ;;
       process_customer globals cust json_template target_folder) ;;;
  logging INFO "Process completed.".

(** ** Runs *)

(** A world in which nothing has happened yet. *)
Definition initial_world (o : Outside) (fs : list folder_obj) (rs : list record_obj)
  : World :=
  {| outside := o; calls := 0; issued := 0; folders := fs; records := rs;
     files := []; log := []; trace := [] |}.

Definition is_delete (e : event) : bool :=
  match e with
  | EvDeleteFolder _ | EvDeleteRecord _ => true
  | _ => false
  end.

End KeeperPdfGenerator.

(* ================================================================== *)
(** * Shapes and scenarios used by the statements *)
(* ================================================================== *)

Module Shape.
Import Json KeeperPdfGenerator.

(** A structure template with the root folder [root], the subfolders [subs]
    and the records [recs]; absent lists count as empty, as in the code. *)
Definition template_shape (template : json) (root : string) (subs : list string)
  (recs : list json) : Prop :=
  getitem template "root_folder" = Ok (JStr root)
  /\ get_default template "subfolders" (JArr []) = Ok (JArr (map JStr subs))
  /\ get_default template "records" (JArr []) = Ok (JArr recs).

(** A record of a template with the title [t] and the folder attribute [f]. *)
Definition record_shape (rec_data : json) (tf : string * string) : Prop :=
  getitem rec_data "title" = Ok (JStr (fst tf))
  /\ getitem rec_data "folder" = Ok (JStr (snd tf)).


(** The parent that [create_folder] gives to a new folder. *)
Definition folder_parent (parent_uid : string) : option string :=
  if String.eqb parent_uid "" then None else Some parent_uid.

(** No external call fails. *)
Definition never_fails (w : World) : Prop :=
  forall n, fails (outside w) n = false.

(** A name without an underscore. *)
Definition no_underscore (s : string) : Prop := PyStr.contains "_" s = false.

End Shape.

Module Scenario.
Import PyStr PyVal Json KeeperPdfGenerator.

(** The template and the customer of the end-to-end scenario. *)
Definition acme_template : json :=
  JObj [ ("root_folder", JStr "Acme");
         ("subfolders", JArr [JStr "Docs"]);
         ("records",
          JArr [JObj [ ("title", JStr "Login");
                       ("folder", JStr "Docs");
                       ("fields", JObj [("login", JStr "bob")]) ]]) ].

Definition acme : PyDict.dict string := [("name", "Acme")].

(** A template that names the root folder after the customer. *)
Definition named_template : json :=
  JObj [ ("root_folder", JStr "${customer_name}");
         ("subfolders", JArr [JStr "Docs"]);
         ("records",
          JArr [JObj [ ("title", JStr "Login"); ("folder", JStr "Docs") ]]) ].

Definition numbered (n : nat) : string := "uid" ++ of_Z (Z.of_nat n).

(** The limits of a CPython interpreter with its defaults, taken at their
    largest: the recursion limit of 1000, of which a call has less left,
    and 4300 digits. *)
Definition limits : Interp :=
  {| encoder_depth := 1000; decoder_depth := 1000; repr_depth := 1000;
     int_max_str_digits := 4300 |}.

(** An outside that hands out the names [uid0], [uid1], ... and fails
    exactly the calls that [f] selects. *)
Definition outside_failing (f : nat -> bool) : Outside :=
  {| fails := f; fresh := numbered; content := fun _ => "%PDF-1.7";
     interp := limits |}.

(** A vault with the target folder and the template records. *)
Definition vault (f : nat -> bool) : World :=
  initial_world (outside_failing f)
    [ {| fo_uid := "target"; fo_name := "Customers"; fo_parent := None |} ]
    [ {| ro_uid := "word"; ro_title := "Word template"; ro_notes := "";
         ro_fields := []; ro_folder := "target";
         ro_files := ["template.docx"] |};
      {| ro_uid := "json"; ro_title := "Structure template";
         ro_notes := text acme_template;
         ro_fields := []; ro_folder := "target"; ro_files := [] |};
      {| ro_uid := "named"; ro_title := "Structure template by name";
         ro_notes := text named_template;
         ro_fields := []; ro_folder := "target"; ro_files := [] |} ].


(** The same as a document. *)
Definition nested_array (n : nat) : json :=
  Nat.iter n (fun v => JArr [v]) (JArr []).

Definition never (n : nat) : bool := false.
Definition only (k n : nat) : bool := Nat.eqb n k.

(** The module state in which [word_uid] is bound, as an importing caller
    may set it. *)
Definition globals_with_word_uid : PyDict.dict string := [("word_uid", "word")].

(** A batch of three customers for [keeper_pdf_system.py]: the template of
    the category [extern] is missing on disk. *)
Import KeeperPdfSystem.

Definition mailbox (uid addr : string) : keeper_record :=
  {| kr_title := "Mailbox"; kr_record_uid := uid;
     kr_type_name := Some "E-Mail-Postfach";
     kr_custom := Some [ {| f_type := Some "email"; f_value := Some (VList [VStr addr]) |};
                         {| f_type := Some "password"; f_value := Some (VList [VStr "pw"]) |} ];
     kr_fields := Some [] |}.

Definition batch_env : Env :=
  {| path_exists := fun p => String.eqb p "temp_templates/ENHANCED_intern_template.docx";
     path_join := fun a b => a ++ "/" ++ b;
     subfolder_record_cache := [("c1", ["r1"]); ("c2", ["r2"]); ("c3", ["r3"])];
     load := fun uid => Loaded (mailbox uid "info@example.local");
     office := fun _ _ _ _ => None |}.

Definition batch_customers : list customer :=
  [ {| c_name := "one.local (1)"; c_uid := "c1"; c_category := "intern"; c_record_count := 1 |};
    {| c_name := "two.local (2)"; c_uid := "c2"; c_category := "extern"; c_record_count := 1 |};
    {| c_name := "three.local (3)"; c_uid := "c3"; c_category := "intern"; c_record_count := 1 |} ].

End Scenario.

(* ================================================================== *)
(** * More of [keeper_pdf_system.py] *)
(* ================================================================== *)

Module SystemExtra.
Import PyStr PyVal KeeperPdfSystem.

(** The folders that [get_customer_folders] knows, in the order of its
    dictionary: identifier, name, category. *)
Definition customer_folders : list (string * (string * string)) :=
  [ ("hoC-cSZloyT3rWmPHTRlpA", ("test-extern1.local (100000)", "intern"));
    ("W9LGwI-3uVeBaoYh6r-iEQ", ("test-extern2.local (200000)", "extern"));
    ("HkGCEGzahSpXb2cIwA4jNQ", ("test-extern3.local (300000)", "intern"));
    ("GK-qlciy45TBw_g6407gWw", ("test-extern4.local (400000)", "extern")) ].

(** [get_customer_folders], for the identifiers in [params.folder_cache] and
    the dictionary [params.subfolder_record_cache]. *)
Definition get_customer_folders (folder_cache : list string)
  (subfolder_record_cache : PyDict.dict (list string)) : list customer :=
  flat_map
    (fun entry : string * (string * string) =>
       let '(uid, (name, category)) := entry in
       if existsb (String.eqb uid) folder_cache
       then [ {| c_name := name; c_uid := uid; c_category := category;
                 c_record_count :=
                   List.length (PyDict.get_default subfolder_record_cache uid []) |} ]
       else [])
    customer_folders.

(** The stem of the file names in [generate_pdf]. *)
Definition safe_name (customer_name : string) : string :=
  replace "." "_" (replace ")" "" (replace "(" "" (replace " " "_" customer_name))).



(** The value of the last item of [l] with the key [k]. *)
Definition last_value (V : Type) (l : list (string * V)) (k : string) : option V :=
  option_map snd (find (fun kv => String.eqb (fst kv) k) (rev l)).



(** A character that [repr] writes as it is between single quotes. *)
Definition simple_char (c : ascii) : bool :=
  is_printable c && negb (Ascii.eqb c "'") && negb (Ascii.eqb c backslash).

(** A character that [repr] writes as it is between double quotes. *)
Definition quotable_char (c : ascii) : bool :=
  is_printable c && negb (Ascii.eqb c dquote) && negb (Ascii.eqb c backslash).

(** A character of a domain name: no dot, no parenthesis, no space. *)
Definition domain_char (c : ascii) : bool :=
  negb (Ascii.eqb c ".") && negb (Ascii.eqb c "(") && negb (is_space c).

(** A character that [safe_name] lets through. *)
Definition safe_char (c : ascii) : bool :=
  negb (Ascii.eqb c " ") && negb (Ascii.eqb c "(")
  && negb (Ascii.eqb c ")") && negb (Ascii.eqb c ".").

(** A record type that one of the four branches of [extract_vault_data]
    takes. *)
Definition known_type (record_type : string) : bool :=
  contains "E-Mail-Postfach" record_type || contains "Website-Login" record_type
  || contains "Web-Statistik-Login" record_type || contains "Webmail-URL" record_type.

(** [not value] for a logged outcome: an error or a warning. *)
Definition is_problem (e : log_entry) : bool :=
  match fst e with
  | INFO => false
  | _ => true
  end.

End SystemExtra.

(* ================================================================== *)
(** * More of [keeper_pdf_generator.py] *)
(* ================================================================== *)

Module GeneratorExtra.
Import PyStr PyVal Json KeeperPdfGenerator.

(** [s.split(sep)] for a one character separator. *)
Fixpoint split_char (sep : ascii) (s : string) : list string :=
  match s with
  | EmptyString => [EmptyString]
  | String c s' =>
      if Ascii.eqb c sep then EmptyString :: split_char sep s'
      else match split_char sep s' with
           | [] => [String c EmptyString]
           | x :: l => String c x :: l
           end
  end.

(** The dictionary built from the parts of a [--customer] argument, line
    243; [split] always gives a first part. *)
Definition customer_of_parts (parts : list string) : PyDict.dict string :=
  [ ("name", nth 0 parts "");
    ("email", if (1 <? List.length parts)%nat then nth 1 parts "" else "");
    ("custom", if (2 <? List.length parts)%nat then nth 2 parts "" else "") ].

(** Lines 241-243: one customer per [--customer] argument. *)
Definition customers_of_args (args : list string) : list (PyDict.dict string) :=
  map (fun cust => customer_of_parts (split_char ":" cust)) args.

(** The call that the handler makes for one identifier, lines 207-210. *)
Definition deletion_of (uid : string) : event :=
  if contains "folder" uid then EvDeleteFolder uid else EvDeleteRecord uid.

(** The calls that provisioning and the reading of the context make. *)
Definition is_provisioning (e : event) : bool :=
  match e with
  | EvCreateFolder _ _ | EvAddRecord _ _ | EvListRecords _ | EvGetRecord _ => true
  | _ => false
  end.

(** Whether every string and every key of a document satisfies [p]. *)
Fixpoint all_strings (p : string -> bool) (v : json) : bool :=
  match v with
  | JStr s => p s
  | JArr l => forallb (all_strings p) l
  | JObj d => forallb (fun kv => p (fst kv) && all_strings p (snd kv)) d
  | _ => true
  end.

(** A text without a dollar sign. *)
Definition no_dollar (s : string) : bool := negb (occurs "$" s).

(** Whether the keys of every object of a document are pairwise distinct,
    as they are in a Python dictionary. *)
Fixpoint distinct_keys (v : json) : Prop :=
  match v with
  | JArr l => fold_right (fun x acc => distinct_keys x /\ acc) True l
  | JObj d =>
      NoDup (map fst d)
      /\ fold_right (fun kv acc => distinct_keys (snd kv) /\ acc) True d
  | _ => True
  end.

(** From [w] to [w'] nothing happened but calls that create folders and
    records or read records: no file was written, nothing was logged. *)
Definition only_provisions (w w' : World) : Prop :=
  outside w' = outside w /\ files w' = files w /\ log w' = log w
  /\ exists evs, trace w' = trace w +++ evs /\ forallb is_provisioning evs = true.

(** A computation that does nothing else, whatever it returns or raises. *)
Definition provisions (A : Type) (m : M A) : Prop :=
  forall w, only_provisions w (snd (m w)).

Arguments provisions A m : clear implicits.

(** The world after the external call [e] was made. *)
Definition called (e : event) (w : World) : World :=
  set_trace (set_calls w (S (calls w))) (trace w +++ [e]).

End GeneratorExtra.

(* ================================================================== *)
(** * Facts about strings *)
(* ================================================================== *)

Module PyStrFacts.
Import PyStr.

Lemma append_assoc (a b c : string) : (a ++ b) ++ c = a ++ (b ++ c).
Proof. induction a as [|x a IH]; simpl; [reflexivity | now rewrite IH]. Qed.

Lemma append_nil_r (a : string) : a ++ "" = a.
Proof. induction a as [|x a IH]; simpl; [reflexivity | now rewrite IH]. Qed.

Lemma length_append (a b : string) :
  String.length (a ++ b) = (String.length a + String.length b)%nat.
Proof. induction a as [|x a IH]; simpl; [reflexivity | now rewrite IH]. Qed.

Lemma drop_append (a b : string) : drop (String.length a) (a ++ b) = b.
Proof. induction a as [|x a IH]; simpl; [now destruct b | exact IH]. Qed.

Lemma take_append (a b : string) : take (String.length a) (a ++ b) = a.
Proof. induction a as [|x a IH]; simpl; [now destruct b | now rewrite IH]. Qed.

Lemma prefix_append (a b : string) : String.prefix a (a ++ b) = true.
Proof.
  induction a as [|x a IH]; simpl; [now destruct b |].
  destruct (ascii_dec x x); [exact IH | congruence].
Qed.

End PyStrFacts.

(* ================================================================== *)
(** * Facts about [mapR] *)
(* ================================================================== *)

Module ResultFacts.

Lemma mapR_cons (A B : Type) (f : A -> result B) (x : A) (l : list A) :
  mapR f (x :: l) = let? y := f x in let? ys := mapR f l in Ok (y :: ys).
Proof. reflexivity. Qed.

Lemma mapR_ok (A B : Type) (f : A -> result B) (g : A -> B) (l : list A) :
  Forall (fun x => f x = Ok (g x)) l -> mapR f l = Ok (map g l).
Proof.
  induction 1 as [|x l Hx _ IH]; [reflexivity |].
  rewrite mapR_cons, Hx, IH. reflexivity.
Qed.

Lemma mapR_inv (A B : Type) (f : A -> result B) (l : list A) :
  forall ys, mapR f l = Ok ys -> Forall2 (fun x y => f x = Ok y) l ys.
Proof.
  induction l as [|x l IH]; intros ys H.
  - cbn in H. inversion H. constructor.
  - rewrite mapR_cons in H. destruct (f x) as [y | e] eqn:Hx; [| discriminate H].
    cbn [bindR] in H. destruct (mapR f l) as [zs | e]; [| discriminate H].
    cbn [bindR] in H. inversion H; subst. constructor; [exact Hx | now apply IH].
Qed.

End ResultFacts.

(* ================================================================== *)
(** * Facts about dictionaries *)
(* ================================================================== *)

Module PyDictFacts.
Import PyDict.

Section Dict.
Variable V : Type.
Implicit Types d : dict V.

Lemma get_set_same d k v : get (set d k v) k = Some v.
Proof.
  induction d as [|[k' v'] d IH]; simpl.
  - now rewrite String.eqb_refl.
  - destruct (String.eqb k' k) eqn:E; simpl; rewrite E; auto.
Qed.

Lemma get_set_other d k k0 v :
  k0 <> k -> get (set d k v) k0 = get d k0.
Proof.
  intros Hne. induction d as [|[k' v'] d IH]; simpl.
  - destruct (String.eqb_spec k k0); congruence.
  - destruct (String.eqb_spec k' k); simpl.
    + subst. destruct (String.eqb_spec k k0); congruence.
    + destruct (String.eqb_spec k' k0); auto.
Qed.

Lemma keys_set_in d k v k0 :
  In k0 (keys (set d k v)) <-> k0 = k \/ In k0 (keys d).
Proof.
  unfold keys. induction d as [|[k' v'] d IH]; simpl.
  - intuition.
  - destruct (String.eqb_spec k' k); simpl.
    + subst. intuition.
    + rewrite IH. intuition.
Qed.

Lemma keys_set_NoDup d k v : NoDup (keys d) -> NoDup (keys (set d k v)).
Proof.
  unfold keys. induction d as [|[k' v'] d IH]; simpl; intros H.
  - constructor; [intros [] | constructor].
  - inversion H; subst. destruct (String.eqb_spec k' k); simpl.
    + now constructor.
    + constructor; auto. intros Hin.
      apply (keys_set_in d k v k') in Hin. unfold keys in Hin.
      destruct Hin; [congruence | contradiction].
Qed.
Lemma set_fresh d k v : ~ In k (keys d) -> set d k v = d +++ [(k, v)].
Proof.
  unfold keys. induction d as [|[k' v'] d IH]; simpl; intros Hn; [reflexivity |].
  destruct (String.eqb_spec k' k) as [-> | Hne].
  - exfalso. apply Hn. now left.
  - f_equal. apply IH. intros H. apply Hn. now right.
Qed.

Lemma fold_set_distinct (l : list (string * V)) : forall d,
  NoDup (keys d +++ map fst l) ->
  fold_left (fun d kv => set d (fst kv) (snd kv)) l d = d +++ l.
Proof.
  induction l as [|[k v] l IH]; intros d Hnd; simpl.
  - now rewrite app_nil_r.
  - rewrite set_fresh.
    + rewrite IH; [now rewrite <- app_assoc |].
      unfold keys. rewrite map_app. simpl. rewrite <- app_assoc. exact Hnd.
    + intros Hin. apply NoDup_remove_2 in Hnd. apply Hnd.
      apply in_or_app. now left.
Qed.

Lemma of_pairs_distinct (l : list (string * V)) :
  NoDup (map fst l) -> of_pairs l = l.
Proof. intros H. unfold of_pairs. now rewrite fold_set_distinct. Qed.
End Dict.

End PyDictFacts.

(* ================================================================== *)
(** * Facts about [str.replace], [json] and [re] *)
(* ================================================================== *)

Module ReplaceFacts.
Import PyStr.

Lemma prefix_nil (s : string) : String.prefix "" s = true.
Proof. destruct s; reflexivity. Qed.

Lemma prefix_cons (a c : ascii) (p s : string) :
  String.prefix (String a p) (String c s) = Ascii.eqb a c && String.prefix p s.
Proof.
  cbn [String.prefix]. destruct (ascii_dec a c) as [-> | Hne].
  - now rewrite Ascii.eqb_refl.
  - apply Ascii.eqb_neq in Hne. now rewrite Hne.
Qed.

Lemma prefix_cons_nil (a : ascii) (p : string) :
  String.prefix (String a p) "" = false.
Proof. reflexivity. Qed.

Lemma prefix_length (p s : string) :
  String.prefix p s = true -> String.length p <= String.length s.
Proof.
  revert s. induction p as [|a p IH]; intros [|c s]; simpl; try lia; try discriminate.
  destruct (ascii_dec a c); [| discriminate]. intros H. apply IH in H. lia.
Qed.

(** A character that does not occur in [p] cuts the text for [prefix p]. *)
Lemma prefix_sep (p a b : string) (c : ascii) :
  p <> "" -> occurs c p = false ->
  String.prefix p (a ++ String c b) = String.prefix p a.
Proof.
  revert a. induction p as [|x p IH]; intros a Hne Hocc; [congruence |].
  simpl in Hocc. apply orb_false_elim in Hocc. destruct Hocc as [Hx Hp].
  destruct a as [|y a].
  - cbn [append]. rewrite prefix_cons, Hx. reflexivity.
  - cbn [append]. rewrite !prefix_cons. destruct (Ascii.eqb x y); [| reflexivity].
    cbn [andb]. destruct p as [|z p].
    + now rewrite !prefix_nil.
    + apply IH; [discriminate | exact Hp].
Qed.

Section Replace.
Variables old new : string.
Hypothesis old_nonempty : old <> "".

Lemma replace_go_sep (c : ascii) (b : string) :
  occurs c old = false ->
  forall (a : string) (k : nat),
    k <= String.length a ->
    replace_go old new k (a ++ String c b)
    = replace_go old new k a ++ String c (replace_go old new 0 b).
Proof.
  intros Hocc. induction a as [|x a IH]; intros k Hk.
  - simpl in Hk. assert (k = 0) as -> by lia. cbn [append replace_go].
    assert (String.prefix old (String c b) = false) as ->.
    { pose proof (@prefix_sep old "" b c old_nonempty Hocc) as H.
      cbn [append] in H. rewrite H.
      destruct old; [congruence | reflexivity]. }
    reflexivity.
  - cbn [append]. destruct k as [|k].
    + cbn [replace_go].
      change (String x (a ++ String c b)) with (String x a ++ String c b).
      rewrite (@prefix_sep old (String x a) b c old_nonempty Hocc).
      destruct (String.prefix old (String x a)) eqn:Hp.
      * rewrite IH.
        -- now rewrite PyStrFacts.append_assoc.
        -- apply prefix_length in Hp. simpl in Hp. lia.
      * cbn [append]. rewrite IH by lia. reflexivity.
    + cbn [replace_go]. apply IH. simpl in Hk. lia.
Qed.

(** A text without the first character of [old] is left as it is. *)
Lemma replace_go_no_head (h : ascii) (old' : string) (p t : string) :
  old = String h old' -> occurs h p = false ->
  replace_go old new 0 (p ++ t) = p ++ replace_go old new 0 t.
Proof.
  intros Hold. induction p as [|x p IH]; intros Hocc; [reflexivity |].
  simpl in Hocc. apply orb_false_elim in Hocc. destruct Hocc as [Hx Hp].
  cbn [append replace_go]. rewrite Hold at 1. rewrite prefix_cons.
  rewrite Ascii.eqb_sym, Hx. cbn [andb]. now rewrite IH.
Qed.
End Replace.

End ReplaceFacts.

(* ================================================================== *)
(** * Facts about [keeper_pdf_system.py] *)
(* ================================================================== *)

Module KeeperPdfSystemFacts.
Import PyStr PyVal KeeperPdfSystem.

(** ** The order on strings used by [sorted] *)

Lemma ascii_compare_N (a b : ascii) :
  Ascii.compare a b = N.compare (N_of_ascii a) (N_of_ascii b).
Proof. reflexivity. Qed.

Lemma ascii_compare_eq (a b : ascii) : Ascii.compare a b = Eq -> a = b.
Proof. apply Ascii.compare_eq_iff. Qed.

Lemma ascii_compare_lt_trans (a b c : ascii) :
  Ascii.compare a b = Lt -> Ascii.compare b c = Lt -> Ascii.compare a c = Lt.
Proof.
  rewrite !ascii_compare_N, !N.compare_lt_iff. apply N.lt_trans.
Qed.

Lemma string_leb_trans (s1 s2 s3 : string) :
  String.leb s1 s2 = true -> String.leb s2 s3 = true -> String.leb s1 s3 = true.
Proof.
  unfold String.leb. revert s2 s3.
  induction s1 as [|c1 s1 IH]; intros [|c2 s2] [|c3 s3]; simpl; try congruence.
  destruct (Ascii.compare c1 c2) eqn:E12; try congruence;
    destruct (Ascii.compare c2 c3) eqn:E23; try congruence; intros H12 H23.
  - apply ascii_compare_eq in E12, E23. subst.
    assert (Ascii.compare c3 c3 = Eq) as ->
      by (rewrite ascii_compare_N; apply N.compare_refl).
    now apply IH with s2.
  - apply ascii_compare_eq in E12. subst. now rewrite E23.
  - apply ascii_compare_eq in E23. subst. now rewrite E12.
  - now rewrite (ascii_compare_lt_trans _ _ _ E12 E23).
Qed.

Lemma string_leb_false_flip (s1 s2 : string) :
  String.leb s1 s2 = false -> String.leb s2 s1 = true.
Proof.
  intros H. destruct (String.leb_total s1 s2) as [H'|H']; congruence.
Qed.

(** ** [sorted] is a stable sort *)

Section SortedFacts.
Variable A : Type.
Variable key : A -> string.

Let key_le := KeeperPdfSystem.key_le key.

Lemma insert_sorted_perm (x : A) (l : list A) :
  Permutation (x :: l) (insert_sorted key x l).
Proof.
  induction l as [|y l IH]; simpl; [reflexivity |].
  destruct (String.leb (key x) (key y)); [reflexivity |].
  rewrite perm_swap. now constructor.
Qed.

Lemma sorted_perm (l : list A) : Permutation l (sorted key l).
Proof.
  induction l as [|x l IH]; simpl; [constructor |].
  rewrite <- insert_sorted_perm. now constructor.
Qed.

Lemma insert_sorted_sorted (x : A) (l : list A) :
  StronglySorted key_le l -> StronglySorted key_le (insert_sorted key x l).
Proof.
  induction l as [|y l IH]; simpl; intros Hs.
  - repeat constructor.
  - inversion Hs as [|? ? Hl Hy]; subst.
    destruct (String.leb (key x) (key y)) eqn:E.
    + constructor; [assumption |]. constructor; [exact E |].
      eapply Forall_impl; [|exact Hy]. intros a Ha.
      unfold KeeperPdfSystem.key_le in *. eapply string_leb_trans; eauto.
    + constructor; [now apply IH |].
      eapply Permutation_Forall; [apply insert_sorted_perm |].
      constructor; [|assumption]. now apply string_leb_false_flip.
Qed.

Lemma sorted_sorted (l : list A) : StronglySorted key_le (sorted key l).
Proof.
  induction l as [|x l IH]; simpl; [constructor |].
  now apply insert_sorted_sorted.
Qed.

(** Two sorted lists with the same elements and pairwise distinct keys are
    the same list. *)
Lemma sorted_unique (l1 l2 : list A) :
  StronglySorted key_le l1 -> StronglySorted key_le l2 ->
  Permutation l1 l2 -> NoDup (map key l1) -> l1 = l2.
Proof.
  revert l2. induction l1 as [|x l1 IH]; intros l2 H1 H2 HP HN.
  - now apply Permutation_nil in HP.
  - destruct l2 as [|y l2].
    + symmetry in HP. now apply Permutation_nil in HP.
    + inversion H1 as [|? ? Hs1 Hx]; inversion H2 as [|? ? Hs2 Hy]; subst.
      inversion HN as [|? ? Hnin HN']; subst.
      assert (x = y) as <-.
      { assert (Hin_y : In y (x :: l1))
          by (eapply Permutation_in; [symmetry; exact HP | now left]).
        assert (Hin_x : In x (y :: l2))
          by (eapply Permutation_in; [exact HP | now left]).
        destruct Hin_y as [|Hin_y]; [assumption |].
        destruct Hin_x as [|Hin_x]; [congruence |].
        rewrite Forall_forall in Hx, Hy.
        pose proof (Hx _ Hin_y) as Hxy. pose proof (Hy _ Hin_x) as Hyx.
        unfold KeeperPdfSystem.key_le in *.
        pose proof (String.leb_antisym _ _ Hxy Hyx) as Hk.
        exfalso. apply Hnin. rewrite Hk. now apply in_map. }
      f_equal. apply IH; auto. now apply Permutation_cons_inv in HP.
Qed.

Lemma sorted_permutation_invariant (l1 l2 : list A) :
  Permutation l1 l2 -> NoDup (map key l1) -> sorted key l1 = sorted key l2.
Proof.
  intros HP HN. apply sorted_unique; try apply sorted_sorted.
  - rewrite <- (sorted_perm l1), <- (sorted_perm l2). exact HP.
  - eapply Permutation_NoDup; [|exact HN].
    apply Permutation_map, sorted_perm.
Qed.
End SortedFacts.

Lemma assign_emails_spec (l : list (PyDict.dict string)) :
  let emails := sorted email_key l in
  assign_emails l =
    (field_at "email" (nth_error emails 0), field_at "password" (nth_error emails 0),
     field_at "email" (nth_error emails 1), field_at "password" (nth_error emails 1)).
Proof.
  destruct l as [|x l]; [reflexivity |].
  unfold assign_emails. cbv zeta.
  destruct (nth_error (sorted email_key (x :: l)) 0);
    destruct (nth_error (sorted email_key (x :: l)) 1); reflexivity.
Qed.

Lemma sorted_length (A : Type) (key : A -> string) (l : list A) :
  List.length (sorted key l) = List.length l.
Proof. symmetry. apply Permutation_length, sorted_perm. Qed.

(** ** [_clean_field_value] *)

Lemma endswith_append (a p : string) : endswith p (a ++ p) = true.
Proof.
  unfold endswith. rewrite PyStrFacts.length_append.
  replace (String.length a + String.length p - String.length p)%nat
    with (String.length a) by lia.
  rewrite PyStrFacts.drop_append, String.eqb_refl, andb_true_r.
  apply Nat.leb_le. lia.
Qed.

Lemma adjust_index_nonneg (len i : Z) :
  (0 <= i <= len)%Z -> adjust_index len i = i.
Proof.
  intros H. unfold adjust_index.
  destruct (Z.ltb_spec i 0); [lia |].
  destruct (Z.ltb_spec i 0); [lia |].
  destruct (Z.ltb_spec len i); lia.
Qed.

Lemma adjust_index_neg (len i : Z) :
  (i < 0)%Z -> (0 <= i + len)%Z -> adjust_index len i = (i + len)%Z.
Proof.
  intros H1 H2. unfold adjust_index.
  destruct (Z.ltb_spec i 0); [| lia].
  destruct (Z.ltb_spec (i + len) 0); [lia |].
  destruct (Z.ltb_spec len (i + len)); lia.
Qed.

Lemma slice_wrapper (x : string) : slice 2 (-2) ("['" ++ x ++ "']") = x.
Proof.
  unfold slice.
  change ("['" ++ x ++ "']") with (String "[" (String "'" (x ++ "']"))).
  cbn [String.length]. rewrite PyStrFacts.length_append. cbn [String.length].
  set (n := String.length x).
  rewrite (@adjust_index_nonneg _ 2%Z) by lia.
  rewrite (@adjust_index_neg _ (-2)%Z) by lia.
  replace (Z.to_nat (-2 + Z.of_nat (S (S (n + 2))) - 2)) with n by lia.
  change (Z.to_nat 2) with 2%nat. cbn [drop].
  apply PyStrFacts.take_append.
Qed.

(** [_clean_field_value] at a string never raises, whatever the limits. *)
Lemma clean_field_value_str (i : Interp) (s : string) :
  _clean_field_value i (VStr s) = Ok (clean_str s).
Proof.
  unfold _clean_field_value, clean_str.
  destruct (startswith "['" s && endswith "']" s); [reflexivity |].
  cbn [truthy str]. destruct (negb (String.eqb s "")); reflexivity.
Qed.







(** ** [build_template_context] *)

(** The domain of a customer name as line 227 takes it, on a name of the
    shape that the customer folders have. *)
Lemma domain_chars (d : string) :
  forall_chars SystemExtra.domain_char d = true ->
  occurs "." d = false /\ occurs "(" d = false
  /\ forall_chars (fun c => negb (is_space c)) d = true.
Proof.
  induction d as [|c d IH]; [now repeat split |].
  cbn [forall_chars occurs]. intros H.
  apply andb_prop in H. destruct H as [Hc Hd].
  destruct (IH Hd) as (I1 & I2 & I3). rewrite I1, I2, I3.
  unfold SystemExtra.domain_char in Hc.
  apply andb_prop in Hc. destruct Hc as [Hc H3].
  apply andb_prop in Hc. destruct Hc as [H1 H2].
  apply negb_true_iff in H1, H2. rewrite H1, H2, H3. now repeat split.
Qed.

Lemma split_head_app (sep : ascii) (d r : string) :
  occurs sep d = false -> split_head sep (d ++ r) = d ++ split_head sep r.
Proof.
  induction d as [|c d IH]; [reflexivity |]. cbn [occurs append split_head].
  intros H. apply orb_false_elim in H. destruct H as [Hc Hd].
  now rewrite Hc, (IH Hd).
Qed.

Lemma lstrip_unspaced (d r : string) :
  forall_chars (fun c => negb (is_space c)) d = true ->
  lstrip (d ++ String "." r) = d ++ String "." r.
Proof.
  destruct d as [|c d]; [reflexivity |]. cbn [forall_chars append lstrip].
  intros H. apply andb_prop in H. destruct H as [Hc _].
  apply negb_true_iff in Hc. now rewrite Hc.
Qed.

Lemma rstrip_app (d r : string) :
  rstrip r <> "" -> rstrip (d ++ r) = d ++ rstrip r.
Proof.
  intros Hr. induction d as [|c d IH]; [reflexivity |].
  cbn [append rstrip]. rewrite IH.
  destruct (d ++ rstrip r) as [|x y] eqn:E; [| reflexivity].
  destruct d; [cbn [append] in E; congruence | discriminate].
Qed.

Lemma domain_of_folder_name (d n : string) :
  forall_chars SystemExtra.domain_char d = true ->
  replace ".local" "" (strip (split_head "(" (d ++ ".local (" ++ n ++ ")"))) = d.
Proof.
  intros Hd. destruct (@domain_chars d Hd) as (Hdot & Hpar & Hsp).
  rewrite (@split_head_app "(" d _ Hpar).
  change (split_head "(" (".local (" ++ n ++ ")")) with ".local ".
  unfold strip. rewrite (@lstrip_unspaced d "local " Hsp).
  rewrite (@rstrip_app d ".local ") by discriminate.
  change (rstrip ".local ") with ".local".
  unfold replace.
  rewrite (@ReplaceFacts.replace_go_no_head ".local" "" "."%char "local" d ".local"
             eq_refl Hdot).
  change (replace_go ".local" "" 0 ".local") with "".
  apply PyStrFacts.append_nil_r.
Qed.

(** C8.  The customer's domain is the text of the name before its first
    opening parenthesis, without the blanks around it and with [.local]
    taken out; for a name [d.local (n)] it is [d].  The context always holds
    the IMAP and POP servers synthesized from this domain and the three
    fixed ports; the SMTP server is the synthesized one exactly when the
    vault data holds no SMTP server. *)
Theorem build_template_context_servers (customer_name : string) (vd : vault_data) :
  let ctx := build_template_context customer_name vd in
  let domain := replace ".local" "" (strip (split_head "(" customer_name)) in
  PyDict.get ctx "imap_server" = Some ("imap." ++ domain ++ ".local")
  /\ PyDict.get ctx "pop_server" = Some ("pop." ++ domain ++ ".local")
  /\ PyDict.get ctx "smtp_server" =
       Some (if String.eqb (smtp_server vd) ""
             then "smtp." ++ domain ++ ".local" else smtp_server vd)
  /\ PyDict.get ctx "imap_port" = Some "993"
  /\ PyDict.get ctx "pop_port" = Some "995"
  /\ PyDict.get ctx "smtp_port" = Some "465"
  /\ (forall d n,
        forall_chars SystemExtra.domain_char d = true ->
        customer_name = d ++ ".local (" ++ n ++ ")" ->
        domain = d).
Proof.
  cbv zeta. unfold build_template_context, customer_domain.
  destruct (assign_emails (emails vd)) as [[[pe pp] se] sp].
  repeat split.
  intros d n Hd ->. now apply domain_of_folder_name.
Qed.

Lemma build_template_context_servers_witness :
  let ctx := build_template_context "test-extern2.local (200000)" empty_vault_data in
  PyDict.get ctx "imap_server" = Some "imap.test-extern2.local"
  /\ PyDict.get ctx "pop_server" = Some "pop.test-extern2.local"
  /\ PyDict.get ctx "smtp_server" = Some "smtp.test-extern2.local".
Proof.
  cbv zeta.
  destruct (build_template_context_servers "test-extern2.local (200000)"
              empty_vault_data) as (H1 & H2 & H3 & _ & _ & _ & H7).
  rewrite H1, H2, H3, (H7 "test-extern2" "200000" eq_refl eq_refl).
  repeat split.
Defined.

(** The vault data built by [extract_vault_data] never holds an SMTP server. *)
Lemma vault_step_smtp (vd : vault_data) (r : record_data) :
  smtp_server (vault_step vd r) = smtp_server vd.
Proof.
  unfold vault_step.
  destruct (contains "E-Mail-Postfach" (rd_type r)).
  - destruct (PyDict.get _ "email") as [e|]; [destruct (String.eqb e "") |];
      reflexivity.
  - destruct (contains "Website-Login" (rd_type r)).
    + destruct (fold_left login_step _ _) as [[? ?] ?]. reflexivity.
    + destruct (contains "Web-Statistik-Login" (rd_type r)).
      * destruct (fold_left login_step _ _) as [[? ?] ?]. reflexivity.
      * destruct (contains "Webmail-URL" (rd_type r)); reflexivity.
Qed.

Lemma extract_vault_data_smtp (records : list record_data) :
  smtp_server (extract_vault_data records) = "".
Proof.
  unfold extract_vault_data.
  assert (G : forall vd, smtp_server (fold_left vault_step records vd) = smtp_server vd).
  { induction records as [|r l IH]; intros vd; simpl; [reflexivity |].
    now rewrite IH, vault_step_smtp. }
  now rewrite G.
Qed.

(** C9 (as amended).  When the email addresses of the entries are pairwise
    distinct, the context does not depend on the order of the entries: they
    are sorted by address, the first sorted entry gives the primary fields and
    the second the secondary fields, and a position that does not exist gives
    empty strings. *)
Theorem email_assignment_permutation_invariant
  (customer_name : string) (vd : vault_data) (l1 l2 : list (PyDict.dict string)) :
  Permutation l1 l2 ->
  NoDup (map email_key l1) ->
  build_template_context customer_name (set_emails vd l1)
    = build_template_context customer_name (set_emails vd l2)
  /\ (let es := sorted email_key l1 in
      Permutation l1 es
      /\ StronglySorted (key_le email_key) es
      /\ assign_emails l1 =
           (field_at "email" (nth_error es 0), field_at "password" (nth_error es 0),
            field_at "email" (nth_error es 1), field_at "password" (nth_error es 1))
      /\ (List.length l1 < 2 -> nth_error es 1 = None)
      /\ (List.length l1 < 1 -> nth_error es 0 = None)).
Proof.
  intros HP HN. split.
  - unfold build_template_context. cbn [emails set_emails].
    rewrite (assign_emails_spec l1), (assign_emails_spec l2). cbv zeta.
    now rewrite (sorted_permutation_invariant email_key HP HN).
  - cbv zeta. repeat split.
    + apply sorted_perm.
    + apply sorted_sorted.
    + apply assign_emails_spec.
    + intros H. apply nth_error_None. rewrite sorted_length. lia.
    + intros H. apply nth_error_None. rewrite sorted_length. lia.
Qed.

Lemma email_assignment_permutation_invariant_witness :
  let a := [("email", "a@x.local"); ("password", "pa")] in
  let b := [("email", "b@x.local"); ("password", "pb")] in
  PyDict.get
    (build_template_context "x.local (1)" (set_emails empty_vault_data [b; a]))
    "primary_email" = Some "a@x.local"
  /\ build_template_context "x.local (1)" (set_emails empty_vault_data [b; a])
     = build_template_context "x.local (1)" (set_emails empty_vault_data [a; b]).
Proof.
  cbv zeta. split; [reflexivity |].
  apply (email_assignment_permutation_invariant "x.local (1)" empty_vault_data).
  - apply perm_swap.
  - simpl. constructor.
    + simpl. intros [H | []]. discriminate H.
    + constructor; [intros [] | constructor].
Defined.

(** C9 (as stated) fails when two entries share an address: [sorted] is
    stable, so the passwords follow the order of the input. *)
Lemma email_assignment_depends_on_order :
  let a1 := [("email", "a@x.local"); ("password", "old")] in
  let a2 := [("email", "a@x.local"); ("password", "new")] in
  Permutation [a1; a2] [a2; a1]
  /\ PyDict.get
       (build_template_context "x.local (1)" (set_emails empty_vault_data [a1; a2]))
       "primary_email_password" = Some "old"
  /\ PyDict.get
       (build_template_context "x.local (1)" (set_emails empty_vault_data [a2; a1]))
       "primary_email_password" = Some "new"
  /\ build_template_context "x.local (1)" (set_emails empty_vault_data [a1; a2])
     <> build_template_context "x.local (1)" (set_emails empty_vault_data [a2; a1]).
Proof.
  cbv zeta. split; [apply perm_swap |]. split; [reflexivity |].
  split; [reflexivity |]. intros H.
  apply (f_equal (fun d => PyDict.get d "primary_email_password")) in H.
  vm_compute in H. discriminate H.
Qed.

End KeeperPdfSystemFacts.

Unset Implicit Arguments.

Module JsonFacts.
Import PyStr Json ReplaceFacts.

Ltac each_char c := destruct c as [[] [] [] [] [] [] [] []].

(** ** Escaping *)

Lemma scan_escape_char (c : ascii) (t : string) :
  scanstring (escape_char c ++ t) = cons_res c (scanstring t).
Proof. each_char c; reflexivity. Qed.

Lemma escape_char_head (c : ascii) :
  self_escaped c = false -> exists r, escape_char c = String backslash r.
Proof. each_char c; intros H; try discriminate H; eexists; reflexivity. Qed.

Lemma escape_char_self (c : ascii) :
  self_escaped c = true -> escape_char c = String c "".
Proof. unfold self_escaped. intros H. now apply String.eqb_eq in H. Qed.

Lemma escape_char_no_dollar (c : ascii) :
  Ascii.eqb c "$" = false -> occurs "$" (escape_char c) = false.
Proof. each_char c; intros H; try discriminate H; reflexivity. Qed.

Lemma self_escaped_not_backslash (a : ascii) :
  self_escaped a = true -> Ascii.eqb a backslash = false.
Proof. each_char a; intros H; try discriminate H; reflexivity. Qed.

Lemma scan_plain_char (c : ascii) (t : string) :
  plain_char c = true -> scanstring (String c t) = cons_res c (scanstring t).
Proof. each_char c; intros H; try discriminate H; reflexivity. Qed.

Lemma scan_plain (new u y t : string) :
  plain new = true -> scanstring u = Ok (y, t) ->
  scanstring (new ++ u) = Ok (new ++ y, t).
Proof.
  intros Hp Hu. induction new as [|c new IH]; [exact Hu |].
  unfold plain in Hp. simpl in Hp. apply andb_prop in Hp. destruct Hp as [Hc Hn].
  cbn [append]. rewrite (@scan_plain_char c _ Hc), (IH Hn). reflexivity.
Qed.

(** [prefix p] does not see the difference between a text and its escaped
    form when the characters of [p] are written as they are. *)
Lemma prefix_escape (p : string) :
  forall_chars self_escaped p = true ->
  forall s, String.prefix p (escape s) = String.prefix p s.
Proof.
  induction p as [|a p IH]; intros Hp s.
  - now rewrite !prefix_nil.
  - simpl in Hp. apply andb_prop in Hp. destruct Hp as [Ha Hp].
    destruct s as [|c s]; [reflexivity |].
    cbn [escape]. destruct (self_escaped c) eqn:Hc.
    + rewrite (@escape_char_self c Hc). cbn [append].
      rewrite !prefix_cons, IH by exact Hp. reflexivity.
    + destruct (@escape_char_head c Hc) as [r Hr]. rewrite Hr. cbn [append].
      rewrite !prefix_cons, (@self_escaped_not_backslash a Ha).
      destruct (Ascii.eqb_spec a c) as [-> | Hne]; [congruence | reflexivity].
Qed.

Lemma prefix_take (p s : string) :
  String.prefix p s = true -> take (String.length p) s = p.
Proof.
  revert s. induction p as [|a p IH]; intros s H; [now destruct s |].
  destruct s as [|c s]; [discriminate |].
  rewrite prefix_cons in H. apply andb_prop in H. destruct H as [Hac Hp].
  apply Ascii.eqb_eq in Hac. subst c. cbn [String.length take]. now rewrite IH.
Qed.

Section Decode.
Variables old' new : string.
Let old := String "$" old'.
Hypothesis old_self : forall_chars self_escaped old = true.
Hypothesis new_plain : plain new = true.

(** The text of a string literal after the substitution decodes to the
    string after the substitution. *)
Lemma scan_replace_escape (t : string) :
  forall (s : string) (k : nat),
    forall_chars self_escaped (take k s) = true ->
    scanstring (replace_go old new k (escape s) ++ String dquote t)
    = Ok (replace_go old new k s, t).
Proof.
  induction s as [|c s IH]; intros k Hk.
  - destruct k; reflexivity.
  - destruct k as [|k].
    + cbn [replace_go escape].
      pose proof (@prefix_escape old old_self (String c s)) as Hpre.
      cbn [escape] in Hpre.
      destruct (String.prefix old (String c s)) eqn:Hm.
      * (* a match starts here *)
        assert (Hc : c = "$"%char).
        { unfold old in Hm. rewrite prefix_cons in Hm.
          apply andb_prop in Hm. destruct Hm as [Hm _].
          apply Ascii.eqb_eq in Hm. now symmetry. }
        subst c. change (escape_char "$") with "$" in *. cbn [append] in *.
        cbn [replace_go]. rewrite Hpre.
        rewrite PyStrFacts.append_assoc.
        apply scan_plain; [exact new_plain |].
        apply IH.
        assert (Hlen : String.length old - 1 = String.length old')
          by (unfold old; simpl; lia).
        rewrite Hlen. apply prefix_take in Hm. unfold old in Hm.
        cbn [String.length take] in Hm. injection Hm as Ht. rewrite Ht.
        pose proof old_self as Ho. unfold old in Ho. cbn [forall_chars] in Ho.
        apply andb_prop in Ho. apply Ho.
      * (* no match: the character is copied *)
        assert (Hcopy : replace_go old new 0 (escape_char c ++ escape s)
                        = escape_char c ++ replace_go old new 0 (escape s)).
        { destruct (Ascii.eqb c "$") eqn:Hd.
          - apply Ascii.eqb_eq in Hd. subst c.
            change (escape_char "$") with "$" in *. cbn [append] in *.
            cbn [replace_go]. now rewrite Hpre.
          - apply (@replace_go_no_head old new "$"%char old' (escape_char c));
              [reflexivity | now apply escape_char_no_dollar]. }
        rewrite Hcopy, PyStrFacts.append_assoc, scan_escape_char.
        rewrite (IH 0 eq_refl). reflexivity.
    + cbn [take forall_chars] in Hk. apply andb_prop in Hk. destruct Hk as [Hc Hk].
      cbn [escape]. rewrite (@escape_char_self c Hc). cbn [append replace_go].
      now apply IH.
Qed.
End Decode.

(** ** Numbers *)

Lemma digits_string_of_uint (d : Decimal.uint) :
  forall_chars is_digit (NilEmpty.string_of_uint d) = true.
Proof. induction d; simpl; auto. Qed.

Lemma closes_not_digit (rest : string) :
  closes rest = true -> span_digits rest = ("", rest).
Proof.
  destruct rest as [|c rest]; [reflexivity |].
  each_char c; intros H; try discriminate H; reflexivity.
Qed.

Lemma closes_not_float (rest : string) :
  closes rest = true -> starts_float rest = false.
Proof.
  destruct rest as [|c rest]; [reflexivity |].
  each_char c; intros H; try discriminate H; destruct rest; reflexivity.
Qed.

Lemma span_digits_app (ds rest : string) :
  forall_chars is_digit ds = true -> closes rest = true ->
  span_digits (ds ++ rest) = (ds, rest).
Proof.
  intros Hd Hr. induction ds as [|c ds IH]; [now apply closes_not_digit |].
  simpl in Hd. apply andb_prop in Hd. destruct Hd as [Hc Hd].
  cbn [append span_digits]. rewrite Hc, (IH Hd). reflexivity.
Qed.

Lemma nzhead_not_D0 (u v : Decimal.uint) : Decimal.nzhead u <> Decimal.D0 v.
Proof. induction u; simpl; try discriminate; exact IHu. Qed.

Lemma pos_to_uint_head (p : positive) (u : Decimal.uint) :
  Pos.to_uint p <> Decimal.D0 u.
Proof.
  intros H.
  pose proof (DecimalPos.Unsigned.to_of (Pos.to_uint p)) as E.
  rewrite DecimalPos.Unsigned.of_to in E. cbn [N.to_uint] in E.
  rewrite H, DecimalFacts.unorm_D0 in E. unfold Decimal.unorm in E.
  destruct (Decimal.nzhead u) eqn:Hn; try discriminate E.
  - injection E as ->. now apply (DecimalPos.Unsigned.to_uint_nonzero p).
  - apply (nzhead_not_D0 u u0). exact Hn.
Qed.

(** The digits of a positive number: not empty, not starting with [0]. *)
Lemma pos_digits (p : positive) :
  let ds := NilEmpty.string_of_uint (Pos.to_uint p) in
  NilZero.string_of_uint (Pos.to_uint p) = ds
  /\ forall_chars is_digit ds = true
  /\ (exists c t, ds = String c t /\ is_digit c = true /\ Ascii.eqb c "0" = false)
  /\ NilEmpty.uint_of_string ds = Some (Pos.to_uint p).
Proof.
  cbv zeta. pose proof (DecimalPos.Unsigned.to_uint_nonnil p) as Hnil.
  pose proof (pos_to_uint_head p) as Hhead.
  split; [| split; [| split]].
  - unfold NilZero.string_of_uint. destruct (Pos.to_uint p); congruence.
  - apply digits_string_of_uint.
  - destruct (Pos.to_uint p) as [|u|u|u|u|u|u|u|u|u|u]; try congruence;
      try (eexists; eexists; split; [reflexivity | split; reflexivity]).
  - apply NilEmpty.usu.
Qed.

Lemma scan_digits_pos (c : ascii) (t rest : string) :
  forall_chars is_digit (String c t) = true -> Ascii.eqb c "0" = false ->
  closes rest = true ->
  scan_digits (String c t ++ rest) = (String c t, rest).
Proof.
  intros Hd H0 Hr. unfold scan_digits. cbn [append head_is]. rewrite H0.
  now apply (span_digits_app (String c t)).
Qed.

Lemma digit_not_minus (c : ascii) : is_digit c = true -> Ascii.eqb c "-" = false.
Proof. each_char c; intros H; try discriminate H; reflexivity. Qed.

Lemma parse_number_of_Z (i : Interp) (z : Z) (rest : string) :
  PyInt.fits i z = true ->
  closes rest = true ->
  parse_number i (of_Z z ++ rest) = Ok (JInt z, rest).
Proof.
  intros Hi Hr. pose proof (closes_not_float rest Hr) as Hf.
  unfold PyInt.fits, PyInt.digits in Hi.
  destruct z as [|p|p].
  - change (of_Z 0) with "0". unfold parse_number, scan_digits.
    cbn [append]. change (head_is "-" (String "0" rest)) with false. cbv iota.
    change (head_is "0" (String "0" rest)) with true. cbv iota.
    change (tail (String "0" rest)) with rest.
    change (String.eqb "0" "") with false. cbv iota.
    change (of_Z (Z.abs 0)) with "0" in Hi. rewrite Hf, Hi. reflexivity.
  - unfold of_Z in *. cbn [Z.abs Z.to_int NilZero.string_of_int] in *.
    destruct (pos_digits p) as (E & Hd & (c & t & Hds & Hc & H0) & Hu).
    rewrite E in *. rewrite Hds in *. unfold parse_number. cbn [append head_is].
    rewrite (digit_not_minus c Hc).
    change (String c (t ++ rest)) with (String c t ++ rest).
    rewrite (scan_digits_pos c t rest Hd H0 Hr).
    cbn [String.eqb]. rewrite Hf, Hi, Hu. cbn [negb].
    unfold Z.of_uint. rewrite DecimalPos.Unsigned.of_to. reflexivity.
  - unfold of_Z in *. cbn [Z.abs Z.to_int NilZero.string_of_int] in *.
    destruct (pos_digits p) as (E & Hd & (c & t & Hds & Hc & H0) & Hu).
    rewrite E in *. rewrite Hds in *. unfold parse_number. cbn [append head_is tail].
    cbn [Ascii.eqb Bool.eqb].
    change (String c (t ++ rest)) with (String c t ++ rest).
    rewrite (scan_digits_pos c t rest Hd H0 Hr).
    cbn [String.eqb]. rewrite Hf, Hi, Hu. cbn [negb].
    unfold Z.of_uint. rewrite DecimalPos.Unsigned.of_to. reflexivity.
Qed.

Lemma of_Z_head (z : Z) :
  exists c t, of_Z z = String c t /\ number_start c = true
              /\ occurs "$" (of_Z z) = false.
Proof.
  assert (Hdollar : forall ds, forall_chars is_digit ds = true -> occurs "$" ds = false).
  { induction ds as [|c ds IH]; [reflexivity |]. simpl. intros H.
    apply andb_prop in H. destruct H as [Hc Hd]. rewrite (IH Hd), orb_false_r.
    revert Hc. each_char c; intros H; try discriminate H; reflexivity. }
  destruct z as [|p|p].
  - exists "0"%char, "". repeat split.
  - unfold of_Z. cbn [Z.to_int NilZero.string_of_int].
    destruct (pos_digits p) as (-> & Hd & (c & t & Hds & Hc & H0) & Hu).
    exists c, t. split; [exact Hds |]. split.
    + unfold number_start. now rewrite Hc.
    + now apply Hdollar.
  - unfold of_Z. cbn [Z.to_int NilZero.string_of_int].
    destruct (pos_digits p) as (-> & Hd & _).
    eexists; eexists. split; [reflexivity |]. split; [reflexivity |].
    cbn [occurs]. rewrite (Hdollar _ Hd). reflexivity.
Qed.

End JsonFacts.

Module RoundTripFacts.
Import PyStr Json ReplaceFacts JsonFacts.

(** Induction on documents, with the hypothesis for every item. *)
Lemma json_ind2 (P : json -> Prop) :
  P JNull -> (forall b, P (JBool b)) -> (forall z, P (JInt z)) ->
  (forall s, P (JStr s)) ->
  (forall l, Forall P l -> P (JArr l)) ->
  (forall d, Forall (fun kv => P (snd kv)) d -> P (JObj d)) ->
  forall v, P v.
Proof.
  intros H1 H2 H3 H4 H5 H6. fix IH 1. intros [| b | z | s | l | d].
  - exact H1.
  - apply H2.
  - apply H3.
  - apply H4.
  - apply H5. induction l as [|x l IHl]; constructor; [apply IH | exact IHl].
  - apply H6. induction d as [|[k x] d IHd]; constructor; [apply IH | exact IHd].
Qed.

Lemma join_cons2 (sep x y : string) (l : list string) :
  join sep (x :: y :: l) = x ++ sep ++ join sep (y :: l).
Proof. reflexivity. Qed.

(** ** The substitution goes through the encoder *)

Section Through.
Variables old' new : string.
Let old := String "$" old'.
Hypothesis old_no_quote : occurs dquote old = false.

Let sub := replace old new.

(** The encoder of strings after the substitution. *)
Let enc' (s : string) : string :=
  String dquote (sub (escape s) ++ String dquote "").

Lemma token_nonempty : old <> "".
Proof. discriminate. Qed.

Lemma sub_segment (p t : string) :
  occurs "$" p = false -> sub (p ++ t) = p ++ sub t.
Proof.
  intros H. unfold sub, replace.
  now apply (@replace_go_no_head old new "$"%char old' p t).
Qed.

Lemma sub_string (s rest : string) :
  sub (encode_basestring_ascii s ++ rest) = enc' s ++ sub rest.
Proof.
  unfold encode_basestring_ascii, enc'. cbn [append].
  rewrite !PyStrFacts.append_assoc. cbn [append].
  change (String dquote (escape s ++ String dquote rest))
    with (String dquote "" ++ (escape s ++ String dquote rest)).
  rewrite sub_segment by reflexivity. cbn [append]. f_equal.
  unfold sub, replace.
  rewrite (@replace_go_sep old new token_nonempty dquote rest old_no_quote (escape s) 0)
    by (simpl; lia).
  reflexivity.
Qed.

Let through (v : json) : Prop :=
  forall rest,
    sub (print encode_basestring_ascii v ++ rest) = print enc' v ++ sub rest.

Lemma through_list (l : list json) :
  Forall through l ->
  forall rest,
    sub (join ", " (map (print encode_basestring_ascii) l) ++ rest)
    = join ", " (map (print enc') l) ++ sub rest.
Proof.
  induction 1 as [|x l Hx Hl IH]; intros rest; [reflexivity |].
  destruct l as [|y l].
  - cbn [map join]. apply Hx.
  - cbn [map]. rewrite !join_cons2, !PyStrFacts.append_assoc.
    rewrite Hx, sub_segment by reflexivity.
    f_equal. f_equal. apply IH.
Qed.

Lemma through_items (d : list (string * json)) :
  Forall (fun kv => through (snd kv)) d ->
  forall rest,
    sub (join ", "
           (map (fun kv => encode_basestring_ascii (fst kv) ++ ": "
                           ++ print encode_basestring_ascii (snd kv)) d) ++ rest)
    = join ", " (map (fun kv => enc' (fst kv) ++ ": " ++ print enc' (snd kv)) d)
      ++ sub rest.
Proof.
  induction 1 as [|[k x] d Hx Hd IH]; intros rest; [reflexivity |].
  cbn [fst snd] in Hx.
  assert (Hone : forall t,
             sub ((encode_basestring_ascii k ++ ": "
                   ++ print encode_basestring_ascii x) ++ t)
             = (enc' k ++ ": " ++ print enc' x) ++ sub t).
  { intros t. rewrite !PyStrFacts.append_assoc.
    rewrite sub_string, sub_segment by reflexivity. now rewrite Hx. }
  destruct d as [|y d].
  - cbn [map join fst snd]. apply Hone.
  - cbn [map]. rewrite !join_cons2. cbn [fst snd].
    set (A := encode_basestring_ascii k ++ ": " ++ print encode_basestring_ascii x) in *.
    set (A' := enc' k ++ ": " ++ print enc' x) in *.
    rewrite (PyStrFacts.append_assoc A), (PyStrFacts.append_assoc A').
    rewrite Hone. f_equal.
    rewrite !PyStrFacts.append_assoc, sub_segment by reflexivity.
    f_equal. apply IH.
Qed.

Lemma through_all (v : json) : through v.
Proof.
  induction v as [| b | z | s | l Hl | d Hd] using json_ind2; intros rest.
  - apply (sub_segment "null"). reflexivity.
  - destruct b; [apply (sub_segment "true") | apply (sub_segment "false")];
      reflexivity.
  - cbn [print]. apply sub_segment.
    destruct (of_Z_head z) as (c & t & _ & _ & H). exact H.
  - cbn [print]. apply sub_string.
  - cbn [print]. rewrite !PyStrFacts.append_assoc.
    rewrite sub_segment by reflexivity. rewrite (through_list l Hl).
    rewrite sub_segment by reflexivity. reflexivity.
  - cbn [print]. rewrite !PyStrFacts.append_assoc.
    rewrite sub_segment by reflexivity. rewrite (through_items d Hd).
    rewrite sub_segment by reflexivity. reflexivity.
Qed.
End Through.

(** ** The decoder reads back what the encoder writes *)

Lemma parse_value_number (i : Interp) (f d : nat) (c : ascii) (t : string) :
  number_start c = true ->
  parse_value i (S f) d (String c t) = parse_number i (String c t).
Proof. each_char c; intros H; try discriminate H; reflexivity. Qed.

Lemma number_start_head (c : ascii) :
  number_start c = true ->
  is_ws c = false /\ Ascii.eqb c "]" = false /\ Ascii.eqb c "}" = false.
Proof. each_char c; intros H; try discriminate H; repeat split. Qed.

Lemma skip_ws_head (c : ascii) (t : string) :
  is_ws c = false -> skip_ws (String c t) = String c t.
Proof. intros H. cbn [skip_ws]. now rewrite H. Qed.

Lemma parse_elems_more (i : Interp) (fuel d : nat) (s X : string) (v : json) :
  parse_value i fuel d s = Ok (v, String "," (String " " X)) -> skip_ws X = X ->
  parse_elems i (S fuel) d s
  = let? (l, rest) := parse_elems i fuel d X in Ok (v :: l, rest).
Proof.
  intros H1 H2. cbn [parse_elems]. rewrite H1. cbn [bindR].
  change (skip_ws (String "," (String " " X))) with (String "," (String " " X)).
  change (head_is "," (String "," (String " " X))) with true. cbv iota.
  change (skip_ws (tail (String "," (String " " X)))) with (skip_ws X).
  now rewrite H2.
Qed.

Lemma parse_elems_last (i : Interp) (fuel d : nat) (s rest : string) (v : json) :
  parse_value i fuel d s = Ok (v, String "]" rest) ->
  parse_elems i (S fuel) d s = Ok ([v], rest).
Proof. intros H. cbn [parse_elems]. rewrite H. reflexivity. Qed.

Lemma parse_pairs_more (i : Interp) (fuel d : nat) (K V X key : string) (v : json) :
  scanstring K = Ok (key, String ":" (String " " V)) -> skip_ws V = V ->
  parse_value i fuel d V = Ok (v, String "," (String " " X)) -> skip_ws X = X ->
  parse_pairs i (S fuel) d (String dquote K)
  = let? (l, rest) := parse_pairs i fuel d X in Ok ((key, v) :: l, rest).
Proof.
  intros H1 H2 H3 H4. cbn [parse_pairs].
  change (head_is dquote (String dquote K)) with true. cbv iota.
  change (tail (String dquote K)) with K. rewrite H1. cbn [bindR].
  change (skip_ws (String ":" (String " " V))) with (String ":" (String " " V)).
  change (head_is ":" (String ":" (String " " V))) with true. cbv iota.
  change (skip_ws (tail (String ":" (String " " V)))) with (skip_ws V).
  rewrite H2, H3. cbn [bindR].
  change (skip_ws (String "," (String " " X))) with (String "," (String " " X)).
  change (head_is "," (String "," (String " " X))) with true. cbv iota.
  change (skip_ws (tail (String "," (String " " X)))) with (skip_ws X).
  now rewrite H4.
Qed.

Lemma parse_pairs_last (i : Interp) (fuel d : nat) (K V rest key : string)
  (v : json) :
  scanstring K = Ok (key, String ":" (String " " V)) -> skip_ws V = V ->
  parse_value i fuel d V = Ok (v, String "}" rest) ->
  parse_pairs i (S fuel) d (String dquote K) = Ok ([(key, v)], rest).
Proof.
  intros H1 H2 H3. cbn [parse_pairs].
  change (head_is dquote (String dquote K)) with true. cbv iota.
  change (tail (String dquote K)) with K. rewrite H1. cbn [bindR].
  change (skip_ws (String ":" (String " " V))) with (String ":" (String " " V)).
  change (head_is ":" (String ":" (String " " V))) with true. cbv iota.
  change (skip_ws (tail (String ":" (String " " V)))) with (skip_ws V).
  rewrite H2, H3. reflexivity.
Qed.

Lemma parse_null (i : Interp) (fuel d : nat) (rest : string) :
  parse_value i (S fuel) d ("null" ++ rest) = Ok (JNull, rest).
Proof.
  cbn [append parse_value head_is tail]. unfold dquote.
  cbn [Ascii.eqb Bool.eqb]. rewrite !prefix_cons, ?prefix_nil.
  cbn [Ascii.eqb Bool.eqb andb]. reflexivity.
Qed.

Lemma parse_true (i : Interp) (fuel d : nat) (rest : string) :
  parse_value i (S fuel) d ("true" ++ rest) = Ok (JBool true, rest).
Proof.
  cbn [append parse_value head_is tail]. unfold dquote.
  cbn [Ascii.eqb Bool.eqb]. rewrite !prefix_cons, ?prefix_nil.
  cbn [Ascii.eqb Bool.eqb andb]. reflexivity.
Qed.

Lemma parse_false (i : Interp) (fuel d : nat) (rest : string) :
  parse_value i (S fuel) d ("false" ++ rest) = Ok (JBool false, rest).
Proof.
  cbn [append parse_value head_is tail]. unfold dquote.
  cbn [Ascii.eqb Bool.eqb]. rewrite !prefix_cons, ?prefix_nil.
  cbn [Ascii.eqb Bool.eqb andb]. reflexivity.
Qed.

Lemma parse_string (i : Interp) (fuel d : nat) (K key rest : string) :
  scanstring K = Ok (key, rest) ->
  parse_value i (S fuel) d (String dquote K) = Ok (JStr key, rest).
Proof. intros H. cbn [parse_value]. cbn [head_is tail]. cbn. now rewrite H. Qed.

Lemma parse_array (i : Interp) (fuel d : nat) (X rest : string) (l : list json) :
  skip_ws X = X -> head_is "]" X = false ->
  parse_elems i fuel d X = Ok (l, rest) ->
  parse_value i (S fuel) (S d) (String "[" X) = Ok (JArr l, rest).
Proof.
  intros H1 H2 H3. cbn [parse_value].
  change (head_is dquote (String "[" X)) with false.
  change (head_is "[" (String "[" X)) with true. cbv iota.
  change (tail (String "[" X)) with X. cbv zeta. rewrite H1, H2, H3. reflexivity.
Qed.

Lemma parse_object (i : Interp) (fuel d : nat) (X rest : string)
  (l : list (string * json)) :
  skip_ws X = X -> head_is "}" X = false ->
  parse_pairs i fuel d X = Ok (l, rest) ->
  parse_value i (S fuel) (S d) (String "{" X) = Ok (JObj (PyDict.of_pairs l), rest).
Proof.
  intros H1 H2 H3. cbn [parse_value].
  change (head_is dquote (String "{" X)) with false.
  change (head_is "[" (String "{" X)) with false.
  change (head_is "{" (String "{" X)) with true. cbv iota.
  change (tail (String "{" X)) with X. cbv zeta. rewrite H1, H2, H3. reflexivity.
Qed.

Section ReadBack.
Variable i : Interp.
Variable body f : string -> string.
Hypothesis body_decodes :
  forall s t, scanstring (body s ++ String dquote t) = Ok (f s, t).

Let enc' (s : string) : string := String dquote (body s ++ String dquote "").
Let pr := print enc'.
Let g (v : json) : json := normalize (map_strings f v).

(** The first character of a value is no space and closes nothing. *)
Lemma print_head (v : json) :
  exists c t, pr v = String c t
              /\ is_ws c = false /\ Ascii.eqb c "]" = false
              /\ Ascii.eqb c "}" = false.
Proof.
  destruct v as [| [|] | z | s | l | d];
    try (eexists; eexists; split; [reflexivity | repeat split]).
  destruct (of_Z_head z) as (c & t & Hz & Hc & _).
  exists c, t. split; [exact Hz | now apply number_start_head].
Qed.

Lemma skip_ws_print (v : json) (t : string) : skip_ws (pr v ++ t) = pr v ++ t.
Proof.
  destruct (print_head v) as (c & u & -> & Hw & _). cbn [append].
  now apply skip_ws_head.
Qed.

Lemma head_print (v : json) (t : string) :
  head_is "]" (pr v ++ t) = false /\ head_is "}" (pr v ++ t) = false.
Proof.
  destruct (print_head v) as (c & u & -> & _ & H1 & H2). cbn [append head_is].
  now split.
Qed.

(** A document within the limits of the decoder is read back from its
    text. *)
Let reads (v : json) : Prop :=
  forall fuel d rest,
    size v < fuel -> depth v <= d -> ints_fit i v = true -> closes rest = true ->
    parse_value i fuel d (pr v ++ rest) = Ok (g v, rest).

Let size_list (l : list json) : nat :=
  fold_right (fun x n => S (size x + n)) 0 l.

Let depth_list (l : list json) : nat :=
  fold_right (fun x n => Nat.max (depth x) n) 0 l.

Lemma skip_ws_join (l : list json) (t : string) :
  l <> [] -> skip_ws (join ", " (map pr l) ++ t) = join ", " (map pr l) ++ t.
Proof.
  destruct l as [|x [|y l]]; intros H; [congruence | |].
  - cbn [map join]. apply skip_ws_print.
  - cbn [map]. rewrite join_cons2, PyStrFacts.append_assoc. apply skip_ws_print.
Qed.

Lemma head_join (l : list json) (t : string) :
  l <> [] -> head_is "]" (join ", " (map pr l) ++ t) = false.
Proof.
  destruct l as [|x [|y l]]; intros H; [congruence | |].
  - cbn [map join]. apply head_print.
  - cbn [map]. rewrite join_cons2, PyStrFacts.append_assoc. apply head_print.
Qed.

Lemma reads_list (l : list json) :
  Forall reads l -> l <> [] ->
  forall fuel d rest,
    size_list l < fuel -> depth_list l <= d -> forallb (ints_fit i) l = true ->
    parse_elems i fuel d (join ", " (map pr l) ++ String "]" rest)
    = Ok (map g l, rest).
Proof.
  induction 1 as [|x l Hx Hl IH]; intros Hne fuel d rest Hfuel Hd Hi; [congruence |].
  destruct fuel as [|fuel]; [lia |]. cbn [size_list fold_right] in Hfuel.
  fold (size_list l) in Hfuel.
  cbn [depth_list fold_right] in Hd. fold (depth_list l) in Hd.
  cbn [forallb] in Hi. apply andb_prop in Hi. destruct Hi as [Hix Hil].
  destruct l as [|y l].
  - cbn [map join]. apply parse_elems_last.
    apply Hx; [lia | lia | exact Hix | reflexivity].
  - cbn [map]. rewrite join_cons2, !PyStrFacts.append_assoc.
    rewrite (parse_elems_more i fuel d _
               (join ", " (map pr (y :: l)) ++ String "]" rest) (g x)).
    + rewrite IH by (try discriminate; try exact Hil; lia). reflexivity.
    + apply (Hx fuel d (String "," (String " " _))); [lia | lia | exact Hix | reflexivity].
    + apply skip_ws_join. discriminate.
Qed.

Let pair_text (kv : string * json) : string :=
  enc' (fst kv) ++ ": " ++ pr (snd kv).

Lemma pair_text_shape (k : string) (v : json) (t : string) :
  pair_text (k, v) ++ t
  = String dquote (body k ++ String dquote (String ":" (String " " (pr v ++ t)))).
Proof.
  unfold pair_text, enc'. cbn [fst snd append].
  rewrite !PyStrFacts.append_assoc. cbn [append]. reflexivity.
Qed.

Lemma skip_ws_items (d : list (string * json)) (t : string) :
  d <> [] ->
  skip_ws (join ", " (map pair_text d) ++ t) = join ", " (map pair_text d) ++ t
  /\ head_is "}" (join ", " (map pair_text d) ++ t) = false.
Proof.
  destruct d as [|[k v] [|y d]]; intros H; [congruence | |].
  - cbn [map join]. rewrite pair_text_shape. split; reflexivity.
  - cbn [map]. rewrite join_cons2, PyStrFacts.append_assoc, pair_text_shape.
    split; reflexivity.
Qed.

Let size_items (d : list (string * json)) : nat :=
  fold_right (fun kv n => S (size (snd kv) + n)) 0 d.

Let depth_items (d : list (string * json)) : nat :=
  fold_right (fun kv n => Nat.max (depth (snd kv)) n) 0 d.

Lemma reads_items (d : list (string * json)) :
  Forall (fun kv => reads (snd kv)) d -> d <> [] ->
  forall fuel dep rest,
    size_items d < fuel -> depth_items d <= dep ->
    forallb (fun kv => ints_fit i (snd kv)) d = true ->
    parse_pairs i fuel dep (join ", " (map pair_text d) ++ String "}" rest)
    = Ok (map (fun kv => (f (fst kv), g (snd kv))) d, rest).
Proof.
  induction 1 as [|[k x] d Hx Hd IH]; intros Hne fuel dep rest Hfuel Hdep Hi;
    [congruence |].
  destruct fuel as [|fuel]; [lia |]. cbn [size_items fold_right snd] in Hfuel.
  fold (size_items d) in Hfuel.
  cbn [depth_items fold_right snd] in Hdep. fold (depth_items d) in Hdep.
  cbn [forallb snd] in Hi. apply andb_prop in Hi. destruct Hi as [Hix Hil].
  cbn [snd] in Hx.
  destruct d as [|y d].
  - cbn [map join fst snd]. rewrite pair_text_shape.
    apply (parse_pairs_last i fuel dep _ (pr x ++ String "}" rest) rest (f k) (g x)).
    + apply body_decodes.
    + apply skip_ws_print.
    + apply Hx; [lia | lia | exact Hix | reflexivity].
  - cbn [map]. rewrite join_cons2, PyStrFacts.append_assoc, pair_text_shape.
    cbn [fst snd]. rewrite PyStrFacts.append_assoc. cbn [append].
    rewrite (parse_pairs_more i fuel dep _
               (pr x ++ String "," (String " " (join ", " (map pair_text (y :: d))
                                                 ++ String "}" rest)))
               (join ", " (map pair_text (y :: d)) ++ String "}" rest)
               (f k) (g x)).
    + rewrite IH by (try discriminate; try exact Hil; lia). reflexivity.
    + apply body_decodes.
    + apply skip_ws_print.
    + apply Hx; [lia | lia | exact Hix | reflexivity].
    + apply skip_ws_items. discriminate.
Qed.

Lemma reads_all (v : json) : reads v.
Proof.
  induction v as [| b | z | s | l Hl | d Hd] using json_ind2;
    intros fuel dep rest Hfuel Hdep Hi Hrest;
    (destruct fuel as [|fuel]; [simpl in Hfuel; lia |]).
  - apply parse_null.
  - destruct b; [apply parse_true | apply parse_false].
  - unfold pr. cbn [print]. destruct (of_Z_head z) as (c & t & Hz & Hc & _).
    cbn [ints_fit] in Hi.
    pose proof (parse_number_of_Z i z rest Hi Hrest) as Hn. rewrite Hz in *.
    cbn [append] in *. rewrite parse_value_number by exact Hc. exact Hn.
  - unfold pr. cbn [print]. unfold enc'. cbn [append].
    rewrite PyStrFacts.append_assoc. cbn [append].
    apply parse_string. apply body_decodes.
  - unfold pr. cbn [print]. fold pr. cbn [append].
    rewrite PyStrFacts.append_assoc. cbn [append].
    cbn [depth] in Hdep. destruct dep as [|dep]; [lia |].
    destruct l as [|x l].
    + reflexivity.
    + apply parse_array.
      * apply skip_ws_join. discriminate.
      * apply head_join. discriminate.
      * unfold g. cbn [map_strings normalize]. rewrite map_map.
        apply (reads_list (x :: l) Hl); [discriminate | | |].
        -- cbn [size] in Hfuel. unfold size_list. lia.
        -- unfold depth_list. lia.
        -- exact Hi.
  - unfold pr. cbn [print]. fold pr. fold pair_text. cbn [append].
    rewrite PyStrFacts.append_assoc. cbn [append].
    cbn [depth] in Hdep. destruct dep as [|dep]; [lia |].
    destruct d as [|kv d].
    + reflexivity.
    + unfold g. cbn [map_strings normalize]. rewrite map_map. cbn [fst snd].
      apply parse_object.
      * apply skip_ws_items. discriminate.
      * apply skip_ws_items. discriminate.
      * apply (reads_items (kv :: d) Hd); [discriminate | | |].
        -- cbn [size] in Hfuel. unfold size_items. lia.
        -- unfold depth_items. lia.
        -- exact Hi.
Qed.

(** The text is at least as long as the document is large. *)
Lemma size_le_length (v : json) : size v <= String.length (pr v).
Proof.
  induction v as [| b | z | s | l Hl | d Hd] using json_ind2.
  - simpl. lia.
  - destruct b; simpl; lia.
  - unfold pr. cbn [print size]. destruct (of_Z_head z) as (c & t & -> & _).
    simpl. lia.
  - unfold pr, enc'. cbn [print size String.length]. lia.
  - unfold pr. cbn [print size]. fold pr.
    rewrite !PyStrFacts.length_append. cbn [String.length].
    assert (H : fold_right (fun x n => S (size x + n)) 0 l
                <= String.length (join ", " (map pr l)) + 1).
    { induction Hl as [|x l Hx Hl IH]; [simpl; lia |].
      destruct l as [|y l].
      - cbn [fold_right map join]. lia.
      - cbn [map] in *. rewrite join_cons2, !PyStrFacts.length_append.
        cbn [fold_right] in *. cbn [String.length]. lia. }
    lia.
  - unfold pr. cbn [print size]. fold pr. fold pair_text.
    rewrite !PyStrFacts.length_append. cbn [String.length].
    assert (H : fold_right (fun kv n => S (size (snd kv) + n)) 0 d
                <= String.length (join ", " (map pair_text d)) + 1).
    { induction Hd as [|[k x] d Hx Hd IH]; [simpl; lia |].
      cbn [snd] in Hx.
      assert (Hp : size x <= String.length (pair_text (k, x))).
      { unfold pair_text. cbn [fst snd]. rewrite !PyStrFacts.length_append. lia. }
      destruct d as [|y d].
      - cbn [fold_right map join snd]. lia.
      - cbn [map] in *. rewrite join_cons2, !PyStrFacts.length_append.
        cbn [fold_right snd] in *. cbn [String.length]. lia. }
    lia.
Qed.

(** [loads] reads the text of a document back when the document is within
    the limits of the decoder. *)
Lemma loads_print (v : json) :
  depth v <= decoder_depth i -> ints_fit i v = true ->
  loads i (pr v) = Ok (g v).
Proof.
  intros Hd Hi. unfold loads.
  pose proof (skip_ws_print v "") as Hs. rewrite PyStrFacts.append_nil_r in Hs.
  rewrite Hs.
  pose proof (reads_all v (S (String.length (pr v))) (decoder_depth i) "") as Hr.
  rewrite PyStrFacts.append_nil_r in Hr. rewrite Hr.
  - reflexivity.
  - pose proof (size_le_length v). lia.
  - exact Hd.
  - exact Hi.
  - reflexivity.
Qed.
End ReadBack.

(** ** The encoder within its limits *)

(** Within the limits, [encode] returns the text of the document. *)
Lemma encode_text (i : Interp) (v : json) :
  forall b, depth v <= b -> ints_fit i v = true -> encode i b v = Ok (text v).
Proof.
  unfold text.
  induction v as [| [|] | z | s | l IH | d IH] using json_ind2;
    intros b Hd Hi; try reflexivity.
  - cbn [encode print]. unfold PyInt.to_str. cbn [ints_fit] in Hi. now rewrite Hi.
  - cbn [depth ints_fit] in Hd, Hi. destruct b as [|b]; [lia |].
    apply le_S_n in Hd. cbn [encode print].
    rewrite (@ResultFacts.mapR_ok _ _ (encode i b) (print encode_basestring_ascii) l);
      [reflexivity |].
    induction IH as [|x l Hx _ IHl]; constructor;
      cbn [fold_right forallb] in Hd, Hi; apply andb_prop in Hi.
    + apply Hx; [lia | tauto].
    + apply IHl; [lia | tauto].
  - cbn [depth ints_fit] in Hd, Hi. destruct b as [|b]; [lia |].
    apply le_S_n in Hd. cbn [encode print].
    rewrite (@ResultFacts.mapR_ok _ _
               (fun kv => let? t := encode i b (snd kv) in
                          Ok (encode_basestring_ascii (fst kv) ++ ": " ++ t))
               (fun kv => encode_basestring_ascii (fst kv) ++ ": "
                          ++ print encode_basestring_ascii (snd kv)) d);
      [reflexivity |].
    induction IH as [|[k x] d Hx _ IHd]; constructor;
      cbn [fold_right forallb fst snd] in *; apply andb_prop in Hi.
    + rewrite Hx by (lia || tauto). reflexivity.
    + apply IHd; [lia | tauto].
Qed.

(** What [encode] returns is the text of a document within the limits. *)
Lemma encode_inv (i : Interp) (v : json) :
  forall b s, encode i b v = Ok s ->
              s = text v /\ depth v <= b /\ ints_fit i v = true.
Proof.
  unfold text.
  induction v as [| [|] | z | s0 | l IH | d IH] using json_ind2;
    intros b s H; cbn [encode] in H.
  - inversion H. cbn. repeat split. lia.
  - inversion H. cbn. repeat split. lia.
  - inversion H. cbn. repeat split. lia.
  - unfold PyInt.to_str in H. cbn [ints_fit depth print].
    destruct (PyInt.fits i z); [| discriminate H]. inversion H.
    repeat split. lia.
  - inversion H. cbn. repeat split. lia.
  - destruct b as [|b]; [discriminate H |].
    destruct (mapR (encode i b) l) as [parts |] eqn:E; [| discriminate H].
    cbn [bindR] in H. inversion H; subst s. clear H.
    apply (@ResultFacts.mapR_inv _ _ _ _ _) in E.
    assert (G : parts = map (print encode_basestring_ascii) l
                /\ fold_right (fun x n => Nat.max (depth x) n) 0 l <= b
                /\ forallb (ints_fit i) l = true).
    { clear - IH E. revert parts E.
      induction IH as [|x l Hx _ IHl]; intros parts E; inversion E; subst.
      - repeat split. cbn. lia.
      - destruct (Hx _ _ H1) as (-> & Hd & Hi).
        destruct (IHl _ H3) as (-> & Hd' & Hi').
        cbn [map fold_right forallb]. rewrite Hi, Hi'. repeat split. lia. }
    destruct G as (-> & Hd & Hi). cbn [print depth ints_fit].
    repeat split; [lia | exact Hi].
  - destruct b as [|b]; [discriminate H |].
    destruct (mapR _ d) as [parts |] eqn:E; [| discriminate H].
    cbn [bindR] in H. inversion H; subst s. clear H.
    apply (@ResultFacts.mapR_inv _ _ _ _ _) in E.
    assert (G : parts = map (fun kv => encode_basestring_ascii (fst kv) ++ ": "
                                       ++ print encode_basestring_ascii (snd kv)) d
                /\ fold_right (fun kv n => Nat.max (depth (snd kv)) n) 0 d <= b
                /\ forallb (fun kv => ints_fit i (snd kv)) d = true).
    { clear - IH E. revert parts E.
      induction IH as [|[k x] d Hx _ IHd]; intros parts E; inversion E; subst.
      - repeat split. cbn. lia.
      - cbn [fst snd] in *.
        destruct (encode i b x) as [t |] eqn:Et; [| discriminate H1].
        cbn [bindR] in H1. inversion H1; subst.
        destruct (Hx _ _ Et) as (-> & Hd & Hi).
        destruct (IHd _ H3) as (-> & Hd' & Hi').
        cbn [map fold_right forallb fst snd]. rewrite Hi, Hi'. repeat split. lia. }
    destruct G as (-> & Hd & Hi). cbn [print depth ints_fit].
    repeat split; [lia | exact Hi].
Qed.

End RoundTripFacts.


Module SubstitutionFacts.
Import PyStr Json ReplaceFacts JsonFacts RoundTripFacts KeeperPdfGenerator.

Lemma plain_char_not_backslash (c : ascii) :
  plain_char c = true -> Ascii.eqb c backslash = false.
Proof. each_char c; intros H; try discriminate H; reflexivity. Qed.

(** A replacement without a backslash stands for itself. *)
Lemma expand_plain (whole : string) :
  forall (repl : string) (fuel : nat),
    plain repl = true -> String.length repl <= fuel ->
    Re.expand_template fuel whole repl = Ok repl.
Proof.
  induction repl as [|c r IH]; intros fuel Hp Hf.
  - destruct fuel; reflexivity.
  - destruct fuel as [|fuel]; [simpl in Hf; lia |].
    unfold plain in Hp. cbn [forall_chars] in Hp.
    apply andb_prop in Hp. destruct Hp as [Hc Hr].
    cbn [Re.expand_template]. rewrite (plain_char_not_backslash c Hc).
    cbn [negb]. rewrite IH by (try exact Hr; simpl in Hf; lia). reflexivity.
Qed.

Lemma sub_literal_plain (lit name s : string) :
  plain name = true -> Re.sub_literal lit name s = Ok (replace lit name s).
Proof.
  intros Hp. unfold Re.sub_literal. rewrite expand_plain by (try exact Hp; lia).
  reflexivity.
Qed.

(** A text without the token is left as it is. *)
Lemma replace_absent (old new : string) :
  forall s, contains old s = false -> replace old new s = s.
Proof.
  unfold replace. induction s as [|c s IH]; intros H; [reflexivity |].
  cbn [contains] in H. apply orb_false_elim in H. destruct H as [Hp Hc].
  cbn [replace_go]. rewrite Hp. now rewrite IH.
Qed.

(** C2 (as amended).  For every template that the interpreter can encode
    and decode (its nesting of lists and objects within what the recursion
    limit admits for [json.dumps] and [json.loads], its integers within the
    digit limit) and every customer whose name holds no double quote, no
    backslash and no control character, [substitute_placeholders] does not
    raise: it returns the template in which every occurrence of the token
    [${customer_name}], in every string and every key, is replaced by the
    name; objects are rebuilt item by item, so of two keys that become equal
    the later value stays.  A string without that token, whatever other
    tokens it holds, is left as it is. *)
Theorem substitute_placeholders_plain (i : Interp)
  (template : json) (customer : PyDict.dict string) (name : string) :
  PyDict.get customer "name" = Some name ->
  plain name = true ->
  depth template <= encoder_depth i ->
  depth template <= decoder_depth i ->
  ints_fit i template = true ->
  substitute_placeholders i template customer
    = Ok (normalize (map_strings (replace placeholder name) template))
  /\ (forall s, contains placeholder s = false -> replace placeholder name s = s).
Proof.
  intros Hget Hplain Henc Hdec Hints. split; [| apply replace_absent].
  unfold substitute_placeholders, dumps.
  rewrite (encode_text i template _ Henc Hints). cbn [bindR].
  rewrite Hget. cbn [bindR].
  rewrite sub_literal_plain by exact Hplain. cbn [bindR].
  pose proof (through_all "{customer_name}" name eq_refl template "") as Ht.
  rewrite PyStrFacts.append_nil_r in Ht.
  change (replace (String "$" "{customer_name}") name "") with "" in Ht.
  rewrite PyStrFacts.append_nil_r in Ht.
  unfold text. change placeholder with (String "$" "{customer_name}").
  rewrite Ht.
  apply (loads_print i
           (fun s => replace (String "$" "{customer_name}") name (escape s))
           (replace (String "$" "{customer_name}") name)).
  - intros s t.
    apply (scan_replace_escape "{customer_name}" name eq_refl Hplain t s 0).
    reflexivity.
  - exact Hdec.
  - exact Hints.
Qed.

Lemma substitute_placeholders_plain_witness :
  substitute_placeholders Scenario.limits Scenario.named_template Scenario.acme
  = Ok (normalize (map_strings (replace placeholder "Acme") Scenario.named_template))
  /\ (forall s, contains placeholder s = false -> replace placeholder "Acme" s = s).
Proof.
  apply (substitute_placeholders_plain Scenario.limits Scenario.named_template
           Scenario.acme "Acme").
  - reflexivity.
  - reflexivity.
  - apply Nat.leb_le. reflexivity.
  - apply Nat.leb_le. reflexivity.
  - reflexivity.
Defined.

(** C2 (as stated) fails: the tokens [${email}] and [${name}], whose names
    are keys of the customer mapping, are left unresolved; a name that holds
    a double quote makes the function raise, and so does a mapping without
    the key [name], a template that is nested deeper than the interpreter
    admits, and an integer with more digits than it converts. *)
Lemma substitution_misses_mapped_tokens :
  let template := JObj [("root_folder", JStr "${email}"); ("note", JStr "${name}")] in
  let customer := [("name", "Acme"); ("email", "a@b.local")] in
  PyDict.get customer "email" = Some "a@b.local"
  /\ substitute_placeholders Scenario.limits template customer = Ok template
  /\ substitute_placeholders Scenario.limits (JStr "${customer_name}")
       [("name", String dquote "")]
     = Raise JSONDecodeError
  /\ substitute_placeholders Scenario.limits (JStr "x") [("email", "a@b.local")]
     = Raise (KeyError "name")
  /\ substitute_placeholders Scenario.limits (Scenario.nested_array 1000) customer
     = Raise RecursionError
  /\ substitute_placeholders Scenario.limits (JInt (10 ^ 4300)) customer
     = Raise DigitLimitError.
Proof.
  cbv zeta. split; [| split; [| split; [| split; [| split]]]];
    vm_compute; reflexivity.
Qed.

End SubstitutionFacts.

Set Implicit Arguments.

(* ================================================================== *)
(** * Facts about [keeper_pdf_generator.py]: the context *)
(* ================================================================== *)

Module ContextFacts.
Import PyStr PyVal Json KeeperPdfGenerator Shape.

Section Writes.
Variable V : Type.
Implicit Types (d : PyDict.dict V) (l : list (string * V)).

Let write d (kv : string * V) := PyDict.set d (fst kv) (snd kv).

Lemma get_writes_other l : forall d k,
  ~ In k (map fst l) -> PyDict.get (fold_left write l d) k = PyDict.get d k.
Proof.
  induction l as [|[k' v'] l IH]; intros d k Hn; simpl; [reflexivity |].
  rewrite IH by (intros H; apply Hn; now right).
  apply PyDictFacts.get_set_other. intros ->. apply Hn. now left.
Qed.

Lemma get_writes_in l : forall d k v,
  NoDup (map fst l) -> In (k, v) l ->
  PyDict.get (fold_left write l d) k = Some v.
Proof.
  induction l as [|[k' v'] l IH]; intros d k v Hnd Hin; simpl; [contradiction |].
  inversion Hnd as [|? ? Hnin Hnd']; subst.
  destruct Hin as [Heq | Hin].
  - inversion Heq; subst. rewrite get_writes_other by assumption.
    apply PyDictFacts.get_set_same.
  - now apply IH.
Qed.

Lemma records_by_title_distinct (recs : list (string * PyDict.dict V)) :
  NoDup (map fst recs) -> records_by_title recs = recs.
Proof.
  intros H. unfold records_by_title.
  exact (PyDictFacts.of_pairs_distinct recs H).
Qed.

Lemma get_in d k v : PyDict.get d k = Some v -> In (k, v) d.
Proof.
  induction d as [|[k' v'] d IH]; simpl; [discriminate |].
  destruct (String.eqb_spec k' k) as [-> | Hne].
  - intros H. inversion H. now left.
  - intros H. right. now apply IH.
Qed.

(** The assignments [context[title_field] = value], in their order. *)
Let field_writes (item : string * PyDict.dict V) : list (string * V) :=
  map (fun fv => (fst item ++ "_" ++ fst fv, snd fv)) (snd item).

Let writes_of (recs : list (string * PyDict.dict V)) : list (string * V) :=
  flat_map field_writes recs.

Lemma add_record_fields_writes d (item : string * PyDict.dict V) :
  add_record_fields d item = fold_left write (field_writes item) d.
Proof.
  destruct item as [t data]. unfold add_record_fields, field_writes. cbn [fst snd].
  revert d. induction data as [|[f v] data IH]; intros d; simpl; [reflexivity |].
  apply IH.
Qed.

Lemma fill_context_writes (recs : list (string * PyDict.dict V)) : forall d,
  fill_context d recs = fold_left write (writes_of recs) d.
Proof.
  unfold fill_context, writes_of.
  induction recs as [|item recs IH]; intros d; simpl; [reflexivity |].
  rewrite fold_left_app, IH. f_equal. apply add_record_fields_writes.
Qed.

Lemma in_writes_of recs k v :
  In (k, v) (writes_of recs) <->
  exists t data f, In (t, data) recs /\ In (f, v) data /\ k = t ++ "_" ++ f.
Proof.
  unfold writes_of, field_writes. rewrite in_flat_map. split.
  - intros ([t data] & Hin & Hk). apply in_map_iff in Hk.
    destruct Hk as ([f v'] & Heq & Hf). inversion Heq; subst.
    now exists t, data, f.
  - intros (t & data & f & Hin & Hf & ->). exists (t, data). split; [assumption |].
    apply in_map_iff. now exists (f, v).
Qed.

Lemma in_keys_writes_of recs k :
  In k (map fst (writes_of recs)) <->
  exists t data f, In (t, data) recs /\ In f (PyDict.keys data) /\ k = t ++ "_" ++ f.
Proof.
  rewrite in_map_iff. split.
  - intros ([k' v] & Hk & Hin). simpl in Hk. subst k'.
    apply in_writes_of in Hin. destruct Hin as (t & data & f & H1 & H2 & H3).
    exists t, data, f. repeat split; auto.
    unfold PyDict.keys. apply in_map_iff. now exists (f, v).
  - intros (t & data & f & H1 & H2 & ->). unfold PyDict.keys in H2.
    apply in_map_iff in H2. destruct H2 as ([f' v] & Hf & Hin). simpl in Hf. subst f'.
    exists (t ++ "_" ++ f, v). split; [reflexivity |].
    apply in_writes_of. now exists t, data, f.
Qed.
End Writes.

(** ** The keys [<title>_<field>] *)

Lemma no_underscore_cons (c : ascii) (t : string) :
  no_underscore (String c t) -> c <> "_"%char /\ no_underscore t.
Proof.
  unfold no_underscore.
  change (contains "_" (String c t))
    with ((if ascii_dec "_" c then String.prefix "" t else false) || contains "_" t).
  destruct (ascii_dec "_" c) as [<- | Hne].
  - destruct t; discriminate.
  - intros H. split; [congruence | exact H].
Qed.

Lemma key_injective (t1 f1 t2 f2 : string) :
  no_underscore t1 -> no_underscore t2 ->
  t1 ++ "_" ++ f1 = t2 ++ "_" ++ f2 -> t1 = t2 /\ f1 = f2.
Proof.
  revert t2. induction t1 as [|c1 t1 IH]; intros [|c2 t2] H1 H2 Heq; simpl in Heq.
  - inversion Heq. now split.
  - apply no_underscore_cons in H2. inversion Heq. destruct H2; congruence.
  - apply no_underscore_cons in H1. inversion Heq. destruct H1; congruence.
  - apply no_underscore_cons in H1, H2. inversion Heq; subst.
    destruct (IH t2) as [-> ->]; tauto.
Qed.

Lemma writes_distinct (V : Type) (recs : list (string * PyDict.dict V)) :
  NoDup (map fst recs) ->
  (forall t d, In (t, d) recs -> no_underscore t /\ NoDup (PyDict.keys d)) ->
  NoDup (map fst (flat_map
                    (fun item : string * PyDict.dict V =>
                       map (fun fv => (fst item ++ "_" ++ fst fv, snd fv)) (snd item))
                    recs)).
Proof.
  induction recs as [|[t d] recs IH]; intros Hnd Hok; simpl; [constructor |].
  inversion Hnd as [|? ? Hnin Hnd']; subst.
  rewrite map_app. apply NoDup_app.
  - rewrite map_map. cbn [fst snd].
    destruct (Hok t d (or_introl eq_refl)) as [_ Hd]. unfold PyDict.keys in Hd.
    assert (Hm : forall l : list (string * V),
               map (fun x => t ++ "_" ++ fst x) l
               = map (fun f => t ++ "_" ++ f) (map fst l))
      by (intros l; now rewrite map_map).
    rewrite Hm.
    apply NoDup_map_NoDup_ForallPairs; [| exact Hd].
    intros x y _ _ Heq.
    assert (H : forall a b c : string, a ++ b = a ++ c -> b = c).
    { induction a as [|ch a IHa]; simpl; intros b c Hbc; [assumption |].
      inversion Hbc. now apply IHa. }
    apply H in Heq. now inversion Heq.
  - apply IH; [assumption |]. intros t' d' Hin. apply Hok. now right.
  - intros k Hk1 Hk2.
    rewrite map_map in Hk1. cbn [fst snd] in Hk1. apply in_map_iff in Hk1.
    destruct Hk1 as ([f v] & Hk & Hf). cbn [fst] in Hk.
    apply (in_keys_writes_of recs k) in Hk2.
    destruct Hk2 as (t' & d' & f' & Hin' & _ & Hk').
    subst k. apply key_injective in Hk'.
    + destruct Hk' as [-> _]. apply Hnin.
      apply in_map_iff. now exists (t', d').
    + apply (Hok t d). now left.
    + apply (Hok t' d'). now right.
Qed.

(** C4 (as amended).  When the record titles are pairwise distinct and hold
    no underscore, and no record titled [customer] has a field [name], the
    keys [<title>_<field>] of distinct record and field pairs are distinct,
    and the context holds the customer name and every field value of every
    record under its own key. *)
Theorem context_keeps_every_field (V : Type) (name : V)
  (recs : list (string * PyDict.dict V)) :
  NoDup (map fst recs) ->
  (forall t d, In (t, d) recs -> no_underscore t /\ NoDup (PyDict.keys d)) ->
  (forall d, In ("customer", d) recs -> ~ In "name" (PyDict.keys d)) ->
  let context := fill_context [("customer_name", name)] (records_by_title recs) in
  PyDict.get context "customer_name" = Some name
  /\ (forall t d f v,
        In (t, d) recs -> PyDict.get d f = Some v ->
        PyDict.get context (t ++ "_" ++ f) = Some v)
  /\ (forall t1 d1 f1 t2 d2 f2,
        In (t1, d1) recs -> In (t2, d2) recs ->
        t1 ++ "_" ++ f1 = t2 ++ "_" ++ f2 -> t1 = t2 /\ f1 = f2).
Proof.
  intros Hnd Hok Hcust. cbv zeta.
  rewrite records_by_title_distinct by exact Hnd.
  rewrite fill_context_writes.
  pose proof (writes_distinct recs Hnd Hok) as Hw.
  split; [| split].
  - rewrite get_writes_other; [reflexivity |].
    intros Hin. apply (in_keys_writes_of recs) in Hin.
    destruct Hin as (t & d & f & Hin & Hf & Hk).
    change "customer_name" with ("customer" ++ "_" ++ "name") in Hk.
    apply key_injective in Hk.
    + destruct Hk as [<- <-]. now apply (Hcust d).
    + reflexivity.
    + now apply (Hok t d).
  - intros t d f v Hin Hget. apply get_writes_in; [exact Hw |].
    apply in_writes_of. exists t, d, f. repeat split; auto. now apply get_in.
  - intros t1 d1 f1 t2 d2 f2 H1 H2 Heq.
    apply key_injective in Heq; [assumption | now apply (Hok t1 d1) | now apply (Hok t2 d2)].
Qed.

Lemma context_keeps_every_field_witness :
  PyDict.get
    (fill_context [("customer_name", VStr "Acme")]
       (records_by_title [("Login", [("login", VStr "bob"); ("url", VStr "u")]);
                          ("Mail", [("login", VStr "amy")])]))
    "Mail_login" = Some (VStr "amy").
Proof.
  refine (proj1 (proj2 (context_keeps_every_field (VStr "Acme")
            [("Login", [("login", VStr "bob"); ("url", VStr "u")]);
             ("Mail", [("login", VStr "amy")])] _ _ _))
            "Mail" [("login", VStr "amy")] "login" (VStr "amy") _ _).
  - simpl. constructor.
    + simpl. intros [H | []]. discriminate H.
    + constructor; [intros [] | constructor].
  - intros t d [H | [H | []]]; inversion H; subst; split; try reflexivity.
    + simpl. constructor.
      * simpl. intros [H' | []]. discriminate H'.
      * constructor; [intros [] | constructor].
    + simpl. constructor; [intros [] | constructor].
  - intros d [H | [H | []]]; inversion H.
  - simpl. right. now left.
  - reflexivity.
Defined.

(** C4 (as stated) fails: the record [a_b] with the field [c] and the record
    [a] with the field [b_c] are distinct pairs with the same key, and the
    context keeps only the value written last. *)
Lemma context_key_collision :
  let recs := [("a_b", [("c", VStr "first")]); ("a", [("b_c", VStr "second")])] in
  ("a_b", "c") <> ("a", "b_c")
  /\ "a_b" ++ "_" ++ "c" = "a" ++ "_" ++ "b_c"
  /\ fill_context [("customer_name", VStr "Acme")] (records_by_title recs)
     = [("customer_name", VStr "Acme"); ("a_b_c", VStr "second")].
Proof.
  cbv zeta. split; [discriminate |]. split; reflexivity.
Qed.

End ContextFacts.

(* ================================================================== *)
(** * Facts about [keeper_pdf_generator.py]: provisioning *)
(* ================================================================== *)

Module ProvisioningFacts.
Import PyStr PyVal Json KeeperPdfGenerator Shape.

Lemma bind_ok (A B : Type) (m : M A) (k : A -> M B) (w w' : World) (a : A) :
  m w = (Ok a, w') -> bind m k w = k a w'.
Proof. intros H. unfold bind. now rewrite H. Qed.

Lemma bind_raise (A B : Type) (m : M A) (k : A -> M B) (w w' : World) (e : exn) :
  m w = (Raise e, w') -> bind m k w = (Raise e, w').
Proof. intros H. unfold bind. now rewrite H. Qed.

Lemma never_fails_outside (w w' : World) :
  outside w' = outside w -> never_fails w -> never_fails w'.
Proof. unfold never_fails. intros -> H. exact H. Qed.

Lemma create_folder_ok (w : World) (n parent_uid : string) :
  never_fails w ->
  exists w',
    create_folder (JStr n) parent_uid w = (Ok (fresh (outside w) (issued w)), w')
    /\ outside w' = outside w
    /\ folders w' = folders w +++
         [{| fo_uid := fresh (outside w) (issued w); fo_name := n;
             fo_parent := folder_parent parent_uid |}]
    /\ records w' = records w
    /\ trace w' = trace w +++ [EvCreateFolder n (folder_parent parent_uid)].
Proof.
  intros H. unfold create_folder, bind, ext, fresh_name, modify, ret.
  rewrite (H (calls w)). cbn. eexists. split; [reflexivity |]. cbn. auto.
Qed.

Lemma add_record_ok (w : World) (t folder_uid : string) (fs : PyDict.dict pyval) :
  never_fails w ->
  exists w' uid,
    add_record_v3 {| title := JStr t; fields := fs |} folder_uid w = (Ok uid, w')
    /\ outside w' = outside w
    /\ folders w' = folders w
    /\ records w' = records w +++
         [{| ro_uid := uid; ro_title := t; ro_notes := ""; ro_fields := fs;
             ro_folder := folder_uid; ro_files := [] |}]
    /\ trace w' = trace w +++ [EvAddRecord t folder_uid].
Proof.
  intros H. unfold add_record_v3, bind, ext, fresh_name, modify, ret.
  cbn [title fields]. rewrite (H (calls w)). cbn.
  eexists. eexists. split; [reflexivity |]. cbn. auto.
Qed.

Section Loops.
Variable root_uid : string.
Hypothesis root_uid_nonempty : root_uid <> "".

(** The body of the loop over the subfolders. *)
Let sub_body (subfolder_uids : PyDict.dict string) (sub : json)
  : M (PyDict.dict string) :=
  sub_uid <- create_folder sub root_uid ;;
  match sub with
  | JStr s => ret (PyDict.set subfolder_uids s sub_uid)
  | _ => raise TypeError
  end.

Lemma folder_parent_root : folder_parent root_uid = Some root_uid.
Proof.
  unfold folder_parent. destruct (String.eqb_spec root_uid ""); congruence.
Qed.

Lemma subfolders_loop (subs : list string) :
  forall (acc : PyDict.dict string) (w : World),
    never_fails w ->
    exists w' acc' new,
      for_fold (map JStr subs) acc sub_body w = (Ok acc', w')
      /\ outside w' = outside w
      /\ folders w' = folders w +++ new
      /\ records w' = records w
      /\ trace w' = trace w +++ map (fun s => EvCreateFolder s (Some root_uid)) subs
      /\ Forall2 (fun s fo => fo_name fo = s /\ fo_parent fo = Some root_uid) subs new
      /\ (forall s u, PyDict.get acc' s = Some u ->
                      PyDict.get acc s = Some u
                      \/ exists fo, In fo new /\ fo_name fo = s /\ fo_uid fo = u)
      /\ (forall s, In s subs -> PyDict.get acc' s <> None)
      /\ (forall s, ~ In s subs -> PyDict.get acc' s = PyDict.get acc s).
Proof.
  induction subs as [|s subs IH]; intros acc w Hnf.
  - exists w, acc, []. cbn. rewrite !app_nil_r.
    repeat split; auto; try constructor; try (now intros s []).
  - destruct (@create_folder_ok w s root_uid Hnf)
      as (w1 & Hc & Ho1 & Hf1 & Hr1 & Ht1).
    rewrite folder_parent_root in Hf1, Ht1.
    set (uid := fresh (outside w) (issued w)) in *.
    destruct (IH (PyDict.set acc s uid) w1 (@never_fails_outside _ _ Ho1 Hnf))
      as (w' & acc' & new & Hrun & Ho & Hf & Hr & Ht & Hnew & Hget & Hin & Hout).
    exists w', acc', ({| fo_uid := uid; fo_name := s; fo_parent := Some root_uid |} :: new).
    split; [| split; [| split; [| split; [| split; [| split; [| split; [| split]]]]]]].
    + cbn [map for_fold]. unfold sub_body at 1.
      unfold bind at 1. unfold bind at 1. rewrite Hc. unfold ret at 1.
      exact Hrun.
    + congruence.
    + rewrite Hf, Hf1, <- app_assoc. reflexivity.
    + congruence.
    + rewrite Ht, Ht1, <- app_assoc. reflexivity.
    + constructor; [split; reflexivity | exact Hnew].
    + intros s0 u Hs0. destruct (Hget s0 u Hs0) as [Hacc | (fo & Hfo & Hn & Hu)].
      * destruct (String.eqb_spec s0 s) as [-> | Hne].
        -- rewrite PyDictFacts.get_set_same in Hacc. inversion Hacc; subst.
           right. eexists. split; [left; reflexivity |]. split; reflexivity.
        -- rewrite PyDictFacts.get_set_other in Hacc by assumption. now left.
      * right. exists fo. split; [now right | now split].
    + intros s0 [<- | Hs0]; [| now apply Hin].
      destruct (in_dec string_dec s subs) as [Hi | Hni]; [now apply Hin |].
      rewrite (Hout s Hni), PyDictFacts.get_set_same. discriminate.
    + intros s0 Hs0. rewrite Hout by (intros H; apply Hs0; now right).
      apply PyDictFacts.get_set_other. intros ->. apply Hs0. now left.
Qed.

Variable subfolder_uids : PyDict.dict string.

(** The body of the loop over the records. *)
Let rec_body (rec_data : json) : M unit :=
  folder <- lift (getitem rec_data "folder") ;;
  folder_uid <- lift (lookup_folder subfolder_uids folder root_uid) ;;
  rec_title <- lift (getitem rec_data "title") ;;
  add_record_v3 {| title := rec_title; fields := [] |} folder_uid ;;;
  ret tt.

Lemma records_loop (recs : list json) (tfs : list (string * string)) :
  Forall2 record_shape recs tfs ->
  forall w : World,
    never_fails w ->
    exists w' new,
      for_each recs rec_body w = (Ok tt, w')
      /\ outside w' = outside w
      /\ folders w' = folders w
      /\ records w' = records w +++ new
      /\ Forall2 (fun tf r =>
                    ro_title r = fst tf
                    /\ ro_folder r = PyDict.get_default subfolder_uids (snd tf) root_uid
                    /\ ro_fields r = [])
           tfs new
      /\ trace w' = trace w +++ map (fun r => EvAddRecord (ro_title r) (ro_folder r)) new.
Proof.
  induction 1 as [|rec_data [t f] recs tfs [Ht Hf] _ IH]; intros w Hnf.
  - exists w, []. cbn. rewrite !app_nil_r. repeat split; auto.
  - cbn [fst snd] in Ht, Hf.
    destruct (@add_record_ok w t (PyDict.get_default subfolder_uids f root_uid) [] Hnf)
      as (w1 & uid & Ha & Ho1 & Hf1 & Hr1 & Ht1).
    destruct (IH w1 (@never_fails_outside _ _ Ho1 Hnf))
      as (w' & new & Hrun & Ho & Hfo & Hr & Hnew & Htr).
    eexists w', (_ :: new).
    split; [| split; [| split; [| split; [| split]]]].
    + cbn [for_each]. unfold rec_body at 1.
      unfold bind at 1. unfold bind at 1. unfold lift at 1. rewrite Hf.
      unfold bind at 1. unfold lift at 1. cbn [lookup_folder].
      unfold bind at 1. unfold lift at 1. rewrite Ht.
      unfold bind at 1. rewrite Ha. unfold ret at 1. exact Hrun.
    + congruence.
    + congruence.
    + rewrite Hr, Hr1, <- app_assoc. reflexivity.
    + constructor; [| exact Hnew]. cbn. auto.
    + rewrite Htr, Ht1, <- app_assoc. reflexivity.
Qed.
End Loops.


End ProvisioningFacts.

(* ================================================================== *)
(** * Runs of the two scripts *)
(* ================================================================== *)

Module RunFacts.
Import PyStr PyVal Json KeeperPdfGenerator Shape Scenario.



(** C5.  On the template and the customer of the scenario, the placeholder
    substitution leaves the template as it is, and provisioning creates the
    root folder [Acme], the subfolder [Docs] below it and the record [Login]
    in [Docs]; but the record is stored without fields, so the context that
    is read back holds [customer_name] and no [Login_login]. *)
Theorem acme_context_lacks_fields :
  let r1 := create_structure acme_template "target" (vault never) in
  let r2 := collect_context acme "uid0" (snd r1) in
  substitute_placeholders limits acme_template acme = Ok acme_template
  /\ fst r1 = Ok ("uid0", [("Docs", "uid1")])
  /\ folders (snd r1) = folders (vault never) +++
       [ {| fo_uid := "uid0"; fo_name := "Acme"; fo_parent := Some "target" |};
         {| fo_uid := "uid1"; fo_name := "Docs"; fo_parent := Some "uid0" |} ]
  /\ records (snd r1) = records (vault never) +++
       [ {| ro_uid := "uid2"; ro_title := "Login"; ro_notes := "";
            ro_fields := []; ro_folder := "uid1"; ro_files := [] |} ]
  /\ fst r2 = Ok [("customer_name", VStr "Acme")]
  /\ (let? context := fst r2 in Ok (PyDict.get context "Login_login")) = Ok None.
Proof. cbv zeta. repeat split; vm_compute; reflexivity. Qed.

(** C1.  Two runs of [process_customer] on the scenario.  When the creation
    of the subfolder fails, the exception leaves the function at once: the
    root folder stays in the vault, no deletion is attempted and nothing is
    logged.  When the sharing step fails and the first deletion fails too,
    the failure of the deletion replaces the exception and ends the
    handler: the deletions that remain are not attempted, and the record
    [Login] is not in the list of identifiers to delete at all. *)
Theorem rollback_misses_creation_failures :
  let r := process_customer module_globals acme acme_template "target"
             (vault (only 1)) in
  let r' := process_customer globals_with_word_uid acme acme_template "target"
              (vault (fun n => only 22 n || only 23 n)) in
  let r'' := process_customer globals_with_word_uid acme acme_template "target"
               (vault (only 22)) in
  (fst r = Raise (ExternalError 1)
   /\ map fo_name (folders (snd r)) = ["Customers"; "Acme"]
   /\ filter is_delete (trace (snd r)) = []
   /\ log (snd r) = [])
  /\ (fst r' = Raise (ExternalError 23)
      /\ filter is_delete (trace (snd r')) = [EvDeleteRecord "uid0"]
      /\ count_level ERROR (log (snd r')) = 1)
  /\ (fst r'' = Raise (ExternalError 22)
      /\ filter is_delete (trace (snd r''))
         = [EvDeleteRecord "uid0"; EvDeleteRecord "uid1"; EvDeleteRecord "uid5"]
      /\ map ro_uid (filter (fun r => String.eqb (ro_title r) "Login")
                       (records (vault never) +++
                          [ {| ro_uid := "uid2"; ro_title := "Login"; ro_notes := "";
                               ro_fields := []; ro_folder := "uid1";
                               ro_files := [] |} ]))
         = ["uid2"]).
Proof. cbv zeta. repeat split; vm_compute; reflexivity. Qed.

(** C3.  With [word_uid] bound in the module, a run in which the word
    processor fails to save the PDF ends with both temporary files still on
    disk and without a call of [os.remove]; the run without failures removes
    both. *)
Theorem temp_files_left_after_failed_conversion :
  let is_remove := fun e => match e with EvRemove _ => true | _ => false end in
  let r := process_customer globals_with_word_uid acme acme_template "target"
             (vault (only 14)) in
  let r' := process_customer globals_with_word_uid acme acme_template "target"
              (vault never) in
  (nth_error (trace (snd r)) 14 = Some (EvWordSaveAs "uid4.pdf")
   /\ fst r = Raise (ExternalError 14)
   /\ files (snd r) = ["uid3.docx"; "uid4.pdf"]
   /\ filter is_remove (trace (snd r)) = [])
  /\ (fst r' = Ok tt
      /\ files (snd r') = []
      /\ filter is_remove (trace (snd r'))
         = [EvRemove "uid3.docx"; EvRemove "uid4.pdf"]).
Proof. cbv zeta. repeat split; vm_compute; reflexivity. Qed.

(** C6.  Two runs of the loop of [main] over three customers.  As the
    script stands, [word_uid] is not bound in the module: the first customer
    raises [NameError], and the loop ends there.  With [word_uid] bound, a
    second customer whose name holds a double quote raises in the placeholder
    substitution of a template that names the root folder after the customer: the first customer is complete, the third is never
    started, and the closing log line is not written. *)
Theorem batch_aborts_on_first_failure :
  let quoted := "B" ++ String dquote "" in
  let r := main_loop module_globals "json" "target"
             [[("name", "A")]; [("name", "B")]; [("name", "C")]] (vault never) in
  let r' := main_loop globals_with_word_uid "named" "target"
              [[("name", "A")]; [("name", quoted)]; [("name", "C")]] (vault never) in
  (fst r = Raise (NameError "word_uid")
   /\ filter (fun e => match e with EvGetRecord "json" => true | _ => false end)
        (trace (snd r)) = [EvGetRecord "json"]
   /\ log (snd r) = [])
  /\ (fst r' = Raise JSONDecodeError
      /\ filter (fun e => match e with EvGetRecord "named" => true | _ => false end)
           (trace (snd r')) = [EvGetRecord "named"; EvGetRecord "named"]
      /\ map fo_name (folders (snd r')) = ["Customers"; "A"; "Docs"]
      /\ map ro_title (filter (fun r => negb (String.eqb (ro_folder r) "target"))
                         (records (snd r')))
         = ["Login"; "A_Credentials.pdf"]
      /\ count_level INFO (log (snd r')) = 1
      /\ existsb (fun e => String.eqb (snd e) "Process completed.") (log (snd r'))
         = false).
Proof. cbv zeta. repeat split; vm_compute; reflexivity. Qed.

(** ** The batch of [keeper_pdf_system.py], which does continue *)

Import KeeperPdfSystem.

Lemma run_all_counts (env : Env) (customers : list customer) :
  success_count (run_all env customers)
    = List.length (filter (fun c => fst (process_customer env c)) customers)
  /\ total (run_all env customers) = List.length customers.
Proof.
  unfold run_all.
  assert (G : forall l n log,
             fst (fold_left
                    (fun (acc : nat * list log_entry) c =>
                       let (n, log) := acc in
                       let (ok, l) := process_customer env c in
                       (if ok then S n else n, log +++ l))
                    l (n, log))
             = (n + List.length (filter (fun c => fst (process_customer env c)) l))%nat).
  { induction l as [|c l IH]; intros n log; simpl; [lia |].
    destruct (process_customer env c) as [ok lg]. simpl.
    rewrite IH. destruct ok; simpl; lia. }
  specialize (G customers 0%nat []).
  destruct (fold_left _ customers (0%nat, [])) as [n log]. simpl in *.
  split; [exact G | reflexivity].
Qed.

Lemma run_all_batch :
  success_count (run_all batch_env batch_customers) = 2
  /\ total (run_all batch_env batch_customers) = 3
  /\ count_level ERROR (batch_log (run_all batch_env batch_customers)) = 1
  /\ map (fun c => fst (process_customer batch_env c)) batch_customers
     = [true; false; true].
Proof. repeat split; vm_compute; reflexivity. Qed.

End RunFacts.

(* ================================================================== *)
(** * More facts about [keeper_pdf_system.py] *)
(* ================================================================== *)

Unset Implicit Arguments.

Module SystemExtraFacts.
Import PyStr PyVal KeeperPdfSystem SystemExtra.

(** ** The last assignment to a key stays *)

Lemma find_app (A : Type) (f : A -> bool) (a b : list A) :
  find f (a +++ b) = match find f a with Some x => Some x | None => find f b end.
Proof.
  induction a as [|x a IH]; simpl; [reflexivity |].
  destruct (f x); [reflexivity | exact IH].
Qed.

Lemma last_value_cons (V : Type) (k0 : string) (v0 : V) (l : list (string * V))
  (k : string) :
  last_value ((k0, v0) :: l) k
  = match last_value l k with
    | Some v => Some v
    | None => if String.eqb k0 k then Some v0 else None
    end.
Proof.
  unfold last_value. cbn [rev]. rewrite find_app. cbn [find fst].
  destruct (find (fun kv => String.eqb (fst kv) k) (rev l)); [reflexivity |].
  destruct (String.eqb k0 k); reflexivity.
Qed.

Lemma get_after_writes (V : Type) (l : list (string * V)) :
  forall (d : PyDict.dict V) (k : string),
    PyDict.get (fold_left (fun d kv => PyDict.set d (fst kv) (snd kv)) l d) k
    = match last_value l k with
      | Some v => Some v
      | None => PyDict.get d k
      end.
Proof.
  induction l as [|[k0 v0] l IH]; intros d k; [reflexivity |].
  cbn [fold_left fst snd]. rewrite IH, last_value_cons.
  destruct (last_value l k); [reflexivity |].
  destruct (String.eqb_spec k0 k) as [-> | Hne].
  - apply PyDictFacts.get_set_same.
  - apply PyDictFacts.get_set_other. congruence.
Qed.

(** X1.  [get_folder_records] keeps one entry per title: under a title it
    holds the data of the last record with that title, and nothing of the
    earlier ones. *)
Theorem records_by_title_last (V : Type) (l : list (string * PyDict.dict V))
  (t : string) :
  PyDict.get (KeeperPdfGenerator.records_by_title l) t = last_value l t.
Proof.
  unfold KeeperPdfGenerator.records_by_title. rewrite get_after_writes.
  destruct (last_value l t); reflexivity.
Qed.



(** ** The vault format of a field value and its cleaning *)

Ltac each_char c := destruct c as [[] [] [] [] [] [] [] []].

Lemma repr_char_simple (c : ascii) :
  simple_char c = true -> repr_char "'" c = String c "".
Proof. each_char c; intros H; try discriminate H; reflexivity. Qed.

Lemma repr_char_quotable (c : ascii) :
  quotable_char c = true -> repr_char dquote c = String c "".
Proof. each_char c; intros H; try discriminate H; reflexivity. Qed.

Lemma simple_char_not_quote (c : ascii) :
  simple_char c = true -> Ascii.eqb "'" c = false.
Proof. each_char c; intros H; try discriminate H; reflexivity. Qed.

Lemma quotable_char_not_dquote (c : ascii) :
  quotable_char c = true -> Ascii.eqb dquote c = false.
Proof. each_char c; intros H; try discriminate H; reflexivity. Qed.

Lemma repr_chars_simple (x : string) :
  forall_chars simple_char x = true -> repr_chars "'" x = x.
Proof.
  induction x as [|c x IH]; [reflexivity |]. cbn [forall_chars repr_chars].
  intros H. apply andb_prop in H. destruct H as [Hc Hx].
  rewrite (repr_char_simple c Hc), (IH Hx). reflexivity.
Qed.

Lemma repr_chars_quotable (x : string) :
  forall_chars quotable_char x = true -> repr_chars dquote x = x.
Proof.
  induction x as [|c x IH]; [reflexivity |]. cbn [forall_chars repr_chars].
  intros H. apply andb_prop in H. destruct H as [Hc Hx].
  rewrite (repr_char_quotable c Hc), (IH Hx). reflexivity.
Qed.

Lemma contains_char_absent (q : ascii) (f : ascii -> bool) (x : string) :
  (forall c, f c = true -> Ascii.eqb q c = false) ->
  forall_chars f x = true -> contains (String q "") x = false.
Proof.
  intros Hf. induction x as [|c x IH]; [reflexivity |]. cbn [forall_chars].
  intros H. apply andb_prop in H. destruct H as [Hc Hx].
  change (contains (String q "") (String c x))
    with (String.prefix (String q "") (String c x) || contains (String q "") x).
  rewrite ReplaceFacts.prefix_cons, (Hf c Hc), (IH Hx). reflexivity.
Qed.

Lemma str_of_singleton (x : string) :
  py_str (VList [VStr x]) = "[" ++ repr_str x ++ "]".
Proof. reflexivity. Qed.

(** X3.  A field value that the vault holds as a list of one string comes
    back from [_clean_field_value] as that string, after
    [_extract_record_fields] has stored its string form, when the string is
    made of printable characters other than the apostrophe and the
    backslash. *)
Theorem clean_field_value_of_singleton (i : Interp) (x : string) :
  forall_chars simple_char x = true ->
  _clean_field_value i (VStr (py_str (VList [VStr x]))) = Ok x.
Proof.
  intros Hx. rewrite str_of_singleton. unfold repr_str.
  rewrite (contains_char_absent "'" simple_char x simple_char_not_quote Hx).
  cbn [andb]. rewrite (repr_chars_simple x Hx).
  change ("[" ++ String "'" (x ++ "'") ++ "]") with (String "[" (String "'" ((x ++ "'") ++ "]"))).
  rewrite PyStrFacts.append_assoc.
  change (String "[" (String "'" (x ++ "'" ++ "]"))) with ("['" ++ x ++ "']").
  rewrite KeeperPdfSystemFacts.clean_field_value_str. unfold clean_str.
  assert (startswith "['" ("['" ++ x ++ "']") = true) as ->
    by apply (PyStrFacts.prefix_append "['").
  assert (endswith "']" ("['" ++ x ++ "']") = true) as ->.
  { rewrite <- PyStrFacts.append_assoc.
    apply KeeperPdfSystemFacts.endswith_append. }
  cbn [andb]. f_equal. apply KeeperPdfSystemFacts.slice_wrapper.
Qed.

Lemma clean_field_value_of_singleton_witness :
  _clean_field_value Scenario.limits
    (VStr (py_str (VList [VStr "info@example.local"])))
  = Ok "info@example.local".
Proof. apply clean_field_value_of_singleton. reflexivity. Defined.

(** X4.  A value with an apostrophe and without a double quote is not
    cleaned: its string form is written between double quotes, the wrapper
    is not recognised, and the value comes back with the brackets and the
    quotes around it. *)
Theorem clean_field_value_keeps_apostrophe (i : Interp) (x : string) :
  contains "'" x = true ->
  forall_chars quotable_char x = true ->
  _clean_field_value i (VStr (py_str (VList [VStr x])))
  = Ok (String "[" (String dquote (x ++ String dquote "]"))).
Proof.
  intros Hq Hx. rewrite str_of_singleton. unfold repr_str. rewrite Hq.
  rewrite (contains_char_absent dquote quotable_char x quotable_char_not_dquote Hx).
  cbn [andb negb]. rewrite (repr_chars_quotable x Hx).
  change ("[" ++ String dquote (x ++ String dquote "") ++ "]")
    with (String "[" (String dquote ((x ++ String dquote "") ++ "]"))).
  rewrite PyStrFacts.append_assoc. cbn [append].
  rewrite KeeperPdfSystemFacts.clean_field_value_str. unfold clean_str.
  unfold startswith. rewrite !ReplaceFacts.prefix_cons. cbn [Ascii.eqb Bool.eqb andb].
  reflexivity.
Qed.

Lemma clean_field_value_keeps_apostrophe_witness :
  _clean_field_value Scenario.limits (VStr (py_str (VList [VStr "it's"])))
  = Ok (String "[" (String dquote ("it's" ++ String dquote "]"))).
Proof. apply clean_field_value_keeps_apostrophe; reflexivity. Defined.

(** ** [extract_vault_data] *)

Lemma vault_step_emails (P : PyDict.dict string -> Prop) (vd : vault_data)
  (r : record_data) :
  (forall d a, PyDict.get d "email" = Some a -> a <> "" -> P d) ->
  Forall P (emails vd) -> Forall P (emails (vault_step vd r)).
Proof.
  intros HP Hvd. unfold vault_step.
  destruct (contains "E-Mail-Postfach" (rd_type r)).
  - destruct (PyDict.get (fold_left email_step (rd_fields r) []) "email")
      as [a |] eqn:Hget; [| exact Hvd].
    destruct (String.eqb_spec a "") as [-> | Hne]; [exact Hvd |].
    cbn [emails set_emails]. apply Forall_app. split; [exact Hvd |].
    constructor; [| constructor]. now apply (HP _ a).
  - destruct (contains "Website-Login" (rd_type r)).
    + destruct (fold_left login_step _ _) as [[? ?] ?]. exact Hvd.
    + destruct (contains "Web-Statistik-Login" (rd_type r)).
      * destruct (fold_left login_step _ _) as [[? ?] ?]. exact Hvd.
      * destruct (contains "Webmail-URL" (rd_type r)); exact Hvd.
Qed.

(** X5.  Every entry that [extract_vault_data] puts into the list of emails
    has an email address that is not empty. *)
Theorem extract_vault_data_emails (records : list record_data) :
  Forall (fun d => exists a, PyDict.get d "email" = Some a /\ a <> "")
    (emails (extract_vault_data records)).
Proof.
  unfold extract_vault_data.
  assert (G : forall vd,
             Forall (fun d => exists a, PyDict.get d "email" = Some a /\ a <> "")
               (emails vd) ->
             Forall (fun d => exists a, PyDict.get d "email" = Some a /\ a <> "")
               (emails (fold_left vault_step records vd))).
  { induction records as [|r l IH]; intros vd Hvd; [exact Hvd |].
    cbn [fold_left]. apply IH. apply vault_step_emails; [| exact Hvd].
    intros d a Hd Ha. now exists a. }
  apply G. constructor.
Qed.

(** X6.  The context that [process_customer] builds from the records of the
    vault never takes the SMTP server from the vault: [extract_vault_data]
    leaves it empty, so the server is always the one synthesized from the
    customer's domain. *)
Theorem smtp_server_is_always_synthesized (customer_name : string)
  (records : list record_data) :
  PyDict.get (build_template_context customer_name (extract_vault_data records))
    "smtp_server"
  = Some ("smtp." ++ customer_domain customer_name ++ ".local").
Proof.
  unfold build_template_context.
  destruct (assign_emails (emails (extract_vault_data records))) as [[[pe pp] se] sp].
  rewrite KeeperPdfSystemFacts.extract_vault_data_smtp. reflexivity.
Qed.

(** ** [build_template_context] *)

Lemma string_leb_refl (s : string) : String.leb s s = true.
Proof. destruct (String.leb_total s s); assumption. Qed.

(** X7.  When there is at least one email entry, the primary address and
    password are those of one entry, and that address is the least of all
    addresses in the order of strings. *)
Theorem primary_email_is_least (customer_name : string) (vd : vault_data) :
  emails vd <> [] ->
  exists e0,
    In e0 (emails vd)
    /\ PyDict.get (build_template_context customer_name vd) "primary_email"
       = Some (email_key e0)
    /\ PyDict.get (build_template_context customer_name vd) "primary_email_password"
       = Some (PyDict.get_default e0 "password" "")
    /\ forall e, In e (emails vd) -> String.leb (email_key e0) (email_key e) = true.
Proof.
  intros Hne.
  pose proof (@KeeperPdfSystemFacts.sorted_perm _ email_key (emails vd)) as Hperm.
  pose proof (@KeeperPdfSystemFacts.sorted_sorted _ email_key (emails vd)) as Hsort.
  pose proof (KeeperPdfSystemFacts.assign_emails_spec (emails vd)) as Hspec.
  cbv zeta in Hspec.
  destruct (sorted email_key (emails vd)) as [|e0 rest] eqn:Hs.
  - apply Permutation_sym, Permutation_nil in Hperm. contradiction.
  - exists e0. split; [| split; [| split]].
    + eapply Permutation_in; [apply Permutation_sym; exact Hperm | now left].
    + unfold build_template_context. rewrite Hspec. reflexivity.
    + unfold build_template_context. rewrite Hspec. reflexivity.
    + intros e He. apply (Permutation_in _ Hperm) in He.
      destruct He as [<- | He]; [apply string_leb_refl |].
      inversion Hsort as [|? ? _ Hall]; subst.
      rewrite Forall_forall in Hall. exact (Hall e He).
Qed.

Lemma primary_email_is_least_witness :
  exists e0,
    In e0 [[("email", "b@x.local")]; [("email", "a@x.local"); ("password", "pw")]]
    /\ PyDict.get
         (build_template_context "x.local (1)"
            (set_emails empty_vault_data
               [[("email", "b@x.local")]; [("email", "a@x.local"); ("password", "pw")]]))
         "primary_email" = Some (email_key e0)
    /\ PyDict.get
         (build_template_context "x.local (1)"
            (set_emails empty_vault_data
               [[("email", "b@x.local")]; [("email", "a@x.local"); ("password", "pw")]]))
         "primary_email_password" = Some (PyDict.get_default e0 "password" "")
    /\ forall e,
         In e [[("email", "b@x.local")]; [("email", "a@x.local"); ("password", "pw")]] ->
         String.leb (email_key e0) (email_key e) = true.
Proof.
  apply (primary_email_is_least "x.local (1)"
           (set_emails empty_vault_data
              [[("email", "b@x.local")]; [("email", "a@x.local"); ("password", "pw")]])).
  simpl. discriminate.
Defined.

(** ** [extract_customer_data] *)



(** ** [generate_pdf] *)

Lemma occurs_app (b : ascii) (x y : string) :
  occurs b (x ++ y) = occurs b x || occurs b y.
Proof.
  induction x as [|c x IH]; [reflexivity |]. cbn [append occurs].
  now rewrite IH, orb_assoc.
Qed.

(** Replacing one character: the character is gone, and no character comes
    in that the replacement does not bring. *)
Lemma occurs_replace_char (a b : ascii) (new s : string) :
  occurs b new = false ->
  Ascii.eqb a b = true \/ occurs b s = false ->
  occurs b (replace (String a "") new s) = false.
Proof.
  intros Hnew. unfold replace. induction s as [|c s IH]; intros H; [reflexivity |].
  cbn [replace_go]. rewrite ReplaceFacts.prefix_cons, ReplaceFacts.prefix_nil, andb_true_r.
  cbn [String.length Nat.sub].
  assert (Hs : Ascii.eqb a b = true \/ occurs b s = false).
  { destruct H as [H | H]; [now left |]. right. cbn [occurs] in H.
    now apply orb_false_elim in H. }
  destruct (Ascii.eqb_spec a c) as [<- | Hac].
  - rewrite occurs_app, Hnew. now apply IH.
  - cbn [occurs]. rewrite (IH Hs), orb_false_r.
    destruct H as [H | H].
    + apply Ascii.eqb_eq in H. subst b. apply Ascii.eqb_neq. congruence.
    + cbn [occurs] in H. now apply orb_false_elim in H.
Qed.

Lemma safe_chars (s : string) :
  occurs " " s = false -> occurs "(" s = false ->
  occurs ")" s = false -> occurs "." s = false ->
  forall_chars safe_char s = true.
Proof.
  induction s as [|c s IH]; [reflexivity |]. cbn [occurs forall_chars].
  intros H1 H2 H3 H4.
  apply orb_false_elim in H1, H2, H3, H4.
  destruct H1 as [A1 B1], H2 as [A2 B2], H3 as [A3 B3], H4 as [A4 B4].
  rewrite (IH B1 B2 B3 B4), andb_true_r. unfold safe_char.
  now rewrite A1, A2, A3, A4.
Qed.

Lemma safe_name_occurs (customer_name : string) :
  occurs " " (safe_name customer_name) = false
  /\ occurs "(" (safe_name customer_name) = false
  /\ occurs ")" (safe_name customer_name) = false
  /\ occurs "." (safe_name customer_name) = false.
Proof.
  unfold safe_name.
  set (s1 := replace " " "_" customer_name).
  set (s2 := replace "(" "" s1).
  set (s3 := replace ")" "" s2).
  assert (H1 : occurs " " s1 = false)
    by (apply occurs_replace_char; [reflexivity | now left]).
  assert (H2 : occurs "(" s2 = false)
    by (apply occurs_replace_char; [reflexivity | now left]).
  assert (H2' : occurs " " s2 = false)
    by (apply occurs_replace_char; [reflexivity | now right]).
  assert (H3 : occurs ")" s3 = false)
    by (apply occurs_replace_char; [reflexivity | now left]).
  assert (H3' : occurs " " s3 = false)
    by (apply occurs_replace_char; [reflexivity | now right]).
  assert (H3'' : occurs "(" s3 = false)
    by (apply occurs_replace_char; [reflexivity | now right]).
  repeat split; apply occurs_replace_char;
    try reflexivity; try (now left); now right.
Qed.

(** X9.  The stem of the file names holds no space, no parenthesis and no
    dot, whatever the customer name.  When the paths are joined with a
    separator that holds no dot, the PDF is written next to the DOCX under
    the same stem: [generate_pdf] returns that path and logs it when the
    office automation succeeds, and returns [None] and logs one error when
    it raises. *)
Theorem generate_pdf_paths (env : Env) (template_path : string)
  (context : PyDict.dict string) (customer_name sep : string) :
  (forall a b, path_join env a b = a ++ sep ++ b) ->
  occurs "." sep = false ->
  let stem := "generated_pdfs" ++ sep ++ safe_name customer_name ++ "_credentials" in
  forall_chars safe_char (safe_name customer_name) = true
  /\ generate_pdf env template_path context customer_name
     = match office env template_path context (stem ++ ".docx") (stem ++ ".pdf") with
       | None => (Some (stem ++ ".pdf"), [(INFO, "PDF generated: " ++ stem ++ ".pdf")])
       | Some msg => (None, [(ERROR, "Error generating PDF: " ++ msg)])
       end.
Proof.
  intros Hjoin Hsep. cbv zeta.
  destruct (safe_name_occurs customer_name) as (S1 & S2 & S3 & S4).
  split; [now apply safe_chars |].
  unfold generate_pdf. fold (safe_name customer_name). rewrite Hjoin.
  set (stem := "generated_pdfs" ++ sep ++ safe_name customer_name ++ "_credentials").
  assert (Hdocx : "generated_pdfs" ++ sep ++ safe_name customer_name
                  ++ "_credentials.docx" = stem ++ ".docx").
  { unfold stem. rewrite !PyStrFacts.append_assoc. reflexivity. }
  rewrite Hdocx.
  assert (Hpdf : replace ".docx" ".pdf" (stem ++ ".docx") = stem ++ ".pdf").
  { unfold replace.
    rewrite (@ReplaceFacts.replace_go_no_head ".docx" ".pdf" "."%char "docx" stem ".docx"
               eq_refl).
    - reflexivity.
    - unfold stem. rewrite !occurs_app, Hsep, S4. reflexivity. }
  rewrite Hpdf. reflexivity.
Qed.

Lemma generate_pdf_paths_witness :
  let stem := "generated_pdfs" ++ "/" ++ safe_name "two.local (2)" ++ "_credentials" in
  forall_chars safe_char (safe_name "two.local (2)") = true
  /\ generate_pdf Scenario.batch_env "t.docx" [] "two.local (2)"
     = match office Scenario.batch_env "t.docx" [] (stem ++ ".docx") (stem ++ ".pdf") with
       | None => (Some (stem ++ ".pdf"), [(INFO, "PDF generated: " ++ stem ++ ".pdf")])
       | Some msg => (None, [(ERROR, "Error generating PDF: " ++ msg)])
       end.
Proof.
  apply (generate_pdf_paths Scenario.batch_env "t.docx" [] "two.local (2)" "/").
  - intros a b. reflexivity.
  - reflexivity.
Defined.

(** ** [process_customer] and [run] *)

Lemma existsb_last (A : Type) (f : A -> bool) (l : list A) (x : A) :
  f x = true -> existsb f (l +++ [x]) = true.
Proof. intros H. rewrite existsb_app. cbn. rewrite H. now rewrite orb_true_r. Qed.

(** X10.  [process_customer] reports every failure: whenever it returns
    [False], the log holds an error or a warning; and whenever it returns
    [True], the log closes with the success line of the customer. *)
Theorem process_customer_logs_failures (env : Env) (c : customer) :
  (fst (process_customer env c) = false ->
   existsb is_problem (snd (process_customer env c)) = true)
  /\ (fst (process_customer env c) = true ->
      exists l, snd (process_customer env c)
                = l +++ [(INFO, "Successfully processed: " ++ c_name c)]).
Proof.
  unfold process_customer.
  destruct (PyDict.get template_paths (c_category c)) as [tp |].
  - destruct (String.eqb tp "" || negb (path_exists env tp)).
    + split; [intros _ | discriminate]. cbn [snd]. now apply existsb_last.
    + destruct (extract_customer_data env (c_uid c)) as [[|r rs] lg].
      * split; [intros _ | discriminate]. cbn [snd].
        rewrite app_assoc. now apply existsb_last.
      * destruct (generate_pdf env tp _ (c_name c)) as [[p |] lg2].
        -- destruct (negb (String.eqb p "")).
           ++ split; [discriminate | intros _]. cbn [snd].
              eexists. rewrite !app_assoc. reflexivity.
           ++ split; [intros _ | discriminate]. cbn [snd].
              rewrite !app_assoc. now apply existsb_last.
        -- split; [intros _ | discriminate]. cbn [snd].
           rewrite !app_assoc. now apply existsb_last.
  - split; [intros _ | discriminate]. cbn [snd]. now apply existsb_last.
Qed.

Lemma process_customer_logs_failures_witness :
  existsb is_problem
    (snd (process_customer Scenario.batch_env
            {| c_name := "two.local (2)"; c_uid := "c2"; c_category := "extern";
               c_record_count := 1 |})) = true.
Proof.
  apply (proj1 (process_customer_logs_failures Scenario.batch_env
                  {| c_name := "two.local (2)"; c_uid := "c2"; c_category := "extern";
                     c_record_count := 1 |})).
  reflexivity.
Defined.

(** X11.  The batch of [run] processes every customer once and in order,
    whatever the outcomes: its log is the logs of the customers one after the
    other, the count of successes is the number of customers for which
    [process_customer] returns [True], and it never exceeds the total. *)
Theorem run_all_processes_every_customer (env : Env) (customers : list customer) :
  batch_log (run_all env customers)
  = flat_map (fun c => snd (process_customer env c)) customers
  /\ success_count (run_all env customers)
     = List.length (filter (fun c => fst (process_customer env c)) customers)
  /\ total (run_all env customers) = List.length customers
  /\ success_count (run_all env customers) <= total (run_all env customers).
Proof.
  unfold run_all.
  assert (G : forall l n log,
             fold_left
               (fun (acc : nat * list log_entry) c =>
                  let (n, log) := acc in
                  let (ok, l) := process_customer env c in
                  (if ok then S n else n, log +++ l))
               l (n, log)
             = (n + List.length (filter (fun c => fst (process_customer env c)) l),
                log +++ flat_map (fun c => snd (process_customer env c)) l)).
  { induction l as [|c l IH]; intros n log.
    - cbn. now rewrite Nat.add_0_r, app_nil_r.
    - cbn [fold_left filter flat_map].
      destruct (process_customer env c) as [ok lg]. cbn [fst snd].
      rewrite IH, <- app_assoc. destruct ok; cbn [List.length]; f_equal; lia. }
  rewrite G. cbn [batch_log success_count total app Nat.add].
  repeat split. apply filter_length_le.
Qed.

(** ** [get_customer_folders] *)

(** X12.  Every customer that [get_customer_folders] returns is a folder of
    the vault cache, carries the number of records that the cache holds for
    it, and has a category for which [process_customer] knows a template
    path. *)
Theorem get_customer_folders_sound (folder_cache : list string)
  (cache : PyDict.dict (list string)) (c : customer) :
  In c (get_customer_folders folder_cache cache) ->
  In (c_uid c) folder_cache
  /\ c_record_count c = List.length (PyDict.get_default cache (c_uid c) [])
  /\ PyDict.get template_paths (c_category c) <> None.
Proof.
  unfold get_customer_folders, customer_folders. cbn [flat_map].
  rewrite !in_app_iff. cbn [In].
  intros H.
  repeat match type of H with
         | _ \/ _ => destruct H as [H | H]
         | In _ (if ?b then _ else _) =>
             let E := fresh "E" in
             destruct b eqn:E; [destruct H as [<- | []] | destruct H]
         | False => destruct H
         end;
    (split; [| split; [reflexivity | discriminate]]);
    apply existsb_exists in E; destruct E as (u & Hu & Heq);
    apply String.eqb_eq in Heq; subst u; exact Hu.
Qed.

Lemma get_customer_folders_sound_witness :
  In "W9LGwI-3uVeBaoYh6r-iEQ" ["W9LGwI-3uVeBaoYh6r-iEQ"]
  /\ 2 = List.length (PyDict.get_default [("W9LGwI-3uVeBaoYh6r-iEQ", ["r1"; "r2"])]
                        "W9LGwI-3uVeBaoYh6r-iEQ" [])
  /\ PyDict.get template_paths "extern" <> None.
Proof.
  apply (get_customer_folders_sound ["W9LGwI-3uVeBaoYh6r-iEQ"]
           [("W9LGwI-3uVeBaoYh6r-iEQ", ["r1"; "r2"])]
           {| c_name := "test-extern2.local (200000)";
              c_uid := "W9LGwI-3uVeBaoYh6r-iEQ"; c_category := "extern";
              c_record_count := 2 |}).
  vm_compute. left. reflexivity.
Defined.

(** ** The domain of a customer name *)

(** X13.  For a customer name of the shape that the folders carry, a domain
    without dot, parenthesis and space followed by [.local] and a number in
    parentheses, the context holds the bare domain as the customer name,
    and the mail servers are named after it. *)
Theorem customer_domain_of_folder_name (d n : string) (vd : vault_data) :
  forall_chars domain_char d = true ->
  let context := build_template_context (d ++ ".local (" ++ n ++ ")") vd in
  customer_domain (d ++ ".local (" ++ n ++ ")") = d
  /\ PyDict.get context "customer_name" = Some d
  /\ PyDict.get context "imap_server" = Some ("imap." ++ d ++ ".local")
  /\ PyDict.get context "pop_server" = Some ("pop." ++ d ++ ".local").
Proof.
  intros Hd. cbv zeta.
  assert (E : customer_domain (d ++ ".local (" ++ n ++ ")") = d).
  { unfold customer_domain. now apply KeeperPdfSystemFacts.domain_of_folder_name. }
  split; [exact E |].
  unfold build_template_context. rewrite E.
  destruct (assign_emails (emails vd)) as [[[pe pp] se] sp].
  repeat split.
Qed.

Lemma customer_domain_of_folder_name_witness :
  let context :=
    build_template_context ("test-extern2" ++ ".local (" ++ "200000" ++ ")")
      empty_vault_data in
  customer_domain ("test-extern2" ++ ".local (" ++ "200000" ++ ")") = "test-extern2"
  /\ PyDict.get context "customer_name" = Some "test-extern2"
  /\ PyDict.get context "imap_server" = Some ("imap." ++ "test-extern2" ++ ".local")
  /\ PyDict.get context "pop_server" = Some ("pop." ++ "test-extern2" ++ ".local").
Proof.
  apply (customer_domain_of_folder_name "test-extern2" "200000" empty_vault_data).
  reflexivity.
Defined.

(** ** Records of other types *)

Lemma vault_step_other (vd : vault_data) (r : record_data) :
  known_type (rd_type r) = false -> vault_step vd r = vd.
Proof.
  unfold known_type, vault_step. intros H.
  apply orb_false_elim in H. destruct H as [H H4].
  apply orb_false_elim in H. destruct H as [H H3].
  apply orb_false_elim in H. destruct H as [H1 H2].
  now rewrite H1, H2, H3, H4.
Qed.

(** X28.  [extract_vault_data] looks only at the records whose type names
    one of its four kinds: all other records can be left out without
    changing the result.  A record object without a type name is among
    them, since it is stored with the type [unknown]. *)
Theorem extract_vault_data_ignores_other_types (records : list record_data) :
  extract_vault_data records
  = extract_vault_data (filter (fun r => known_type (rd_type r)) records)
  /\ forall record : keeper_record,
       kr_type_name record = None ->
       known_type (rd_type (_extract_record_fields record)) = false.
Proof.
  split.
  - unfold extract_vault_data. generalize empty_vault_data.
    induction records as [|r l IH]; intros vd; [reflexivity |].
    cbn [fold_left filter]. destruct (known_type (rd_type r)) eqn:E.
    + cbn [fold_left]. apply IH.
    + rewrite (vault_step_other vd r E). apply IH.
  - intros record H. unfold _extract_record_fields. rewrite H. reflexivity.
Qed.

Lemma extract_vault_data_ignores_other_types_witness :
  known_type
    (rd_type (_extract_record_fields
                {| kr_title := "Note"; kr_record_uid := "r9"; kr_type_name := None;
                   kr_custom := None; kr_fields := None |})) = false.
Proof.
  apply (proj2 (extract_vault_data_ignores_other_types [])
           {| kr_title := "Note"; kr_record_uid := "r9"; kr_type_name := None;
              kr_custom := None; kr_fields := None |}).
  reflexivity.
Defined.

End SystemExtraFacts.

(* ================================================================== *)
(** * More facts about [keeper_pdf_generator.py] *)
(* ================================================================== *)

Module GeneratorExtraFacts.
Import PyStr PyVal Json KeeperPdfGenerator Shape GeneratorExtra.

(** ** [json.dumps] and [json.loads] *)

Lemma scan_escape (s t : string) :
  scanstring (escape s ++ String dquote t) = Ok (s, t).
Proof.
  induction s as [|c s IH]; [reflexivity |].
  cbn [escape]. rewrite PyStrFacts.append_assoc, JsonFacts.scan_escape_char, IH.
  reflexivity.
Qed.

Lemma map_strings_id (v : json) : map_strings (fun s => s) v = v.
Proof.
  induction v as [| b | z | s | l IH | d IH] using RoundTripFacts.json_ind2;
    cbn [map_strings]; try reflexivity.
  - f_equal. induction IH as [|x l Hx _ IHl]; cbn [map]; [reflexivity |].
    now rewrite Hx, IHl.
  - f_equal. induction IH as [|[k x] d Hx _ IHd]; cbn [map fst snd] in *;
      [reflexivity |]. now rewrite Hx, IHd.
Qed.

Lemma normalize_distinct (v : json) : distinct_keys v -> normalize v = v.
Proof.
  induction v as [| b | z | s | l IH | d IH] using RoundTripFacts.json_ind2;
    cbn [normalize distinct_keys]; try reflexivity.
  - intros Hd. f_equal.
    induction IH as [|x l Hx _ IHl]; cbn [map fold_right] in *; [reflexivity |].
    destruct Hd as [H1 H2]. now rewrite (Hx H1), (IHl H2).
  - intros [Hnd Hd].
    assert (E : map (fun kv => (fst kv, normalize (snd kv))) d = d).
    { clear Hnd.
      induction IH as [|[k x] d Hx _ IHd]; cbn [map fold_right fst snd] in *;
        [reflexivity |].
      destruct Hd as [H1 H2]. now rewrite (Hx H1), (IHd H2). }
    rewrite E, PyDictFacts.of_pairs_distinct by exact Hnd. reflexivity.
Qed.

Lemma loads_text (i : Interp) (v : json) :
  depth v <= decoder_depth i -> ints_fit i v = true ->
  loads i (text v) = Ok (normalize v).
Proof.
  intros Hd Hi. unfold text.
  change encode_basestring_ascii
    with (fun s => String dquote (escape s ++ String dquote "")).
  rewrite (RoundTripFacts.loads_print i escape (fun s => s) scan_escape v Hd Hi).
  now rewrite map_strings_id.
Qed.

Lemma text_nonempty (v : json) : String.eqb (text v) "" = false.
Proof.
  destruct (RoundTripFacts.print_head escape v) as (c & t & E & _).
  unfold text.
  change encode_basestring_ascii
    with (fun s => String dquote (escape s ++ String dquote "")).
  rewrite E. reflexivity.
Qed.

(** X14.  A structure template that [json.dumps] has written into the
    notes of a record comes back unchanged from [download_json_template]
    when the vault answers the call and the nesting of the template is
    within what the interpreter admits for [json.loads]; the vault and the
    log stay as they are. *)
Theorem download_json_template_round_trip (w : World) (uid : string)
  (rec : record_obj) (v : json) :
  fails (outside w) (calls w) = false ->
  find_record w uid = Some rec ->
  dumps (interp (outside w)) v = Ok (ro_notes rec) ->
  depth v <= decoder_depth (interp (outside w)) ->
  distinct_keys v ->
  exists w',
    download_json_template uid w = (Ok v, w')
    /\ folders w' = folders w /\ records w' = records w /\ log w' = log w
    /\ trace w' = trace w +++ [EvGetRecord uid].
Proof.
  intros Hf Hr Hn Hdec Hd.
  destruct (RoundTripFacts.encode_inv _ _ _ _ Hn) as (Ht & _ & Hi).
  unfold download_json_template, get_record, bind, ext, get_world.
  rewrite Hf.
  change (find_record (set_trace (set_calls w (S (calls w)))
                         (trace w +++ [EvGetRecord uid])) uid)
    with (find_record w uid).
  rewrite Hr. unfold ret. rewrite Ht, text_nonempty.
  unfold interpreter, lift. cbn [outside set_trace set_calls].
  rewrite (loads_text _ v Hdec Hi), (normalize_distinct v Hd).
  eexists. split; [reflexivity |]. repeat split.
Qed.

Lemma download_json_template_round_trip_witness :
  exists w',
    download_json_template "json" (Scenario.vault Scenario.never)
      = (Ok Scenario.acme_template, w')
    /\ folders w' = folders (Scenario.vault Scenario.never)
    /\ records w' = records (Scenario.vault Scenario.never)
    /\ log w' = log (Scenario.vault Scenario.never)
    /\ trace w' = trace (Scenario.vault Scenario.never) +++ [EvGetRecord "json"].
Proof.
  apply (download_json_template_round_trip (Scenario.vault Scenario.never) "json"
           {| ro_uid := "json"; ro_title := "Structure template";
              ro_notes := text Scenario.acme_template;
              ro_fields := []; ro_folder := "target"; ro_files := [] |}
           Scenario.acme_template).
  - reflexivity.
  - reflexivity.
  - vm_compute. reflexivity.
  - apply Nat.leb_le. reflexivity.
  - cbn. repeat split; repeat constructor; cbn; intuition discriminate.
Defined.

(** ** [substitute_placeholders] without the token *)

Lemma contains_occurs (c : ascii) (p s : string) :
  occurs c s = false -> contains (String c p) s = false.
Proof.
  induction s as [|x s IH]; [reflexivity |]. cbn [occurs contains].
  intros H. apply orb_false_elim in H. destruct H as [Hx Hs].
  rewrite ReplaceFacts.prefix_cons, Ascii.eqb_sym, Hx, (IH Hs). reflexivity.
Qed.

Lemma occurs_escape (s : string) :
  occurs "$" s = false -> occurs "$" (escape s) = false.
Proof.
  induction s as [|c s IH]; [reflexivity |]. cbn [occurs escape].
  intros H. apply orb_false_elim in H. destruct H as [Hc Hs].
  now rewrite SystemExtraFacts.occurs_app, (JsonFacts.escape_char_no_dollar c Hc), (IH Hs).
Qed.

Lemma occurs_join (c : ascii) (sep : string) (l : list string) :
  occurs c sep = false -> Forall (fun s => occurs c s = false) l ->
  occurs c (join sep l) = false.
Proof.
  intros Hsep. induction 1 as [|x l Hx Hl IH]; [reflexivity |].
  destruct l as [|y l]; [exact Hx |].
  rewrite RoundTripFacts.join_cons2, !SystemExtraFacts.occurs_app, Hx, Hsep, IH.
  reflexivity.
Qed.



Lemma occurs_text (v : json) :
  all_strings no_dollar v = true -> occurs "$" (text v) = false.
Proof.
  unfold text.
  assert (Henc : forall s, no_dollar s = true ->
                           occurs "$" (encode_basestring_ascii s) = false).
  { intros s Hs. apply negb_true_iff in Hs. unfold encode_basestring_ascii.
    cbn [occurs]. rewrite SystemExtraFacts.occurs_app, (occurs_escape s Hs).
    reflexivity. }
  induction v as [| [|] | z | s | l IH | d IH] using RoundTripFacts.json_ind2;
    cbn [all_strings print]; intros H; try reflexivity.
  - now destruct (JsonFacts.of_Z_head z) as (_ & _ & _ & _ & Hz).
  - now apply Henc.
  - cbn [append occurs]. rewrite SystemExtraFacts.occurs_app.
    rewrite occurs_join; [reflexivity | reflexivity |].
    induction IH as [|x l Hx _ IHl]; cbn [map forallb] in *; constructor.
    + apply Hx. now apply andb_prop in H.
    + apply IHl. now apply andb_prop in H.
  - cbn [append occurs]. rewrite SystemExtraFacts.occurs_app.
    rewrite occurs_join; [reflexivity | reflexivity |].
    induction IH as [|[k x] d Hx _ IHd]; cbn [map forallb fst snd] in *; constructor.
    + apply andb_prop in H. destruct H as [H _].
      apply andb_prop in H. destruct H as [Hk Hv].
      rewrite SystemExtraFacts.occurs_app, (Henc k Hk). cbn [occurs orb].
      rewrite (Hx Hv). reflexivity.
    + apply IHd. now apply andb_prop in H.
Qed.

Lemma expand_no_backslash (whole : string) :
  forall (repl : string) (fuel : nat),
    occurs backslash repl = false -> String.length repl <= fuel ->
    Re.expand_template fuel whole repl = Ok repl.
Proof.
  induction repl as [|c r IH]; intros fuel Hp Hf.
  - destruct fuel; reflexivity.
  - destruct fuel as [|fuel]; [simpl in Hf; lia |].
    cbn [occurs] in Hp. apply orb_false_elim in Hp. destruct Hp as [Hc Hr].
    cbn [Re.expand_template]. rewrite Hc. cbn [negb].
    rewrite IH by (try exact Hr; simpl in Hf; lia). reflexivity.
Qed.

(** X15.  A template in which no string and no key holds a dollar sign,
    whose objects have distinct keys, and which the interpreter can encode
    and decode (nesting within what the recursion limit admits, integers
    within the digit limit) is returned as it is, for every name without a
    backslash: a double quote or a control character in the name does no
    harm as long as the token does not occur. *)
Theorem substitute_placeholders_without_token (i : Interp) (template : json)
  (customer : PyDict.dict string) (name : string) :
  PyDict.get customer "name" = Some name ->
  occurs backslash name = false ->
  all_strings no_dollar template = true ->
  distinct_keys template ->
  depth template <= encoder_depth i ->
  depth template <= decoder_depth i ->
  ints_fit i template = true ->
  substitute_placeholders i template customer = Ok template.
Proof.
  intros Hget Hname Hdollar Hkeys Henc Hdec Hints.
  unfold substitute_placeholders, dumps.
  rewrite (RoundTripFacts.encode_text i template _ Henc Hints). cbn [bindR].
  rewrite Hget. cbn [bindR].
  unfold Re.sub_literal. rewrite expand_no_backslash by (try exact Hname; lia).
  cbn [bindR].
  rewrite SubstitutionFacts.replace_absent
    by (apply contains_occurs; now apply occurs_text).
  rewrite (loads_text i template Hdec Hints), (normalize_distinct template Hkeys).
  reflexivity.
Qed.

Lemma substitute_placeholders_without_token_witness :
  substitute_placeholders Scenario.limits Scenario.acme_template
    [("name", String dquote "Acme")]
  = Ok Scenario.acme_template.
Proof.
  apply (substitute_placeholders_without_token Scenario.limits Scenario.acme_template
           [("name", String dquote "Acme")] (String dquote "Acme")).
  - reflexivity.
  - reflexivity.
  - reflexivity.
  - cbn. repeat split; repeat constructor; cbn; intuition discriminate.
  - apply Nat.leb_le. reflexivity.
  - apply Nat.leb_le. reflexivity.
  - reflexivity.
Defined.

Lemma expand_trailing_backslash (whole : string) :
  forall (n : string) (fuel : nat),
    occurs backslash n = false -> String.length n < fuel ->
    Re.expand_template fuel whole (n ++ String backslash "") = Raise ReplacementError.
Proof.
  induction n as [|c r IH]; intros fuel Hp Hf.
  - destruct fuel; [simpl in Hf; lia | reflexivity].
  - destruct fuel as [|fuel]; [simpl in Hf; lia |].
    cbn [occurs] in Hp. apply orb_false_elim in Hp. destruct Hp as [Hc Hr].
    cbn [append Re.expand_template]. rewrite Hc. cbn [negb].
    rewrite IH by (try exact Hr; simpl in Hf; lia). reflexivity.
Qed.

(** X16.  A name that ends in a backslash is refused as a replacement: the
    substitution raises for every template, with or without the token.
    The exception is the one of [re.sub] whenever [json.dumps] has written
    the template. *)
Theorem substitute_placeholders_trailing_backslash (i : Interp) (template : json)
  (customer : PyDict.dict string) (n : string) :
  PyDict.get customer "name" = Some (n ++ String backslash "") ->
  occurs backslash n = false ->
  (exists e, substitute_placeholders i template customer = Raise e)
  /\ (forall json_str, dumps i template = Ok json_str ->
                       substitute_placeholders i template customer
                       = Raise ReplacementError).
Proof.
  intros Hget Hn.
  assert (G : forall json_str, dumps i template = Ok json_str ->
                               substitute_placeholders i template customer
                               = Raise ReplacementError).
  { intros json_str Hd. unfold substitute_placeholders. rewrite Hd. cbn [bindR].
    rewrite Hget. cbn [bindR]. unfold Re.sub_literal.
    rewrite expand_trailing_backslash;
      [reflexivity | exact Hn | rewrite PyStrFacts.length_append; simpl; lia]. }
  split; [| exact G].
  destruct (dumps i template) as [json_str | e] eqn:Hd.
  - exists ReplacementError. now apply (G json_str).
  - exists e. unfold substitute_placeholders. now rewrite Hd.
Qed.

Lemma substitute_placeholders_trailing_backslash_witness :
  substitute_placeholders Scenario.limits Scenario.acme_template
    [("name", "C:" ++ String backslash "")] = Raise ReplacementError.
Proof.
  apply (proj2 (substitute_placeholders_trailing_backslash Scenario.limits
                  Scenario.acme_template
                  [("name", "C:" ++ String backslash "")] "C:" eq_refl eq_refl)
           (text Scenario.acme_template)).
  vm_compute. reflexivity.
Defined.

(** ** The customers of [main] *)

Lemma split_char_head (sep : ascii) (s : string) :
  exists l, split_char sep s = split_head sep s :: l.
Proof.
  induction s as [|c s [l IH]]; [now exists [] |].
  cbn [split_char split_head]. destruct (Ascii.eqb c sep).
  - eexists. reflexivity.
  - rewrite IH. eexists. reflexivity.
Qed.

Lemma split_char_whole (sep : ascii) (n : string) :
  occurs sep n = false -> split_char sep n = [n].
Proof.
  induction n as [|c n IH]; [reflexivity |]. cbn [occurs split_char].
  intros H. apply orb_false_elim in H. destruct H as [Hc Hn].
  now rewrite Hc, (IH Hn).
Qed.

Lemma split_char_app (sep : ascii) (n r : string) :
  occurs sep n = false ->
  split_char sep (n ++ String sep r) = n :: split_char sep r.
Proof.
  induction n as [|c n IH]; cbn [occurs append split_char]; intros H.
  - now rewrite Ascii.eqb_refl.
  - apply orb_false_elim in H. destruct H as [Hc Hn].
    now rewrite Hc, (IH Hn).
Qed.

(** X17.  A [--customer] argument is cut at its colons: the name is the
    text before the first colon and the email the text up to the second;
    what is missing is the empty string, and of the custom parameter only
    the text before its first colon is kept. *)
Theorem customers_of_args_parts (n e c : string) :
  occurs ":" n = false -> occurs ":" e = false ->
  customers_of_args [n; n ++ ":" ++ e; n ++ ":" ++ e ++ ":" ++ c]
  = [ [("name", n); ("email", ""); ("custom", "")];
      [("name", n); ("email", e); ("custom", "")];
      [("name", n); ("email", e); ("custom", split_head ":" c)] ].
Proof.
  intros Hn He. unfold customers_of_args. cbn [map].
  change (":" ++ e) with (String ":" e).
  change (":" ++ e ++ ":" ++ c) with (String ":" (e ++ String ":" c)).
  rewrite (split_char_whole ":" n Hn).
  rewrite (split_char_app ":" n e Hn), (split_char_whole ":" e He).
  rewrite (split_char_app ":" n _ Hn), (split_char_app ":" e c He).
  destruct (split_char_head ":" c) as [l ->].
  reflexivity.
Qed.

Lemma customers_of_args_parts_witness :
  customers_of_args ["Acme"; "Acme" ++ ":" ++ "a@b.local";
                     "Acme" ++ ":" ++ "a@b.local" ++ ":" ++ "x:y"]
  = [ [("name", "Acme"); ("email", ""); ("custom", "")];
      [("name", "Acme"); ("email", "a@b.local"); ("custom", "")];
      [("name", "Acme"); ("email", "a@b.local"); ("custom", split_head ":" "x:y")] ].
Proof.
  apply (customers_of_args_parts "Acme" "a@b.local" "x:y"); reflexivity.
Defined.

(** ** What [process_customer] does before it needs [word_uid] *)

Lemma only_provisions_refl (w : World) : only_provisions w w.
Proof.
  unfold only_provisions. repeat split. exists []. now rewrite app_nil_r.
Qed.

Lemma only_provisions_trans (w1 w2 w3 : World) :
  only_provisions w1 w2 -> only_provisions w2 w3 -> only_provisions w1 w3.
Proof.
  intros (O1 & F1 & L1 & e1 & T1 & P1) (O2 & F2 & L2 & e2 & T2 & P2).
  unfold only_provisions. repeat split; try congruence.
  exists (e1 +++ e2). rewrite T2, T1, <- app_assoc, forallb_app, P1, P2.
  now split.
Qed.

Lemma provisions_ret (A : Type) (a : A) : provisions A (ret a).
Proof. intros w. apply only_provisions_refl. Qed.

Lemma provisions_raise (A : Type) (e : exn) : provisions A (raise e).
Proof. intros w. apply only_provisions_refl. Qed.

Lemma provisions_lift (A : Type) (r : result A) : provisions A (lift r).
Proof. intros w. apply only_provisions_refl. Qed.

Lemma provisions_get_world : provisions World get_world.
Proof. intros w. apply only_provisions_refl. Qed.

Lemma provisions_interpreter : provisions Interp interpreter.
Proof. intros w. apply only_provisions_refl. Qed.

Lemma provisions_fresh_name : provisions string fresh_name.
Proof.
  intros w. unfold only_provisions. cbn. repeat split.
  exists []. now rewrite app_nil_r.
Qed.

Lemma provisions_ext (e : event) :
  is_provisioning e = true -> provisions unit (ext e).
Proof.
  intros He w. unfold ext.
  destruct (fails (outside w) (calls w)); unfold only_provisions; cbn;
    repeat split; exists [e]; cbn; now rewrite He.
Qed.

Lemma provisions_modify (f : World -> World) :
  (forall w, outside (f w) = outside w /\ files (f w) = files w
             /\ log (f w) = log w /\ trace (f w) = trace w) ->
  provisions unit (modify f).
Proof.
  intros H w. destruct (H w) as (O & F & L & T).
  unfold only_provisions. cbn. repeat split; try assumption.
  exists []. now rewrite app_nil_r.
Qed.

Lemma provisions_bind (A B : Type) (m : M A) (k : A -> M B) :
  provisions A m -> (forall a, provisions B (k a)) -> provisions B (bind m k).
Proof.
  intros Hm Hk w. unfold bind. specialize (Hm w).
  destruct (m w) as [[a | e] w1]; cbn [snd] in *; [| exact Hm].
  exact (only_provisions_trans _ _ _ Hm (Hk a w1)).
Qed.

Lemma provisions_for_each (A : Type) (body : A -> M unit) (l : list A) :
  (forall x, provisions unit (body x)) -> provisions unit (for_each l body).
Proof.
  intros H. induction l as [|x l IH]; cbn [for_each].
  - apply provisions_ret.
  - apply provisions_bind; [apply H | intros _; exact IH].
Qed.

Lemma provisions_for_fold (A S : Type) (body : S -> A -> M S) (l : list A) :
  (forall acc x, provisions S (body acc x)) ->
  forall acc, provisions S (for_fold l acc body).
Proof.
  intros H. induction l as [|x l IH]; intros acc; cbn [for_fold].
  - apply provisions_ret.
  - apply provisions_bind; [apply H | intros acc'; apply IH].
Qed.

Ltac provisions_basic :=
  repeat first
    [ apply provisions_ret | apply provisions_raise | apply provisions_lift
    | apply provisions_get_world | apply provisions_interpreter
    | apply provisions_fresh_name
    | apply provisions_ext; reflexivity
    | apply provisions_modify; intros ?; now repeat split
    | apply provisions_bind; [| intros ?] ].

Lemma provisions_create_folder (name : json) (parent_uid : string) :
  provisions string (create_folder name parent_uid).
Proof. unfold create_folder. destruct name; provisions_basic. Qed.

Lemma provisions_add_record_v3 (record : RecordV3) (folder_uid : string) :
  provisions string (add_record_v3 record folder_uid).
Proof. unfold add_record_v3. destruct (title record); provisions_basic. Qed.

Lemma provisions_get_record (uid : string) : provisions record_obj (get_record uid).
Proof.
  unfold get_record. provisions_basic.
  match goal with |- provisions _ (match ?x with _ => _ end) => destruct x end;
    provisions_basic.
Qed.

Ltac provisions_steps :=
  repeat first
    [ apply provisions_create_folder | apply provisions_add_record_v3
    | apply provisions_get_record
    | apply provisions_ret | apply provisions_raise | apply provisions_lift
    | apply provisions_get_world | apply provisions_interpreter
    | apply provisions_fresh_name
    | apply provisions_ext; reflexivity
    | apply provisions_bind; [| intros ?] ].

Lemma provisions_create_structure (template : json) (target_folder_uid : string) :
  provisions (string * PyDict.dict string) (create_structure template target_folder_uid).
Proof.
  unfold create_structure. provisions_steps.
  - apply provisions_for_fold. intros acc sub. provisions_steps.
    destruct sub; provisions_steps.
  - apply provisions_for_each. intros rec_data. provisions_steps.
Qed.

Lemma provisions_get_folder_records (folder_uid : string) :
  provisions (PyDict.dict (PyDict.dict pyval)) (get_folder_records folder_uid).
Proof.
  unfold get_folder_records, get_records_in_folder_tree. provisions_steps.
  apply provisions_for_fold. intros acc uid. provisions_steps.
Qed.

Lemma provisions_collect_context (customer : PyDict.dict string)
  (root_folder_uid : string) :
  provisions (PyDict.dict pyval) (collect_context customer root_folder_uid).
Proof.
  unfold collect_context.
  apply provisions_bind; [apply provisions_lift | intros name].
  apply provisions_bind; [apply provisions_get_folder_records | intros records].
  apply provisions_ret.
Qed.

Lemma provisions_download_json_template (uid : string) :
  provisions json (download_json_template uid).
Proof.
  unfold download_json_template. provisions_steps.
  match goal with |- provisions _ (if ?x then _ else _) => destruct x end;
    provisions_steps.
Qed.

Lemma process_customer_raises (customer : PyDict.dict string) (json_template : json)
  (target_folder_uid : string) (w : World) :
  exists e w',
    process_customer module_globals customer json_template target_folder_uid w
    = (Raise e, w')
    /\ only_provisions w w'.
Proof.
  unfold process_customer, bind. unfold interpreter at 1. unfold lift at 1.
  destruct (substitute_placeholders (interp (outside w)) json_template customer)
    as [template | e].
  2: { exists e, w. split; [reflexivity | apply only_provisions_refl]. }
  pose proof (provisions_create_structure template target_folder_uid w) as H1.
  destruct (create_structure template target_folder_uid w) as [[[root subs] | e] w1];
    cbn [snd] in H1.
  2: { exists e, w1. split; [reflexivity | exact H1]. }
  pose proof (provisions_collect_context customer root w1) as H2.
  destruct (collect_context customer root w1) as [[context | e] w2]; cbn [snd] in H2.
  2: { exists e, w2. split; [reflexivity |].
       exact (only_provisions_trans _ _ _ H1 H2). }
  exists (NameError "word_uid"), w2. split; [reflexivity |].
  exact (only_provisions_trans _ _ _ H1 H2).
Qed.

(** X20.  As the script stands, with [word_uid] bound nowhere that
    [process_customer] can see, the function never returns normally, for
    any customer, template and vault: it always leaves with an exception.
    Until then it has at most created folders and records and read records
    back: it has written no temporary file, uploaded and shared nothing,
    logged nothing and deleted nothing of what it created. *)
Theorem process_customer_never_completes (customer : PyDict.dict string)
  (json_template : json) (target_folder_uid : string) (w : World) :
  let r := process_customer module_globals customer json_template target_folder_uid w in
  (exists e, fst r = Raise e)
  /\ files (snd r) = files w
  /\ log (snd r) = log w
  /\ exists evs, trace (snd r) = trace w +++ evs
                 /\ forallb is_provisioning evs = true
                 /\ existsb is_delete evs = false.
Proof.
  cbv zeta.
  destruct (process_customer_raises customer json_template target_folder_uid w)
    as (e & w' & -> & _ & F & L & evs & T & P).
  cbn [fst snd]. split; [now exists e |]. split; [exact F |]. split; [exact L |].
  exists evs. split; [exact T |]. split; [exact P |].
  clear T. induction evs as [|x evs IH]; [reflexivity |].
  cbn [forallb existsb] in *. apply andb_prop in P. destruct P as [Px Pe].
  rewrite (IH Pe), orb_false_r. destruct x; try discriminate Px; reflexivity.
Qed.

(** X21.  So the loop of [main] never gets past its first customer: for a
    batch that is not empty it leaves with an exception of that customer,
    the rest of the batch has no influence on the outcome, and
    [Process completed.] is not logged; only for the empty batch it is. *)
Theorem main_loop_stops_at_first_customer (json_uid target_folder : string)
  (cust : PyDict.dict string) (rest : list (PyDict.dict string)) (w : World) :
  (exists e w',
     main_loop module_globals json_uid target_folder (cust :: rest) w = (Raise e, w')
     /\ main_loop module_globals json_uid target_folder [cust] w = (Raise e, w')
     /\ log w' = log w)
  /\ log (snd (main_loop module_globals json_uid target_folder [] w))
     = log w +++ [(INFO, "Process completed.")].
Proof.
  split; [| reflexivity].
  unfold main_loop. cbn [for_each]. unfold bind.
  pose proof (provisions_download_json_template json_uid w) as H1.
  destruct (download_json_template json_uid w) as [[json_template | e] w1];
    cbn [snd] in H1.
  - destruct (process_customer_raises cust json_template target_folder w1)
      as (e & w' & -> & H2).
    exists e, w'. split; [reflexivity |]. split; [reflexivity |].
    destruct (only_provisions_trans _ _ _ H1 H2) as (_ & _ & L & _). exact L.
  - exists e, w1. split; [reflexivity |]. split; [reflexivity |].
    destruct H1 as (_ & _ & L & _). exact L.
Qed.

(** ** The handler of [process_customer] *)

Lemma deletion_runs (uid : string) (w : World) :
  fails (outside w) (calls w) = false ->
  exists w',
    (if contains "folder" uid then delete_folder uid else delete_record uid) w
    = (Ok tt, w')
    /\ outside w' = outside w /\ calls w' = S (calls w) /\ log w' = log w
    /\ trace w' = trace w +++ [deletion_of uid].
Proof.
  intros Hf. unfold deletion_of.
  destruct (contains "folder" uid);
    unfold delete_folder, delete_record, bind, ext, modify; rewrite Hf;
    eexists; (split; [reflexivity |]); repeat split.
Qed.

Lemma deletion_fails (uid : string) (w : World) :
  fails (outside w) (calls w) = true ->
  exists w',
    (if contains "folder" uid then delete_folder uid else delete_record uid) w
    = (Raise (ExternalError (calls w)), w')
    /\ folders w' = folders w /\ records w' = records w /\ log w' = log w
    /\ trace w' = trace w +++ [deletion_of uid].
Proof.
  intros Hf. unfold deletion_of.
  destruct (contains "folder" uid);
    unfold delete_folder, delete_record, bind, ext, modify; rewrite Hf;
    eexists; (split; [reflexivity |]); repeat split.
Qed.

Lemma rollback_all (uids : list string) :
  forall w : World,
    (forall i, i < List.length uids -> fails (outside w) (calls w + i) = false) ->
    exists w',
      rollback uids w = (Ok tt, w')
      /\ log w' = log w /\ trace w' = trace w +++ map deletion_of uids.
Proof.
  induction uids as [|uid uids IH]; intros w H.
  - exists w. cbn. now rewrite app_nil_r.
  - assert (H0 : fails (outside w) (calls w) = false).
    { rewrite <- (Nat.add_0_r (calls w)). apply H. cbn. lia. }
    destruct (deletion_runs uid w H0) as (w1 & E1 & O1 & C1 & L1 & T1).
    destruct (IH w1) as (w' & E & L & T).
    { intros i Hi. rewrite O1, C1.
      replace (S (calls w) + i) with (calls w + S i) by lia.
      apply H. cbn. lia. }
    exists w'. split; [| split].
    + unfold rollback in *. cbn [for_each]. unfold bind at 1. rewrite E1. exact E.
    + congruence.
    + rewrite T, T1, <- app_assoc. reflexivity.
Qed.

Lemma rollback_stops (uids : list string) :
  forall (w : World) (j : nat),
    j < List.length uids ->
    (forall i, i < j -> fails (outside w) (calls w + i) = false) ->
    fails (outside w) (calls w + j) = true ->
    exists w',
      rollback uids w = (Raise (ExternalError (calls w + j)), w')
      /\ log w' = log w
      /\ trace w' = trace w +++ map deletion_of (firstn (S j) uids).
Proof.
  induction uids as [|uid uids IH]; intros w j Hj Hok Hbad; [cbn in Hj; lia |].
  destruct j as [|j].
  - rewrite Nat.add_0_r in *.
    destruct (deletion_fails uid w Hbad) as (w1 & E1 & _ & _ & L1 & T1).
    exists w1. split; [| split; [exact L1 | exact T1]].
    unfold rollback. cbn [for_each]. unfold bind at 1. now rewrite E1.
  - assert (H0 : fails (outside w) (calls w) = false).
    { rewrite <- (Nat.add_0_r (calls w)). apply Hok. lia. }
    destruct (deletion_runs uid w H0) as (w1 & E1 & O1 & C1 & L1 & T1).
    destruct (IH w1 j) as (w' & E & L & T).
    + cbn in Hj. lia.
    + intros i Hi. rewrite O1, C1.
      replace (S (calls w) + i) with (calls w + S i) by lia. apply Hok. lia.
    + rewrite O1, C1. replace (S (calls w) + j) with (calls w + S j) by lia.
      exact Hbad.
    + exists w'. split; [| split].
      * unfold rollback in *. cbn [for_each]. unfold bind at 1. rewrite E1.
        rewrite E, C1. do 3 f_equal. lia.
      * congruence.
      * rewrite T, T1, <- app_assoc. reflexivity.
Qed.

(** The two calls under [try]: the [k]-th of them is the first to fail. *)
Lemma sharing_fails (name root_folder_uid pdf_uid : string) (w : World) (k : nat) :
  k < 2 ->
  (forall i, i < k -> fails (outside w) (calls w + i) = false) ->
  fails (outside w) (calls w + k) = true ->
  exists w0,
    (ext (EvSetPermission root_folder_uid) ;;;
     ext (EvShare pdf_uid) ;;;
     link <- fresh_name ;;
     logging INFO ("One-Time Share Link for " ++ name ++ ": " ++ link)) w
    = (Raise (ExternalError (calls w + k)), w0)
    /\ outside w0 = outside w /\ calls w0 = calls w + k + 1 /\ log w0 = log w
    /\ trace w0 = trace w +++
         firstn (S k) [EvSetPermission root_folder_uid; EvShare pdf_uid].
Proof.
  intros Hk Hok Hbad. destruct k as [|[|k]]; [| | lia].
  - rewrite Nat.add_0_r in *. unfold bind, ext. rewrite Hbad.
    eexists. split; [reflexivity |]. cbn. repeat split. lia.
  - assert (H0 : fails (outside w) (calls w) = false).
    { rewrite <- (Nat.add_0_r (calls w)). apply Hok. lia. }
    replace (calls w + 1) with (S (calls w)) in * by lia.
    unfold bind, ext. rewrite H0. cbn [outside calls set_trace set_calls].
    rewrite Hbad. eexists. split; [reflexivity |]. cbn.
    rewrite <- app_assoc. repeat split. lia.
Qed.

(** X22.  When one of the two sharing calls fails and the vault answers the
    deletions, [share] logs one error, asks for the deletion of the root
    folder, of every subfolder and of the PDF record, in this order, and
    raises the exception of the sharing call again.  An identifier is
    deleted as a folder only when it holds the text [folder], otherwise as
    a record. *)
Theorem share_failure_deletes_and_reraises (name root_folder_uid : string)
  (subfolder_uids : PyDict.dict string) (pdf_uid : string) (w : World) (k : nat) :
  let created := [root_folder_uid] +++ PyDict.values subfolder_uids +++ [pdf_uid] in
  k < 2 ->
  (forall i, i < k -> fails (outside w) (calls w + i) = false) ->
  fails (outside w) (calls w + k) = true ->
  (forall i, i < List.length created ->
             fails (outside w) (calls w + k + 1 + i) = false) ->
  exists w',
    share name root_folder_uid subfolder_uids pdf_uid w
    = (Raise (ExternalError (calls w + k)), w')
    /\ log w' = log w +++
         [(ERROR, "Error processing " ++ name ++ ": "
                  ++ exn_text (ExternalError (calls w + k)))]
    /\ trace w' = trace w +++
         firstn (S k) [EvSetPermission root_folder_uid; EvShare pdf_uid]
         +++ map deletion_of created.
Proof.
  intros created Hk Hok Hbad Hquiet.
  destruct (sharing_fails name root_folder_uid pdf_uid w k Hk Hok Hbad)
    as (w0 & E0 & O0 & C0 & L0 & T0).
  set (msg := "Error processing " ++ name ++ ": "
              ++ exn_text (ExternalError (calls w + k))).
  destruct (rollback_all created (set_log w0 (log w0 +++ [(ERROR, msg)])))
    as (w' & E & L & T).
  { intros i Hi. cbn [outside calls set_log]. rewrite O0, C0. now apply Hquiet. }
  exists w'. split; [| split].
  - unfold share, try_except. fold created. rewrite E0.
    unfold bind at 1. unfold logging at 1. fold msg.
    unfold bind at 1. rewrite E. reflexivity.
  - rewrite L. cbn [log set_log]. now rewrite L0.
  - rewrite T. cbn [trace set_log]. rewrite T0, <- app_assoc. reflexivity.
Qed.

Lemma share_failure_deletes_and_reraises_witness :
  exists w',
    share "Acme" "uid0" [("Docs", "uid1")] "uid3" (Scenario.vault (Scenario.only 0))
    = (Raise (ExternalError (calls (Scenario.vault (Scenario.only 0)) + 0)), w')
    /\ log w' = log (Scenario.vault (Scenario.only 0)) +++
         [(ERROR, "Error processing " ++ "Acme" ++ ": "
                  ++ exn_text (ExternalError
                                 (calls (Scenario.vault (Scenario.only 0)) + 0)))]
    /\ trace w' = trace (Scenario.vault (Scenario.only 0)) +++
         firstn 1 [EvSetPermission "uid0"; EvShare "uid3"]
         +++ map deletion_of (["uid0"] +++ PyDict.values [("Docs", "uid1")] +++ ["uid3"]).
Proof.
  apply (share_failure_deletes_and_reraises "Acme" "uid0" [("Docs", "uid1")] "uid3"
           (Scenario.vault (Scenario.only 0)) 0).
  - lia.
  - intros i Hi. lia.
  - reflexivity.
  - intros i Hi. cbn. reflexivity.
Defined.

(** X23.  When a deletion of the handler fails, the handler stops there:
    the identifiers after it are not attempted, nothing more is logged, and
    the exception that leaves [share] is the one of the failed deletion,
    not the one of the sharing call. *)
Theorem share_failed_deletion_replaces_exception (name root_folder_uid : string)
  (subfolder_uids : PyDict.dict string) (pdf_uid : string) (w : World) (k j : nat) :
  let created := [root_folder_uid] +++ PyDict.values subfolder_uids +++ [pdf_uid] in
  k < 2 ->
  (forall i, i < k -> fails (outside w) (calls w + i) = false) ->
  fails (outside w) (calls w + k) = true ->
  j < List.length created ->
  (forall i, i < j -> fails (outside w) (calls w + k + 1 + i) = false) ->
  fails (outside w) (calls w + k + 1 + j) = true ->
  exists w',
    share name root_folder_uid subfolder_uids pdf_uid w
    = (Raise (ExternalError (calls w + k + 1 + j)), w')
    /\ log w' = log w +++
         [(ERROR, "Error processing " ++ name ++ ": "
                  ++ exn_text (ExternalError (calls w + k)))]
    /\ trace w' = trace w +++
         firstn (S k) [EvSetPermission root_folder_uid; EvShare pdf_uid]
         +++ map deletion_of (firstn (S j) created).
Proof.
  intros created Hk Hok Hbad Hj Hdel Hstop.
  destruct (sharing_fails name root_folder_uid pdf_uid w k Hk Hok Hbad)
    as (w0 & E0 & O0 & C0 & L0 & T0).
  set (msg := "Error processing " ++ name ++ ": "
              ++ exn_text (ExternalError (calls w + k))).
  destruct (rollback_stops created (set_log w0 (log w0 +++ [(ERROR, msg)])) j Hj)
    as (w' & E & L & T).
  { intros i Hi. cbn [outside calls set_log]. rewrite O0, C0. now apply Hdel. }
  { cbn [outside calls set_log]. rewrite O0, C0. exact Hstop. }
  cbn [calls set_log] in E. rewrite C0 in E.
  exists w'. split; [| split].
  - unfold share, try_except. fold created. rewrite E0.
    unfold bind at 1. unfold logging at 1. fold msg.
    unfold bind at 1. rewrite E. reflexivity.
  - rewrite L. cbn [log set_log]. now rewrite L0.
  - rewrite T. cbn [trace set_log]. rewrite T0, <- app_assoc. reflexivity.
Qed.

Lemma share_failed_deletion_replaces_exception_witness :
  exists w',
    share "Acme" "uid0" [("Docs", "uid1")] "uid3"
      (Scenario.vault (fun n => Nat.eqb n 0 || Nat.eqb n 2))
    = (Raise (ExternalError (calls (Scenario.vault (fun n => Nat.eqb n 0 || Nat.eqb n 2)) + 0 + 1 + 1)),
       w')
    /\ log w' = log (Scenario.vault (fun n => Nat.eqb n 0 || Nat.eqb n 2)) +++
         [(ERROR, "Error processing " ++ "Acme" ++ ": "
                  ++ exn_text (ExternalError
                                 (calls (Scenario.vault (fun n => Nat.eqb n 0 || Nat.eqb n 2)) + 0)))]
    /\ trace w' = trace (Scenario.vault (fun n => Nat.eqb n 0 || Nat.eqb n 2)) +++
         firstn 1 [EvSetPermission "uid0"; EvShare "uid3"]
         +++ map deletion_of
               (firstn 2 (["uid0"] +++ PyDict.values [("Docs", "uid1")] +++ ["uid3"])).
Proof.
  apply (share_failed_deletion_replaces_exception "Acme" "uid0" [("Docs", "uid1")]
           "uid3" (Scenario.vault (fun n => Nat.eqb n 0 || Nat.eqb n 2)) 0 1).
  - lia.
  - intros i Hi. lia.
  - reflexivity.
  - cbn. lia.
  - intros i Hi. assert (i = 0) as -> by lia. reflexivity.
  - reflexivity.
Defined.

(** ** A template record without the attribute [folder] *)

Lemma for_each_app (A : Type) (body : A -> M unit) (a b : list A) :
  forall w w1 : World,
    for_each a body w = (Ok tt, w1) ->
    for_each (a +++ b) body w = for_each b body w1.
Proof.
  induction a as [|x a IH]; intros w w1 H.
  - cbn in H. unfold ret in H. now inversion H.
  - cbn [app for_each] in *. unfold bind in *.
    destruct (body x w) as [[[] | e] w0]; [| discriminate]. now apply IH.
Qed.

(** X24.  The attribute [folder] of a template record is read without a
    default: at the first record that lacks it, provisioning raises
    [KeyError].  By then the root folder, every subfolder and the records
    before that one have been created, and they stay: no deletion is
    attempted. *)
Theorem create_structure_stops_at_record_without_folder
  (template : json) (target root : string) (subs : list string)
  (good : list json) (tfs : list (string * string)) (bad : json) (rest : list json)
  (w : World) :
  template_shape template root subs (good +++ bad :: rest) ->
  Forall2 record_shape good tfs ->
  getitem bad "folder" = Raise (KeyError "folder") ->
  never_fails w ->
  fresh (outside w) (issued w) <> "" ->
  exists w' root_uid new_subs new_recs,
    create_structure template target w = (Raise (KeyError "folder"), w')
    /\ folders w' = folders w +++
         {| fo_uid := root_uid; fo_name := root; fo_parent := folder_parent target |}
         :: new_subs
    /\ map fo_name new_subs = subs
    /\ records w' = records w +++ new_recs
    /\ map ro_title new_recs = map fst tfs
    /\ trace w' = trace w +++
         EvCreateFolder root (folder_parent target)
         :: map (fun s => EvCreateFolder s (Some root_uid)) subs
         +++ map (fun r => EvAddRecord (ro_title r) (ro_folder r)) new_recs.
Proof.
  intros (Hroot & Hsubs & Hrecs) Hshape Hbad Hnf Hfresh.
  destruct (@ProvisioningFacts.create_folder_ok w root target Hnf)
    as (w1 & Hc & Ho1 & Hf1 & Hr1 & Ht1).
  set (root_uid := fresh (outside w) (issued w)) in *.
  pose proof (@ProvisioningFacts.never_fails_outside _ _ Ho1 Hnf) as Hnf1.
  destruct (@ProvisioningFacts.subfolders_loop root_uid Hfresh subs [] w1 Hnf1)
    as (w2 & sub_uids & new_subs & Hrun2 & Ho2 & Hf2 & Hr2 & Ht2 & Hnew2 & _).
  pose proof (@ProvisioningFacts.never_fails_outside _ _ Ho2 Hnf1) as Hnf2.
  destruct (@ProvisioningFacts.records_loop root_uid sub_uids good tfs Hshape w2 Hnf2)
    as (w3 & new_recs & Hrun3 & Ho3 & Hf3 & Hr3 & Hnew3 & Ht3).
  exists w3, root_uid, new_subs, new_recs.
  split; [| split; [| split; [| split; [| split]]]].
  - unfold create_structure.
    etransitivity;
      [apply ProvisioningFacts.bind_ok; unfold lift; rewrite Hroot; reflexivity |].
    etransitivity; [apply ProvisioningFacts.bind_ok; exact Hc |].
    etransitivity;
      [apply ProvisioningFacts.bind_ok; unfold lift; rewrite Hsubs; reflexivity |].
    etransitivity; [apply ProvisioningFacts.bind_ok; exact Hrun2 |].
    etransitivity;
      [apply ProvisioningFacts.bind_ok; unfold lift; rewrite Hrecs; reflexivity |].
    apply ProvisioningFacts.bind_raise.
    etransitivity; [apply for_each_app; exact Hrun3 |].
    cbn [for_each]. unfold bind, lift. rewrite Hbad. reflexivity.
  - rewrite Hf3, Hf2, Hf1, <- app_assoc. reflexivity.
  - clear - Hnew2. induction Hnew2 as [|s fo subs new_subs [Hn _] _ IH];
      [reflexivity |]. cbn [map]. now rewrite Hn, IH.
  - rewrite Hr3, Hr2, Hr1. reflexivity.
  - clear - Hnew3. induction Hnew3 as [|tf r tfs new_recs [Hn _] _ IH];
      [reflexivity |]. cbn [map]. now rewrite Hn, IH.
  - rewrite Ht3, Ht2, Ht1, <- !app_assoc. reflexivity.
Qed.

Lemma create_structure_stops_at_record_without_folder_witness :
  exists w' root_uid new_subs new_recs,
    create_structure
      (JObj [ ("root_folder", JStr "Acme"); ("subfolders", JArr [JStr "Docs"]);
              ("records", JArr [ JObj [("title", JStr "Login"); ("folder", JStr "Docs")];
                                 JObj [("title", JStr "Mail")] ]) ])
      "target" (Scenario.vault Scenario.never)
    = (Raise (KeyError "folder"), w')
    /\ folders w' = folders (Scenario.vault Scenario.never) +++
         {| fo_uid := root_uid; fo_name := "Acme"; fo_parent := folder_parent "target" |}
         :: new_subs
    /\ map fo_name new_subs = ["Docs"]
    /\ records w' = records (Scenario.vault Scenario.never) +++ new_recs
    /\ map ro_title new_recs = map fst [("Login", "Docs")]
    /\ trace w' = trace (Scenario.vault Scenario.never) +++
         EvCreateFolder "Acme" (folder_parent "target")
         :: map (fun s => EvCreateFolder s (Some root_uid)) ["Docs"]
         +++ map (fun r => EvAddRecord (ro_title r) (ro_folder r)) new_recs.
Proof.
  apply (create_structure_stops_at_record_without_folder
           (JObj [ ("root_folder", JStr "Acme"); ("subfolders", JArr [JStr "Docs"]);
                   ("records",
                    JArr [ JObj [("title", JStr "Login"); ("folder", JStr "Docs")];
                           JObj [("title", JStr "Mail")] ]) ])
           "target" "Acme" ["Docs"]
           [JObj [("title", JStr "Login"); ("folder", JStr "Docs")]]
           [("Login", "Docs")] (JObj [("title", JStr "Mail")]) []
           (Scenario.vault Scenario.never)).
  - unfold template_shape. repeat split; reflexivity.
  - constructor; [| constructor]. unfold record_shape. split; reflexivity.
  - reflexivity.
  - unfold never_fails. intros n. reflexivity.
  - vm_compute. discriminate.
Defined.

(** ** [get_folder_records] on a vault *)

Lemma find_unique (rs : list record_obj) (r : record_obj) :
  NoDup (map ro_uid rs) -> In r rs ->
  find (fun x => String.eqb (ro_uid x) (ro_uid r)) rs = Some r.
Proof.
  induction rs as [|x rs IH]; intros Hnd Hin; [destruct Hin |].
  cbn [map] in Hnd. inversion Hnd as [|? ? Hx Hrs]; subst.
  cbn [find]. destruct (String.eqb_spec (ro_uid x) (ro_uid r)) as [E | E].
  - destruct Hin as [-> | Hin]; [reflexivity |].
    exfalso. apply Hx. rewrite E. now apply in_map.
  - destruct Hin as [-> | Hin]; [congruence |]. now apply IH.
Qed.

Lemma read_loop (w : World) (l : list record_obj) :
  never_fails w -> NoDup (map ro_uid (records w)) ->
  (forall r, In r l -> In r (records w)) ->
  forall (acc : PyDict.dict (PyDict.dict pyval)) (w1 : World),
    outside w1 = outside w -> records w1 = records w ->
    exists w',
      for_fold (map ro_uid l) acc
        (fun records uid =>
           rec <- get_record uid ;;
           ret (PyDict.set records (ro_title rec) (ro_fields rec))) w1
      = (Ok (fold_left (fun records r => PyDict.set records (fst r) (snd r))
               (map (fun r => (ro_title r, ro_fields r)) l) acc), w')
      /\ outside w' = outside w /\ records w' = records w
      /\ folders w' = folders w1 /\ log w' = log w1 /\ files w' = files w1
      /\ trace w' = trace w1 +++ map (fun r => EvGetRecord (ro_uid r)) l.
Proof.
  intros Hnf Hnd. induction l as [|r l IH]; intros Hin acc w1 Ho Hr.
  - exists w1. cbn. rewrite app_nil_r. repeat split; assumption.
  - assert (Hget : get_record (ro_uid r) w1
                   = (Ok r, set_trace (set_calls w1 (S (calls w1)))
                              (trace w1 +++ [EvGetRecord (ro_uid r)]))).
    { unfold get_record, bind, ext, get_world. rewrite Ho, (Hnf (calls w1)).
      unfold find_record. cbn [records set_trace set_calls]. rewrite Hr.
      rewrite (find_unique (records w) r Hnd) by (apply Hin; now left).
      reflexivity. }
    destruct (IH (fun x Hx => Hin x (or_intror Hx))
                (PyDict.set acc (ro_title r) (ro_fields r))
                (set_trace (set_calls w1 (S (calls w1)))
                   (trace w1 +++ [EvGetRecord (ro_uid r)])) Ho Hr)
      as (w' & E & O & R & F & L & Fi & T).
    exists w'. split; [| repeat split; try assumption].
    + cbn [map for_fold fold_left fst snd]. unfold bind at 1. unfold bind at 1.
      rewrite Hget. unfold ret at 1. exact E.
    + rewrite T. cbn [trace set_trace map]. now rewrite <- app_assoc.
Qed.

Lemma descends_folders (w w1 : World) (root : string) :
  folders w1 = folders w ->
  forall (fuel : nat) (uid : string),
    descends fuel w1 root uid = descends fuel w root uid.
Proof.
  intros Hf. induction fuel as [|fuel IH]; intros uid; [reflexivity |].
  cbn [descends]. unfold find_folder. rewrite Hf.
  destruct (find (fun f => String.eqb (fo_uid f) uid) (folders w)) as [fo |];
    [| reflexivity].
  destruct (fo_parent fo); [now rewrite IH | reflexivity].
Qed.

(** X25.  On a vault that answers every call and whose record identifiers
    are distinct, [get_folder_records] lists the records of the folder tree
    once, reads each of them, and returns their data by title: of two
    records with one title the later one stays.  It changes nothing in the
    vault. *)
Theorem get_folder_records_by_title (folder_uid : string) (w : World) :
  never_fails w ->
  NoDup (map ro_uid (records w)) ->
  let found := filter (fun r => in_tree w folder_uid (ro_folder r)) (records w) in
  exists w',
    get_folder_records folder_uid w
    = (Ok (records_by_title (map (fun r => (ro_title r, ro_fields r)) found)), w')
    /\ folders w' = folders w /\ records w' = records w
    /\ trace w' = trace w +++
         EvListRecords folder_uid :: map (fun r => EvGetRecord (ro_uid r)) found.
Proof.
  intros Hnf Hnd found.
  set (w1 := set_trace (set_calls w (S (calls w)))
               (trace w +++ [EvListRecords folder_uid])).
  destruct (read_loop w found Hnf Hnd) with (acc := @nil (string * PyDict.dict pyval))
                                             (w1 := w1)
    as (w' & E & O & R & F & L & Fi & T); try reflexivity.
  { intros r Hr. unfold found in Hr. apply filter_In in Hr. tauto. }
  exists w'. split; [| split; [exact F | split; [exact R |]]].
  - unfold get_folder_records, get_records_in_folder_tree.
    unfold bind at 1. unfold bind at 1. unfold ext at 1. rewrite (Hnf (calls w)).
    fold w1. unfold bind at 1. unfold get_world at 1. unfold ret at 1.
    etransitivity; [| exact E]. f_equal. f_equal.
    change (records w1) with (records w).
    apply filter_ext. intros r. unfold in_tree.
    change (folders w1) with (folders w). now apply descends_folders.
  - rewrite T. unfold w1. cbn [trace set_trace]. now rewrite <- app_assoc.
Qed.

Lemma get_folder_records_by_title_witness :
  let w := Scenario.vault Scenario.never in
  let found := filter (fun r => in_tree w "target" (ro_folder r)) (records w) in
  exists w',
    get_folder_records "target" w
    = (Ok (records_by_title (map (fun r => (ro_title r, ro_fields r)) found)), w')
    /\ folders w' = folders w /\ records w' = records w
    /\ trace w' = trace w +++
         EvListRecords "target" :: map (fun r => EvGetRecord (ro_uid r)) found.
Proof.
  apply (get_folder_records_by_title "target" (Scenario.vault Scenario.never)).
  - unfold never_fails. intros n. reflexivity.
  - cbn. repeat constructor; cbn; intuition discriminate.
Defined.

(** ** The temporary files of [render_convert] *)

Lemma last_char_differs (a b : string) (x y : ascii) :
  x <> y -> a ++ String x "" <> b ++ String y "".
Proof.
  intros Hxy. revert b. induction a as [|c a IH]; intros [|d b] H; cbn in H.
  - congruence.
  - injection H as _ H. destruct b; discriminate H.
  - injection H as _ H. destruct a; discriminate H.
  - injection H as _ H. now apply (IH b).
Qed.

Lemma docx_is_not_pdf (a b : string) : a ++ ".docx" <> b ++ ".pdf".
Proof.
  change ".docx" with (".doc" ++ "x"). change ".pdf" with (".pd" ++ "f").
  rewrite <- !PyStrFacts.append_assoc. apply last_char_differs. discriminate.
Qed.

Lemma filter_absent (p : string) (l : list string) :
  ~ In p l -> filter (fun q => negb (String.eqb q p)) l = l.
Proof.
  induction l as [|x l IH]; intros H; [reflexivity |]. cbn [filter].
  destruct (String.eqb_spec x p) as [-> | Hne].
  - exfalso. apply H. now left.
  - cbn [negb]. rewrite IH; [reflexivity |]. intros Hin. apply H. now right.
Qed.

Lemma ext_runs (e : event) (w : World) :
  fails (outside w) (calls w) = false -> ext e w = (Ok tt, called e w).
Proof. intros H. unfold ext. now rewrite H. Qed.

Lemma ext_fails (e : event) (w : World) :
  fails (outside w) (calls w) = true ->
  ext e w = (Raise (ExternalError (calls w)), called e w).
Proof. intros H. unfold ext. now rewrite H. Qed.

Lemma existsb_in (p : string) (l : list string) :
  In p l -> existsb (String.eqb p) l = true.
Proof.
  intros H. apply existsb_exists. exists p. split; [exact H | apply String.eqb_refl].
Qed.

Lemma named_temporary_file_runs (suffix : string) (w : World) :
  fails (outside w) (calls w) = false ->
  named_temporary_file suffix w
  = (Ok (fresh (outside w) (issued w) ++ suffix),
     set_files (set_issued (called (EvMkTemp suffix) w) (S (issued w)))
       (files w +++ [fresh (outside w) (issued w) ++ suffix])).
Proof.
  intros H. unfold named_temporary_file, bind. rewrite (ext_runs _ w H). reflexivity.
Qed.

Lemma read_file_runs (path : string) (w : World) :
  fails (outside w) (calls w) = false -> In path (files w) ->
  read_file path w = (Ok (content (outside w) path), called (EvReadFile path) w).
Proof.
  intros H Hin. unfold read_file, bind. rewrite (ext_runs _ w H).
  unfold get_world. cbn [files called set_trace set_calls].
  now rewrite (existsb_in path _ Hin).
Qed.

Lemma os_remove_runs (path : string) (w : World) :
  fails (outside w) (calls w) = false -> In path (files w) ->
  os_remove path w
  = (Ok tt, set_files (called (EvRemove path) w)
              (filter (fun p => negb (String.eqb p path)) (files w))).
Proof.
  intros H Hin. unfold os_remove, bind. rewrite (ext_runs _ w H).
  unfold get_world. cbn [files called set_trace set_calls].
  now rewrite (existsb_in path _ Hin).
Qed.

Lemma download_word_template_runs (uid : string) (rec : record_obj) (w : World) :
  fails (outside w) (calls w) = false ->
  fails (outside w) (S (calls w)) = false ->
  find_record w uid = Some rec -> ro_files rec <> [] ->
  exists file_info,
    download_word_template uid w
    = (Ok file_info, called (EvDownloadAttachment uid) (called (EvGetRecord uid) w)).
Proof.
  intros H0 H1 Hr Hf. unfold download_word_template, get_record, bind.
  rewrite (ext_runs _ w H0). unfold get_world.
  change (find_record (called (EvGetRecord uid) w) uid) with (find_record w uid).
  rewrite Hr. unfold ret.
  destruct (ro_files rec) as [|file_info l]; [congruence |].
  exists file_info. rewrite ext_runs by exact H1. reflexivity.
Qed.

Ltac world_fields :=
  cbn [outside calls issued folders records files log trace called
       set_calls set_issued set_folders set_records set_files set_log set_trace].

(** X26.  When every call succeeds and the names of the two temporary
    files are new, [render_convert] returns the bytes of the PDF and removes
    both files again: the files are those from before, and the vault and the
    log are untouched. *)
Theorem render_convert_cleans_up (globals : PyDict.dict string)
  (context : PyDict.dict pyval) (word_uid : string) (rec : record_obj) (w : World) :
  let tmp_docx_path := fresh (outside w) (issued w) ++ ".docx" in
  let tmp_pdf_path := fresh (outside w) (S (issued w)) ++ ".pdf" in
  never_fails w ->
  PyDict.get globals "word_uid" = Some word_uid ->
  find_record w word_uid = Some rec ->
  ro_files rec <> [] ->
  ~ In tmp_docx_path (files w) ->
  ~ In tmp_pdf_path (files w) ->
  exists w',
    render_convert globals context w = (Ok (content (outside w) tmp_pdf_path), w')
    /\ files w' = files w
    /\ folders w' = folders w /\ records w' = records w /\ log w' = log w.
Proof.
  intros docx pdf Hnf Hg Hr Hfiles Hd Hp.
  destruct (download_word_template_runs word_uid rec w (Hnf _) (Hnf _) Hr Hfiles)
    as [file_info Hdl].
  eexists. split.
  - unfold render_convert.
    etransitivity;
      [apply ProvisioningFacts.bind_ok; unfold lift, global_name; rewrite Hg;
       reflexivity |].
    etransitivity; [apply ProvisioningFacts.bind_ok; exact Hdl |].
    etransitivity; [apply ProvisioningFacts.bind_ok; apply ext_runs, Hnf |].
    etransitivity; [apply ProvisioningFacts.bind_ok; apply ext_runs, Hnf |].
    etransitivity.
    { apply ProvisioningFacts.bind_ok.
      etransitivity;
        [apply ProvisioningFacts.bind_ok; apply named_temporary_file_runs, Hnf |].
      etransitivity; [apply ProvisioningFacts.bind_ok; apply ext_runs, Hnf |].
      reflexivity. }
    etransitivity;
      [apply ProvisioningFacts.bind_ok; apply named_temporary_file_runs, Hnf |].
    do 5 (etransitivity; [apply ProvisioningFacts.bind_ok; apply ext_runs, Hnf |]).
    world_fields.
    etransitivity.
    { apply ProvisioningFacts.bind_ok. apply read_file_runs; [apply Hnf |].
      world_fields. rewrite !in_app_iff. cbn [In]. auto. }
    etransitivity.
    { apply ProvisioningFacts.bind_ok. apply os_remove_runs; [apply Hnf |].
      world_fields. rewrite !in_app_iff. cbn [In]. auto. }
    etransitivity.
    { apply ProvisioningFacts.bind_ok. apply os_remove_runs; [apply Hnf |].
      world_fields. apply filter_In. split.
      - rewrite !in_app_iff. cbn [In]. auto.
      - apply negb_true_iff, String.eqb_neq. intros E. symmetry in E.
        revert E. apply docx_is_not_pdf. }
    reflexivity.
  - world_fields. fold docx pdf. rewrite !filter_app. cbn [filter].
    rewrite String.eqb_refl.
    assert (E1 : String.eqb pdf docx = false).
    { apply String.eqb_neq. intros E. symmetry in E. revert E. apply docx_is_not_pdf. }
    rewrite E1. cbn [negb filter]. rewrite String.eqb_refl. cbn [negb].
    rewrite (filter_absent docx _ Hd), (filter_absent pdf _ Hp), app_nil_r.
    rewrite ?app_nil_r. repeat split.
Qed.

Lemma render_convert_cleans_up_witness :
  let w := Scenario.vault Scenario.never in
  exists w',
    render_convert Scenario.globals_with_word_uid [] w
    = (Ok (content (outside w) (fresh (outside w) (S (issued w)) ++ ".pdf")), w')
    /\ files w' = files w
    /\ folders w' = folders w /\ records w' = records w /\ log w' = log w.
Proof.
  apply (render_convert_cleans_up Scenario.globals_with_word_uid [] "word"
           {| ro_uid := "word"; ro_title := "Word template"; ro_notes := "";
              ro_fields := []; ro_folder := "target";
              ro_files := ["template.docx"] |}
           (Scenario.vault Scenario.never)).
  - unfold never_fails. intros n. reflexivity.
  - reflexivity.
  - reflexivity.
  - discriminate.
  - intros [].
  - intros [].
Defined.

Ltac call_runs Hok :=
  etransitivity;
  [apply ProvisioningFacts.bind_ok;
   first [apply ext_runs | apply named_temporary_file_runs];
   world_fields; apply Hok; lia |].

Ltac call_fails Hbad :=
  unfold read_file, os_remove;
  repeat apply ProvisioningFacts.bind_raise;
  apply ext_fails; world_fields; exact Hbad.

Ltac render_starts Hg Hdl Hok :=
  unfold render_convert;
  etransitivity;
  [apply ProvisioningFacts.bind_ok; unfold lift, global_name; rewrite Hg;
   reflexivity |];
  etransitivity; [apply ProvisioningFacts.bind_ok; exact Hdl |];
  do 2 call_runs Hok;
  etransitivity;
  [apply ProvisioningFacts.bind_ok; do 2 call_runs Hok; reflexivity |];
  call_runs Hok.

(** X27.  When one of the calls between the creation of the second
    temporary file and the first removal fails (the start of the word
    processor, opening, saving, closing, quitting, reading the PDF or
    removing the DOCX), [render_convert] leaves with that exception and
    both temporary files stay on disk. *)
Theorem render_convert_leaves_files (globals : PyDict.dict string)
  (context : PyDict.dict pyval) (word_uid : string) (rec : record_obj) (w : World)
  (k : nat) :
  let tmp_docx_path := fresh (outside w) (issued w) ++ ".docx" in
  let tmp_pdf_path := fresh (outside w) (S (issued w)) ++ ".pdf" in
  PyDict.get globals "word_uid" = Some word_uid ->
  find_record w word_uid = Some rec ->
  ro_files rec <> [] ->
  7 <= k <= 13 ->
  (forall i, i < k -> fails (outside w) (i + calls w) = false) ->
  fails (outside w) (k + calls w) = true ->
  exists w',
    render_convert globals context w = (Raise (ExternalError (k + calls w)), w')
    /\ files w' = files w +++ [tmp_docx_path; tmp_pdf_path].
Proof.
  intros docx pdf Hg Hr Hfiles Hk Hok Hbad.
  assert (Hok' : forall m, calls w <= m -> m < k + calls w ->
                           fails (outside w) m = false).
  { intros m H1 H2. replace m with ((m - calls w) + calls w) by lia.
    apply Hok. lia. }
  destruct (download_word_template_runs word_uid rec w) as [file_info Hdl];
    try assumption; try (apply Hok'; lia).
  assert (K : k = 7 \/ k = 8 \/ k = 9 \/ k = 10 \/ k = 11 \/ k = 12 \/ k = 13) by lia.
  clear Hok Hk.
  destruct K as [-> | [-> | [-> | [-> | [-> | [-> | ->]]]]]];
    eexists; (split; [render_starts Hg Hdl Hok' |]).
  - call_fails Hbad.
  - world_fields. now rewrite <- app_assoc.
  - do 1 call_runs Hok'. call_fails Hbad.
  - world_fields. now rewrite <- app_assoc.
  - do 2 call_runs Hok'. call_fails Hbad.
  - world_fields. now rewrite <- app_assoc.
  - do 3 call_runs Hok'. call_fails Hbad.
  - world_fields. now rewrite <- app_assoc.
  - do 4 call_runs Hok'. call_fails Hbad.
  - world_fields. now rewrite <- app_assoc.
  - do 5 call_runs Hok'. call_fails Hbad.
  - world_fields. now rewrite <- app_assoc.
  - do 5 call_runs Hok'.
    etransitivity.
    { apply ProvisioningFacts.bind_ok. apply read_file_runs.
      - world_fields. apply Hok'; lia.
      - world_fields. rewrite !in_app_iff. cbn [In]. auto. }
    call_fails Hbad.
  - world_fields. now rewrite <- app_assoc.
Qed.

Lemma render_convert_leaves_files_witness :
  let w := Scenario.vault (Scenario.only 9) in
  exists w',
    render_convert Scenario.globals_with_word_uid [] w
    = (Raise (ExternalError (9 + calls w)), w')
    /\ files w' = files w +++ [fresh (outside w) (issued w) ++ ".docx";
                               fresh (outside w) (S (issued w)) ++ ".pdf"].
Proof.
  apply (render_convert_leaves_files Scenario.globals_with_word_uid [] "word"
           {| ro_uid := "word"; ro_title := "Word template"; ro_notes := "";
              ro_fields := []; ro_folder := "target";
              ro_files := ["template.docx"] |}
           (Scenario.vault (Scenario.only 9)) 9).
  - reflexivity.
  - reflexivity.
  - discriminate.
  - lia.
  - intros i Hi. cbn. unfold Scenario.only. apply Nat.eqb_neq. lia.
  - reflexivity.
Defined.

End GeneratorExtraFacts.
